(** * Car Management System (app.py): a shallow embedding and its properties

    The application is one Flask module, [app.py]: five MySQL tables
    (users, cars, customers, bookings, services), an admin login and CRUD
    request handlers.  This file embeds the schema, the SQL statements the
    handlers issue, the handlers themselves and the one derived computation
    ([calc_total_cost]) as Rocq functions, and proves the properties the
    specification states about them.

    Conventions of the embedding.
    - A table is the list of its rows together with its AUTO_INCREMENT
      counter.  The [created_at] column (a wall-clock default) is left out.
    - A handler is a computation in a state-and-exception monad over the
      pair (database, session).  Every statement commits on its own
      ([autocommit=True]), so an exception keeps the effects of the
      statements that ran before it.
    - The declared constraints NOT NULL, UNIQUE and FOREIGN KEY (with
      ON DELETE CASCADE) are checked on the rows a statement touches.
      Column widths and the database's own conversions of the submitted text
      are outside the model: rows hold the values the code hands to the
      driver, numeric form fields arrive decoded ([None] for an absent or
      empty field).
    - The texts of a form are taken to be ASCII.  [strptime] is embedded
      for such texts: its pattern also reads the decimal digits of other
      scripts, which the embedding does not.  What the embedding reads as a
      date the library reads as the same date; a statement that [strptime]
      fails on a text says of the text that it is ASCII ([is_ascii]).
    - Python's [float] is a binary64 number: [PrimFloat.float].
    - Of the libraries, [datetime] is embedded (dates, their ordinals and
      [strptime] for the format the code uses, on ASCII text); werkzeug's
      password hashing and the collation of the database are parameters of
      [login] and [init_db]. *)

From Stdlib Require Import ZArith List String Ascii Bool Lia.
From Stdlib Require Import Floats Uint63.
Import ListNotations.

Open Scope string_scope.
Open Scope list_scope.
Open Scope Z_scope.

(** ** Exceptions *)

Inductive exn : Type :=
| TypeError        (* a [None] where a string is required *)
| ValueError       (* [strptime]: the text does not match the format *)
| OverflowError    (* [float]: an [int] too large for a [float] *)
| AttributeError   (* a method looked up on [None] *)
| IntegrityError.  (* the database refuses a statement on a constraint *)

Inductive result (A : Type) : Type :=
| Ok (a : A)
| Raise (e : exn).
Arguments Ok {A} a.
Arguments Raise {A} e.

(** ** Calendar dates: [datetime.date]

    The functions below are those of the standard library's [datetime]
    module that [calc_total_cost] reaches through [strptime(...).date()] and
    the subtraction of two dates. *)

Module Datetime.

Record date : Type := mk_date { year : Z; month : Z; day : Z }.

Definition MINYEAR : Z := 1.
Definition MAXYEAR : Z := 9999.

Definition _is_leap (y : Z) : bool :=
  (y mod 4 =? 0) && (negb (y mod 100 =? 0) || (y mod 400 =? 0)).

Definition _days_before_year (y : Z) : Z :=
  let y := y - 1 in y * 365 + y / 4 - y / 100 + y / 400.

Definition _DAYS_IN_MONTH (m : Z) : Z :=
  match m with
  | 1 => 31 | 2 => 28 | 3 => 31 | 4 => 30 | 5 => 31 | 6 => 30
  | 7 => 31 | 8 => 31 | 9 => 30 | 10 => 31 | 11 => 30 | 12 => 31
  | _ => -1
  end.

Definition _days_in_month (y m : Z) : Z :=
  if (m =? 2) && _is_leap y then 29 else _DAYS_IN_MONTH m.

Definition _DAYS_BEFORE_MONTH (m : Z) : Z :=
  match m with
  | 1 => 0 | 2 => 31 | 3 => 59 | 4 => 90 | 5 => 120 | 6 => 151
  | 7 => 181 | 8 => 212 | 9 => 243 | 10 => 273 | 11 => 304 | 12 => 334
  | _ => -1
  end.

Definition _days_before_month (y m : Z) : Z :=
  _DAYS_BEFORE_MONTH m + (if (2 <? m) && _is_leap y then 1 else 0).

Definition _ymd2ord (y m d : Z) : Z :=
  _days_before_year y + _days_before_month y m + d.

(** The check of the [date] constructor ([_check_date_fields]). *)
Definition check_date_fields (y m d : Z) : bool :=
  (MINYEAR <=? y) && (y <=? MAXYEAR) &&
  (1 <=? m) && (m <=? 12) &&
  (1 <=? d) && (d <=? _days_in_month y m).

Definition valid (dt : date) : Prop :=
  check_date_fields (year dt) (month dt) (day dt) = true.

Definition toordinal (dt : date) : Z :=
  _ymd2ord (year dt) (month dt) (day dt).

(** [(b - a).days] *)
Definition days_between (a b : date) : Z := toordinal b - toordinal a.

(** Comparison of dates is the comparison of the tuples
    [(year, month, day)] ([date._cmp]). *)
Definition cmp (a b : date) : comparison :=
  match year a ?= year b with
  | Eq => match month a ?= month b with
          | Eq => day a ?= day b
          | c => c
          end
  | c => c
  end.

Definition le (a b : date) : Prop := cmp a b <> Gt.
Definition lt (a b : date) : Prop := cmp a b = Lt.

(** *** [datetime.strptime(s, "%Y-%m-%d").date()] on ASCII text

    The format compiles to the regular expression
    [(\d\d\d\d)-(1[0-2]|0[1-9]|[1-9])-(3[01]|[12]\d|0[1-9]|[1-9]| [1-9])],
    matched at the start of the text with the alternatives tried in this
    order; text left over after the match, and fields that are no date, are
    a [ValueError]. *)

Definition digit (c : ascii) : option Z :=
  let n := Z.of_N (N_of_ascii c) in
  if (48 <=? n) && (n <=? 57) then Some (n - 48) else None.

Definition in_range (lo hi : Z) (o : option Z) : option Z :=
  match o with
  | Some n => if (lo <=? n) && (n <=? hi) then Some n else None
  | None => None
  end.

(** The ways the month group can match a prefix of [l], in the order the
    expression tries them, each with the text that remains. *)
Definition month_matches (l : list ascii) : list (Z * list ascii) :=
  (match l with
   | c1 :: c2 :: r =>
       match in_range 1 1 (digit c1), in_range 0 2 (digit c2) with
       | Some a, Some b => [(10 * a + b, r)]
       | _, _ => []
       end
   | _ => []
   end)
  ++
  (match l with
   | c1 :: c2 :: r =>
       match in_range 0 0 (digit c1), in_range 1 9 (digit c2) with
       | Some _, Some b => [(b, r)]
       | _, _ => []
       end
   | _ => []
   end)
  ++
  (match l with
   | c1 :: r =>
       match in_range 1 9 (digit c1) with
       | Some a => [(a, r)]
       | None => []
       end
   | _ => []
   end).

Definition day_matches (l : list ascii) : list (Z * list ascii) :=
  (match l with
   | c1 :: c2 :: r =>
       match in_range 3 3 (digit c1), in_range 0 1 (digit c2) with
       | Some a, Some b => [(10 * a + b, r)]
       | _, _ => []
       end
   | _ => []
   end)
  ++
  (match l with
   | c1 :: c2 :: r =>
       match in_range 1 2 (digit c1), digit c2 with
       | Some a, Some b => [(10 * a + b, r)]
       | _, _ => []
       end
   | _ => []
   end)
  ++
  (match l with
   | c1 :: c2 :: r =>
       match in_range 0 0 (digit c1), in_range 1 9 (digit c2) with
       | Some _, Some b => [(b, r)]
       | _, _ => []
       end
   | _ => []
   end)
  ++
  (match l with
   | c1 :: r =>
       match in_range 1 9 (digit c1) with
       | Some a => [(a, r)]
       | None => []
       end
   | _ => []
   end)
  ++
  (match l with
   | " "%char :: c2 :: r =>
       match in_range 1 9 (digit c2) with
       | Some b => [(b, r)]
       | None => []
       end
   | _ => []
   end).

Definition year_match (l : list ascii) : option (Z * list ascii) :=
  match l with
  | c1 :: c2 :: c3 :: c4 :: r =>
      match digit c1, digit c2, digit c3, digit c4 with
      | Some a, Some b, Some c, Some d =>
          Some (1000 * a + 100 * b + 10 * c + d, r)
      | _, _, _, _ => None
      end
  | _ => None
  end.

(** The first month alternative after which ["-"] and a day follow. *)
Fixpoint month_then_day (ms : list (Z * list ascii))
  : option (Z * Z * list ascii) :=
  match ms with
  | [] => None
  | (m, "-"%char :: r) :: ms' =>
      match day_matches r with
      | (d, r') :: _ => Some (m, d, r')
      | [] => month_then_day ms'
      end
  | _ :: ms' => month_then_day ms'
  end.

Definition strptime_ymd (s : string) : option date :=
  match year_match (list_ascii_of_string s) with
  | Some (y, "-"%char :: r) =>
      match month_then_day (month_matches r) with
      | Some (m, d, []) =>
          if check_date_fields y m d then Some (mk_date y m d) else None
      | _ => None
      end
  | _ => None
  end.

End Datetime.

(** ** Python numbers *)

(** The binary64 number nearest to an integer of magnitude below 2^63:
    the primitive conversion, with the sign put back. *)
Definition float_of_small_int (n : Z) : float :=
  if n <? 0 then PrimFloat.opp (PrimFloat.of_uint63 (Uint63.of_Z (- n)))
  else PrimFloat.of_uint63 (Uint63.of_Z n).

(** [float(n)] for an [int] [n], and the conversion of the [int] operand
    of [float * int] ([PyLong_AsDouble]): the binary64 number nearest to [n],
    ties to even, and [OverflowError] when that number would not be
    finite.  Below 2^63 this is the primitive conversion; above, the
    rounding of [SpecFloat]. *)
Definition float_of_int (n : Z) : result float :=
  if Z.abs n <? 2 ^ 63 then Ok (float_of_small_int n)
  else
    let x := SF2Prim (binary_normalize prec emax n 0 false) in
    if PrimFloat.is_infinity x then Raise OverflowError else Ok x.

(** A DECIMAL(10,2) value is kept as its number of hundredths (at most ten
    digits); the driver returns it as a [Decimal], and [float(Decimal)] is
    the binary64 number nearest to it: the quotient, rounded once, of two
    numbers that binary64 holds exactly. *)
Definition decimal : Type := Z.

Definition float_of_decimal (c : decimal) : float :=
  PrimFloat.div (float_of_small_int c) 100%float.

(** The price handed to [calc_total_cost] is a [float], or the [int] [0]
    when the car was not found; [float(...)] is the identity on the first
    and converts the second. *)
Inductive number : Type :=
| PyInt (n : Z)
| PyFloat (x : float).

Definition float_ (v : number) : result float :=
  match v with
  | PyInt n => float_of_int n
  | PyFloat x => Ok x
  end.

(** ** Bookings: the cost of a rental *)

Definition strptime (o : option string) : result Datetime.date :=
  match o with
  | None => Raise TypeError
  | Some s =>
      match Datetime.strptime_ymd s with
      | Some d => Ok d
      | None => Raise ValueError
      end
  end.

Definition calc_total_cost (car_price_per_day : number)
    (start_date end_date : option string) : result float :=
  match strptime start_date with
  | Raise e => Raise e
  | Ok sd =>
      match strptime end_date with
      | Raise e => Raise e
      | Ok ed =>
          let days := Datetime.days_between sd ed + 1 in
          let days := if days <? 1 then 1 else days in
          match float_ car_price_per_day with
          | Raise e => Raise e
          | Ok price =>
              match float_of_int days with
              | Raise e => Raise e
              | Ok d => Ok (PrimFloat.mul price d)
              end
          end
      end
  end.

(** The arithmetic the statements below are written in: the primitive
    binary64 conversion of a count of days, and of a number of hundredths
    divided by 100. *)
#[warning="-notation-for-abbreviation"]
Notation days_as_float n :=
  (PrimFloat.of_uint63 (Uint63.of_Z n)) (only parsing).
#[warning="-notation-for-abbreviation"]
Notation hundredths_as_float p :=
  (PrimFloat.div
     (if p <? 0 then PrimFloat.opp (PrimFloat.of_uint63 (Uint63.of_Z (- p)))
      else PrimFloat.of_uint63 (Uint63.of_Z p))
     100%float) (only parsing).

(** ** The schema ([init_db], the CREATE TABLE statements) *)

Record User : Type := mk_user {
  user_id : Z;
  user_username : string;        (* UNIQUE NOT NULL *)
  user_password_hash : string;   (* NOT NULL *)
  user_role : option string
}.

Record Car : Type := mk_car {
  car_id : Z;
  car_name : string;             (* NOT NULL *)
  car_brand : option string;
  car_model : option string;
  car_year : option Z;
  car_price_per_day : decimal;
  car_status : string;
  car_description : option string
}.

Record Customer : Type := mk_customer {
  customer_id : Z;
  customer_name : string;        (* NOT NULL *)
  customer_email : option string;
  customer_phone : option string;
  customer_license_no : option string;
  customer_address : option string
}.

Record Booking : Type := mk_booking {
  booking_id : Z;
  booking_car_id : Z;            (* NOT NULL, REFERENCES cars(id) *)
  booking_customer_id : Z;       (* NOT NULL, REFERENCES customers(id) *)
  booking_start_date : string;   (* NOT NULL *)
  booking_end_date : string;     (* NOT NULL *)
  booking_total_cost : float;
  booking_status : option string
}.

Record Service : Type := mk_service {
  service_id : Z;
  service_car_id : Z;            (* NOT NULL, REFERENCES cars(id) *)
  service_date : option string;
  service_type : option string;
  service_cost : decimal;
  service_remarks : option string
}.

(** The primary key [id] of a row. *)
Class Row (A : Type) : Type := { pk : A -> Z }.

#[export] Instance User_Row : Row User := {| pk := user_id |}.
#[export] Instance Car_Row : Row Car := {| pk := car_id |}.
#[export] Instance Customer_Row : Row Customer := {| pk := customer_id |}.
#[export] Instance Booking_Row : Row Booking := {| pk := booking_id |}.
#[export] Instance Service_Row : Row Service := {| pk := service_id |}.

Record table (A : Type) : Type := mk_table {
  rows : list A;
  auto_increment : Z
}.
Arguments mk_table {A} rows auto_increment.
Arguments rows {A} t.
Arguments auto_increment {A} t.

Definition empty_table {A : Type} : table A := mk_table [] 1.

Record Store : Type := mk_store {
  users : table User;
  cars : table Car;
  customers : table Customer;
  bookings : table Booking;
  services : table Service
}.

(** *** Statements on one table *)

Section Statements.
Context {A : Type} `{Row A}.

(** [WHERE id=%s]; a NULL parameter matches no row. *)
Definition id_is (i : option Z) (r : A) : bool :=
  match i with
  | Some n => pk r =? n
  | None => false
  end.

(** [SELECT ... WHERE id=%s] followed by [fetchone()]. *)
Definition select_by_id (t : table A) (i : option Z) : option A :=
  find (id_is i) (rows t).

(** [INSERT]: [mk] builds the row from the fresh id. *)
Definition insert (t : table A) (mk : Z -> A) : table A :=
  mk_table (rows t ++ [mk (auto_increment t)]) (auto_increment t + 1).

(** [UPDATE ... WHERE id=%s] *)
Definition update_by_id (t : table A) (i : option Z) (f : A -> A) : table A :=
  mk_table (map (fun r => if id_is i r then f r else r) (rows t))
           (auto_increment t).

(** [DELETE ... WHERE id=%s], on this table alone. *)
Definition delete_by_id (t : table A) (i : option Z) : table A :=
  mk_table (filter (fun r => negb (id_is i r)) (rows t)) (auto_increment t).

Definition has_id (t : table A) (i : option Z) : bool :=
  existsb (id_is i) (rows t).
End Statements.

(** *** The statements the handlers execute

    A statement that a constraint refuses raises and leaves the store as it
    was; constraints are checked on the rows the statement touches, so an
    UPDATE that matches no row succeeds whatever its values. *)

Definition with_users (s : Store) (t : table User) : Store :=
  mk_store t (cars s) (customers s) (bookings s) (services s).
Definition with_cars (s : Store) (t : table Car) : Store :=
  mk_store (users s) t (customers s) (bookings s) (services s).
Definition with_customers (s : Store) (t : table Customer) : Store :=
  mk_store (users s) (cars s) t (bookings s) (services s).
Definition with_bookings (s : Store) (t : table Booking) : Store :=
  mk_store (users s) (cars s) (customers s) t (services s).
Definition with_services (s : Store) (t : table Service) : Store :=
  mk_store (users s) (cars s) (customers s) (bookings s) t.

(** [INSERT INTO cars (name, brand, model, year, price_per_day, status,
    description) VALUES (...)] *)
Definition insert_car (s : Store) (name brand model : option string)
    (year : option Z) (price : decimal) (status : string)
    (description : option string) : result Store :=
  match name with
  | Some n =>
      Ok (with_cars s (insert (cars s) (fun i =>
            mk_car i n brand model year price status description)))
  | None => Raise IntegrityError
  end.

(** [UPDATE cars SET name=%s, ..., description=%s WHERE id=%s] *)
Definition update_car (s : Store) (id : Z) (name brand model : option string)
    (year : option Z) (price : decimal) (status : string)
    (description : option string) : result Store :=
  if has_id (cars s) (Some id) then
    match name with
    | Some n =>
        Ok (with_cars s (update_by_id (cars s) (Some id) (fun c =>
              mk_car (car_id c) n brand model year price status description)))
    | None => Raise IntegrityError
    end
  else Ok s.

(** [UPDATE cars SET status=%s WHERE id=%s] *)
Definition update_car_status (s : Store) (status : string)
    (id : option Z) : Store :=
  with_cars s (update_by_id (cars s) id (fun c =>
    mk_car (car_id c) (car_name c) (car_brand c) (car_model c) (car_year c)
           (car_price_per_day c) status (car_description c))).

(** [DELETE FROM cars WHERE id=%s]; the bookings and the services that
    reference a deleted car go with it (ON DELETE CASCADE). *)
Definition delete_car_row (s : Store) (id : Z) : Store :=
  if has_id (cars s) (Some id) then
    mk_store (users s)
             (delete_by_id (cars s) (Some id))
             (customers s)
             (mk_table (filter (fun b => negb (booking_car_id b =? id))
                               (rows (bookings s)))
                       (auto_increment (bookings s)))
             (mk_table (filter (fun v => negb (service_car_id v =? id))
                               (rows (services s)))
                       (auto_increment (services s)))
  else s.

(** [INSERT INTO customers (name,email,phone,license_no,address) ...] *)
Definition insert_customer (s : Store)
    (name email phone license_no address : option string) : result Store :=
  match name with
  | Some n =>
      Ok (with_customers s (insert (customers s) (fun i =>
            mk_customer i n email phone license_no address)))
  | None => Raise IntegrityError
  end.

(** [UPDATE customers SET name=%s, ..., address=%s WHERE id=%s] *)
Definition update_customer (s : Store) (id : Z)
    (name email phone license_no address : option string) : result Store :=
  if has_id (customers s) (Some id) then
    match name with
    | Some n =>
        Ok (with_customers s (update_by_id (customers s) (Some id) (fun c =>
              mk_customer (customer_id c) n email phone license_no address)))
    | None => Raise IntegrityError
    end
  else Ok s.

(** [DELETE FROM customers WHERE id=%s]; the bookings of a deleted customer
    go with it (ON DELETE CASCADE). *)
Definition delete_customer_row (s : Store) (id : Z) : Store :=
  if has_id (customers s) (Some id) then
    mk_store (users s) (cars s)
             (delete_by_id (customers s) (Some id))
             (mk_table (filter (fun b => negb (booking_customer_id b =? id))
                               (rows (bookings s)))
                       (auto_increment (bookings s)))
             (services s)
  else s.

(** The values of a bookings row, checked against NOT NULL and the two
    foreign keys. *)
Definition booking_values (s : Store) (car customer : option Z)
    (start_date end_date : option string) (total : float)
    (status : option string) : option (Z -> Booking) :=
  match car, customer, start_date, end_date with
  | Some c, Some cu, Some sd, Some ed =>
      if has_id (cars s) (Some c) && has_id (customers s) (Some cu)
      then Some (fun i => mk_booking i c cu sd ed total status)
      else None
  | _, _, _, _ => None
  end.

(** [INSERT INTO bookings (car_id, customer_id, start_date, end_date,
    total_cost, status) VALUES (...)] *)
Definition insert_booking (s : Store) (car customer : option Z)
    (start_date end_date : option string) (total : float)
    (status : option string) : result Store :=
  match booking_values s car customer start_date end_date total status with
  | Some mk => Ok (with_bookings s (insert (bookings s) mk))
  | None => Raise IntegrityError
  end.

(** [UPDATE bookings SET car_id=%s, ..., status=%s WHERE id=%s] *)
Definition update_booking (s : Store) (id : Z) (car customer : option Z)
    (start_date end_date : option string) (total : float)
    (status : option string) : result Store :=
  if has_id (bookings s) (Some id) then
    match booking_values s car customer start_date end_date total status with
    | Some mk =>
        Ok (with_bookings s (update_by_id (bookings s) (Some id) (fun b =>
              mk (booking_id b))))
    | None => Raise IntegrityError
    end
  else Ok s.

(** [DELETE FROM bookings WHERE id=%s] *)
Definition delete_booking_row (s : Store) (id : Z) : Store :=
  with_bookings s (delete_by_id (bookings s) (Some id)).

Definition service_values (s : Store) (car : option Z)
    (date type : option string) (cost : decimal) (remarks : option string)
  : option (Z -> Service) :=
  match car with
  | Some c =>
      if has_id (cars s) (Some c)
      then Some (fun i => mk_service i c date type cost remarks)
      else None
  | None => None
  end.

(** [INSERT INTO services (car_id, service_date, service_type, cost,
    remarks) VALUES (...)] *)
Definition insert_service (s : Store) (car : option Z)
    (date type : option string) (cost : decimal) (remarks : option string)
  : result Store :=
  match service_values s car date type cost remarks with
  | Some mk => Ok (with_services s (insert (services s) mk))
  | None => Raise IntegrityError
  end.

(** [UPDATE services SET car_id=%s, ..., remarks=%s WHERE id=%s] *)
Definition update_service (s : Store) (id : Z) (car : option Z)
    (date type : option string) (cost : decimal) (remarks : option string)
  : result Store :=
  if has_id (services s) (Some id) then
    match service_values s car date type cost remarks with
    | Some mk =>
        Ok (with_services s (update_by_id (services s) (Some id) (fun v =>
              mk (service_id v))))
    | None => Raise IntegrityError
    end
  else Ok s.

(** [DELETE FROM services WHERE id=%s] *)
Definition delete_service_row (s : Store) (id : Z) : Store :=
  with_services s (delete_by_id (services s) (Some id)).

(** ** Requests, responses and the handler monad *)

Record Session : Type := mk_session {
  session_user_id : option Z;        (* session['user_id'] *)
  session_username : option string;  (* session['username'] *)
  flashes : list (string * string)   (* (message, category), oldest first *)
}.

Definition empty_session : Session := mk_session None None [].

Record World : Type := mk_world {
  db : Store;
  session : Session
}.

(** A handler runs on the world and either returns or raises (the request
    then fails with a server error); the world it leaves is kept in both
    cases. *)
Definition M (A : Type) : Type := World -> result A * World.

Definition ret {A : Type} (a : A) : M A := fun w => (Ok a, w).

Definition bind {A B : Type} (m : M A) (k : A -> M B) : M B :=
  fun w =>
    match m w with
    | (Ok a, w') => k a w'
    | (Raise e, w') => (Raise e, w')
    end.

Declare Scope handler_scope.
Delimit Scope handler_scope with handler.
Notation "x <- m ;; k" := (bind m (fun x => k))
  (at level 61, m at next level, right associativity) : handler_scope.
Notation "m ;; k" := (bind m (fun _ => k))
  (at level 61, right associativity) : handler_scope.
Open Scope handler_scope.

(** [cur.execute(SELECT ...)] and [fetchone()] *)
Definition query {A : Type} (q : Store -> A) : M A :=
  fun w => (Ok (q (db w)), w).

(** [cur.execute(...)] of a statement that writes *)
Definition execute (stmt : Store -> result Store) : M unit :=
  fun w =>
    match stmt (db w) with
    | Ok s' => (Ok tt, mk_world s' (session w))
    | Raise e => (Raise e, w)
    end.

Definition lift {A : Type} (r : result A) : M A := fun w => (r, w).

(** [flash(message, category)] *)
Definition flash (message category : string) : M unit :=
  fun w =>
    (Ok tt,
     mk_world (db w)
       (mk_session (session_user_id (session w))
                   (session_username (session w))
                   (flashes (session w) ++ [(message, category)]))).

Inductive request (F : Type) : Type :=
| GET
| POST (form : F).
Arguments GET {F}.
Arguments POST {F} form.

(** What a template is rendered with.  Of the context of the edit pages the
    row under edit is kept; the selection lists of cars and customers that
    some pages also receive are not.  Of the dashboard the four totals are
    kept.  The rows of the list pages and the recent bookings of the
    dashboard come in the order of the [created_at] column, which the store
    does not keep: they are left out ([listing]). *)
Inductive context : Type :=
| no_context
| listing
| dashboard_context (total_cars total_customers total_bookings
                     total_services : Z)
| car_context (car : Car)
| customer_context (customer : Customer)
| booking_context (booking : Booking)
| service_context (service : Service).

(** A response is a redirect or a rendered page; the page shows the
    notices that were pending when it was rendered. *)
Inductive response : Type :=
| redirect (endpoint : string)                          (* redirect(url_for(endpoint)) *)
| page (template : string) (ctx : context) (messages : list (string * string)).

(** [render_template(template, ...)].  Every template extends
    [layout.html], which shows the flashed notices with
    [get_flashed_messages] and so takes them out of the session. *)
Definition render_template (template : string) (ctx : context) : M response :=
  fun w =>
    (Ok (page template ctx (flashes (session w))),
     mk_world (db w)
       (mk_session (session_user_id (session w))
                   (session_username (session w)) [])).

(** [x or default] on a text field: an absent and an empty field are both
    falsy. *)
Definition or_text (o : option string) (default : string) : string :=
  match o with
  | Some s => if (s =? "")%string then default else s
  | None => default
  end.

(** [x or None] on a text field *)
Definition or_None (o : option string) : option string :=
  match o with
  | Some s => if (s =? "")%string then None else Some s
  | None => None
  end.

(** [x or 0] on a decoded numeric field *)
Definition or_zero (o : option decimal) : decimal :=
  match o with
  | Some n => n
  | None => 0
  end.

(** The decorator [admin_required]. *)
Definition admin_required (func : M response) : M response :=
  fun w =>
    match session_user_id (session w) with
    | None =>
        (flash "Please login first." "warning" ;;
         ret (redirect "login")) w
    | Some _ => func w
    end.

Definition logged_in (w : World) : Prop :=
  session_user_id (session w) <> None.

(** ** The forms ([request.form.get(...)]: [None] for an absent field) *)

Module CarForm.
Record t : Type := mk {
  name : option string;
  brand : option string;
  model : option string;
  year : option Z;
  price : option decimal;
  status : option string;
  description : option string
}.
End CarForm.

Module CustomerForm.
Record t : Type := mk {
  name : option string;
  email : option string;
  phone : option string;
  license_no : option string;
  address : option string
}.
End CustomerForm.

Module BookingForm.
Record t : Type := mk {
  car_id : option Z;
  customer_id : option Z;
  start_date : option string;
  end_date : option string;
  status : option string   (* read by [edit_booking] only *)
}.
End BookingForm.

Module ServiceForm.
Record t : Type := mk {
  car_id : option Z;
  service_date : option string;
  service_type : option string;
  cost : option decimal;
  remarks : option string
}.
End ServiceForm.

(** ** Admin dashboard *)

(** The number of rows of a table, as [SELECT COUNT] gives it. *)
Definition count {A : Type} (t : table A) : Z :=
  Z.of_nat (List.length (rows t)).

Definition dashboard : M response :=
  admin_required
    (total_cars <- query (fun s => count (cars s)) ;;
     total_customers <- query (fun s => count (customers s)) ;;
     total_bookings <- query (fun s => count (bookings s)) ;;
     total_services <- query (fun s => count (services s)) ;;
     render_template "dashboard.html"
       (dashboard_context total_cars total_customers total_bookings
                          total_services)).

(** ** Cars CRUD *)

Definition view_cars : M response :=
  admin_required (render_template "view_cars.html" listing).

Definition add_car (req : request CarForm.t) : M response :=
  admin_required
    match req with
    | POST f =>
        let year := CarForm.year f in
        let price := or_zero (CarForm.price f) in
        let status := or_text (CarForm.status f) "available" in
        execute (fun s => insert_car s (CarForm.name f) (CarForm.brand f)
                            (CarForm.model f) year price status
                            (CarForm.description f)) ;;
        flash "Car added." "success" ;;
        ret (redirect "view_cars")
    | GET => render_template "add_car.html" no_context
    end.

Definition edit_car (id : Z) (req : request CarForm.t) : M response :=
  admin_required
    match req with
    | POST f =>
        let year := CarForm.year f in
        let price := or_zero (CarForm.price f) in
        let status := or_text (CarForm.status f) "available" in
        execute (fun s => update_car s id (CarForm.name f) (CarForm.brand f)
                            (CarForm.model f) year price status
                            (CarForm.description f)) ;;
        flash "Car updated." "success" ;;
        ret (redirect "view_cars")
    | GET =>
        car <- query (fun s => select_by_id (cars s) (Some id)) ;;
        match car with
        | None =>
            flash "Car not found." "danger" ;;
            ret (redirect "view_cars")
        | Some c => render_template "edit_car.html" (car_context c)
        end
    end.

(** The route accepts POST only; the handler does not look at the form. *)
Definition delete_car (id : Z) : M response :=
  admin_required
    (execute (fun s => Ok (delete_car_row s id)) ;;
     flash "Car deleted." "info" ;;
     ret (redirect "view_cars")).

(** ** Customers CRUD *)

Definition view_customers : M response :=
  admin_required (render_template "view_customers.html" listing).

Definition add_customer (req : request CustomerForm.t) : M response :=
  admin_required
    match req with
    | POST f =>
        execute (fun s => insert_customer s (CustomerForm.name f)
                            (CustomerForm.email f) (CustomerForm.phone f)
                            (CustomerForm.license_no f)
                            (CustomerForm.address f)) ;;
        flash "Customer added." "success" ;;
        ret (redirect "view_customers")
    | GET => render_template "add_customer.html" no_context
    end.

Definition edit_customer (id : Z) (req : request CustomerForm.t) : M response :=
  admin_required
    match req with
    | POST f =>
        execute (fun s => update_customer s id (CustomerForm.name f)
                            (CustomerForm.email f) (CustomerForm.phone f)
                            (CustomerForm.license_no f)
                            (CustomerForm.address f)) ;;
        flash "Customer updated." "success" ;;
        ret (redirect "view_customers")
    | GET =>
        cust <- query (fun s => select_by_id (customers s) (Some id)) ;;
        match cust with
        | None =>
            flash "Customer not found." "danger" ;;
            ret (redirect "view_customers")
        | Some c =>
            render_template "edit_customer.html" (customer_context c)
        end
    end.

Definition delete_customer (id : Z) : M response :=
  admin_required
    (execute (fun s => Ok (delete_customer_row s id)) ;;
     flash "Customer deleted." "info" ;;
     ret (redirect "view_customers")).

(** ** Bookings CRUD *)

Definition view_bookings : M response :=
  admin_required (render_template "view_bookings.html" listing).

(** [float(car['price_per_day']) if car else 0] *)
Definition price_of (car : option Car) : number :=
  match car with
  | Some c => PyFloat (float_of_decimal (car_price_per_day c))
  | None => PyInt 0
  end.

(** [status in ('completed','cancelled')] *)
Definition completed_or_cancelled (status : option string) : bool :=
  match status with
  | Some s => (s =? "completed")%string || (s =? "cancelled")%string
  | None => false
  end.

Definition add_booking (req : request BookingForm.t) : M response :=
  admin_required
    match req with
    | POST f =>
        let car_id := BookingForm.car_id f in
        let customer_id := BookingForm.customer_id f in
        let start_date := BookingForm.start_date f in
        let end_date := BookingForm.end_date f in
        car <- query (fun s => select_by_id (cars s) car_id) ;;
        let price := price_of car in
        total <- lift (calc_total_cost price start_date end_date) ;;
        execute (fun s => insert_booking s car_id customer_id start_date
                            end_date total (Some "active")) ;;
        execute (fun s => Ok (update_car_status s "rented" car_id)) ;;
        flash "Booking created." "success" ;;
        ret (redirect "view_bookings")
    | GET => render_template "add_booking.html" no_context
    end.

Definition edit_booking (id : Z) (req : request BookingForm.t) : M response :=
  admin_required
    match req with
    | POST f =>
        let car_id := BookingForm.car_id f in
        let customer_id := BookingForm.customer_id f in
        let start_date := BookingForm.start_date f in
        let end_date := BookingForm.end_date f in
        let status := BookingForm.status f in
        car <- query (fun s => select_by_id (cars s) car_id) ;;
        let price := price_of car in
        total <- lift (calc_total_cost price start_date end_date) ;;
        execute (fun s => update_booking s id car_id customer_id start_date
                            end_date total status) ;;
        (if completed_or_cancelled status
         then execute (fun s => Ok (update_car_status s "available" car_id))
         else ret tt) ;;
        flash "Booking updated." "success" ;;
        ret (redirect "view_bookings")
    | GET =>
        booking <- query (fun s => select_by_id (bookings s) (Some id)) ;;
        match booking with
        | None =>
            flash "Booking not found." "danger" ;;
            ret (redirect "view_bookings")
        | Some b =>
            render_template "edit_booking.html" (booking_context b)
        end
    end.

Definition delete_booking (id : Z) : M response :=
  admin_required
    (row <- query (fun s => select_by_id (bookings s) (Some id)) ;;
     match row with
     | Some b =>
         let car_id := booking_car_id b in
         execute (fun s => Ok (update_car_status s "available" (Some car_id)))
     | None => ret tt
     end ;;
     execute (fun s => Ok (delete_booking_row s id)) ;;
     flash "Booking deleted." "info" ;;
     ret (redirect "view_bookings")).

(** ** Services CRUD *)

Definition view_services : M response :=
  admin_required (render_template "view_services.html" listing).

Definition add_service (req : request ServiceForm.t) : M response :=
  admin_required
    match req with
    | POST f =>
        let car_id := ServiceForm.car_id f in
        let service_date := or_None (ServiceForm.service_date f) in
        let service_type := ServiceForm.service_type f in
        let cost := or_zero (ServiceForm.cost f) in
        let remarks := ServiceForm.remarks f in
        execute (fun s => insert_service s car_id service_date service_type
                            cost remarks) ;;
        execute (fun s => Ok (update_car_status s "maintenance" car_id)) ;;
        flash "Service record added." "success" ;;
        ret (redirect "view_services")
    | GET => render_template "add_service.html" no_context
    end.

Definition edit_service (id : Z) (req : request ServiceForm.t) : M response :=
  admin_required
    match req with
    | POST f =>
        let car_id := ServiceForm.car_id f in
        let service_date := or_None (ServiceForm.service_date f) in
        let service_type := ServiceForm.service_type f in
        let cost := or_zero (ServiceForm.cost f) in
        let remarks := ServiceForm.remarks f in
        execute (fun s => update_service s id car_id service_date service_type
                            cost remarks) ;;
        flash "Service record updated." "success" ;;
        ret (redirect "view_services")
    | GET =>
        service <- query (fun s => select_by_id (services s) (Some id)) ;;
        match service with
        | None =>
            flash "Service not found." "danger" ;;
            ret (redirect "view_services")
        | Some v =>
            render_template "edit_service.html" (service_context v)
        end
    end.

Definition delete_service (id : Z) : M response :=
  admin_required
    (execute (fun s => Ok (delete_service_row s id)) ;;
     flash "Service record deleted." "info" ;;
     ret (redirect "view_services")).

(** ** Accounts: [init_db] and [login] *)

Definition DB_NAME : string := "car_management".
Definition ADMIN_DEFAULT_USERNAME : string := "admin".
Definition ADMIN_DEFAULT_PASSWORD : string := "admin123".

(** The schema [DB_NAME] on the server before [init_db]: each table is there
    or not. *)
Record Database : Type := mk_database {
  users_table : option (table User);
  cars_table : option (table Car);
  customers_table : option (table Customer);
  bookings_table : option (table Booking);
  services_table : option (table Service)
}.

(** The server: the database [DB_NAME] exists or not. *)
Definition Server : Type := option Database.

Definition server_of (s : Store) : Server :=
  Some (mk_database (Some (users s)) (Some (cars s)) (Some (customers s))
                    (Some (bookings s)) (Some (services s))).

(** [CREATE DATABASE IF NOT EXISTS] *)
Definition create_database_if_not_exists (sv : Server) : Database :=
  match sv with
  | Some d => d
  | None => mk_database None None None None None
  end.

(** [CREATE TABLE IF NOT EXISTS] *)
Definition create_table_if_not_exists {A : Type} (t : option (table A))
  : table A :=
  match t with
  | Some t => t
  | None => empty_table
  end.

Module LoginForm.
Record t : Type := mk {
  username : option string;
  password : option string
}.
End LoginForm.

Section Accounts.

(** Equality of user names under the collation of the [username] column
    (the database is created with [utf8mb4_general_ci]). *)
Variable collation_eqb : string -> string -> bool.

(** werkzeug's [generate_password_hash], as a function of the salt it
    draws and of the password. *)
Variable generate_password_hash : string -> string -> string.

(** werkzeug's [check_password_hash(pwhash, password)]; the password is
    what [request.form.get('password')] returned. *)
Variable check_password_hash : string -> option string -> result bool.

(** [SELECT ... FROM users WHERE username=%s] and [fetchone()] *)
Definition select_user (t : table User) (u : option string) : option User :=
  match u with
  | Some n => find (fun r => collation_eqb (user_username r) n) (rows t)
  | None => None
  end.

(** [INSERT INTO users (username, password_hash, role) VALUES (...)];
    [username] is UNIQUE. *)
Definition insert_user (t : table User) (username password_hash : string)
    (role : option string) : result (table User) :=
  if existsb (fun r => collation_eqb (user_username r) username) (rows t)
  then Raise IntegrityError
  else Ok (insert t (fun i => mk_user i username password_hash role)).

(** [init_db()]: the store it leaves and the lines it prints. *)
Definition init_db (salt : string) (sv : Server)
  : result (Store * list string) :=
  let d := create_database_if_not_exists sv in
  let users := create_table_if_not_exists (users_table d) in
  let cars := create_table_if_not_exists (cars_table d) in
  let customers := create_table_if_not_exists (customers_table d) in
  let bookings := create_table_if_not_exists (bookings_table d) in
  let services := create_table_if_not_exists (services_table d) in
  match select_user users (Some ADMIN_DEFAULT_USERNAME) with
  | None =>
      let pw_hash := generate_password_hash salt ADMIN_DEFAULT_PASSWORD in
      match insert_user users ADMIN_DEFAULT_USERNAME pw_hash (Some "admin") with
      | Ok users' =>
          Ok (mk_store users' cars customers bookings services,
              ["Default admin created -> username: " ++ ADMIN_DEFAULT_USERNAME
               ++ " password: " ++ ADMIN_DEFAULT_PASSWORD]%string)
      | Raise e => Raise e
      end
  | Some _ => Ok (mk_store users cars customers bookings services, [])
  end.

Definition login (req : request LoginForm.t) : M response :=
  match req with
  | POST f =>
      let u := LoginForm.username f in
      let p := LoginForm.password f in
      user <- query (fun s => select_user (users s) u) ;;
      ok <- match user with
            | Some r => lift (check_password_hash (user_password_hash r) p)
            | None => ret false
            end ;;
      match user, ok with
      | Some r, true =>
          (fun w => (Ok tt, mk_world (db w)
                       (mk_session (Some (user_id r))
                                   (Some (user_username r))
                                   (flashes (session w))))) ;;
          flash "Logged in successfully." "success" ;;
          ret (redirect "dashboard")
      | _, _ =>
          flash "Invalid credentials." "danger" ;;
          render_template "login.html" no_context
      end
  | GET => render_template "login.html" no_context
  end.

End Accounts.

Definition logout : M response :=
  (fun w => (Ok tt, mk_world (db w) empty_session)) ;;
  flash "Logged out." "info" ;;
  ret (redirect "login").

(** ** Observations and sample data *)

(** The status of the car [id], when there is such a car. *)
Definition car_status_of (s : Store) (id : Z) : option string :=
  option_map car_status (select_by_id (cars s) (Some id)).

(** Referential integrity: what the FOREIGN KEY constraints maintain. *)
Definition fk_integrity (s : Store) : Prop :=
  (forall b, In b (rows (bookings s)) ->
     has_id (cars s) (Some (booking_car_id b)) = true /\
     has_id (customers s) (Some (booking_customer_id b)) = true) /\
  (forall v, In v (rows (services s)) ->
     has_id (cars s) (Some (service_car_id v)) = true).

(** A small store: car 7 with two bookings and one service, car 8 with one
    booking, two customers, the seed admin. *)
Module Sample.

Definition admin : User :=
  mk_user 1 "admin" "scrypt:32768:8:1$salt$hash" (Some "admin").

Definition car7 : Car :=
  mk_car 7 "Civic" (Some "Honda") (Some "LX") (Some 2020) 5000 "maintenance"
         None.
Definition car8 : Car :=
  mk_car 8 "Model 3" (Some "Tesla") None (Some 2023) 12050 "rented" None.

Definition alice : Customer :=
  mk_customer 1 "Alice" (Some "alice@example.org") None None None.
Definition bob : Customer :=
  mk_customer 2 "Bob" None None None None.

Definition booking1 : Booking :=
  mk_booking 1 7 1 "2024-01-01" "2024-01-03" 150%float (Some "active").
Definition booking2 : Booking :=
  mk_booking 2 7 2 "2024-02-01" "2024-02-01" 50%float (Some "active").
Definition booking3 : Booking :=
  mk_booking 3 8 1 "2024-03-01" "2024-03-02" 241%float (Some "active").

Definition service1 : Service :=
  mk_service 1 7 (Some "2024-04-01") (Some "Oil change") 3000 None.

Definition store : Store :=
  mk_store (mk_table [admin] 2)
           (mk_table [car7; car8] 9)
           (mk_table [alice; bob] 3)
           (mk_table [booking1; booking2; booking3] 4)
           (mk_table [service1] 2).

(** The admin is logged in. *)
Definition world : World :=
  mk_world store (mk_session (Some 1) (Some "admin") []).

(** Nobody is logged in. *)
Definition anonymous : World := mk_world store empty_session.

Definition booking_form : BookingForm.t :=
  BookingForm.mk (Some 8) (Some 2) (Some "2024-05-01") (Some "2024-05-03")
                 (Some "completed").

Definition service_form : ServiceForm.t :=
  ServiceForm.mk (Some 8) (Some "2024-06-01") (Some "Brakes") (Some 12000)
                 None.

End Sample.

(** The outcome "flash one notice and redirect", with the store untouched. *)
Definition flash_session (w : World) (message category : string) : Session :=
  mk_session (session_user_id (session w)) (session_username (session w))
             (flashes (session w) ++ [(message, category)]).

Definition notice (w : World) (message category endpoint : string)
  : result response * World :=
  (Ok (redirect endpoint), mk_world (db w) (flash_session w message category)).

(** What a failed login leaves: the login page again, showing the notices
    that were pending and then the one of the failure; the session keys and
    the store as they were, no notice left pending. *)
Definition login_failed (w : World) : result response * World :=
  (Ok (page "login.html" no_context
         (flashes (session w) ++ [("Invalid credentials.", "danger")])),
   mk_world (db w)
     (mk_session (session_user_id (session w))
                 (session_username (session w)) [])).

(** The seed account as [init_db] inserts it into the users table [t]. *)
Definition seed_admin (generate_password_hash : string -> string -> string)
    (salt : string) (t : table User) : User :=
  mk_user (auto_increment t) ADMIN_DEFAULT_USERNAME
          (generate_password_hash salt ADMIN_DEFAULT_PASSWORD) (Some "admin").

(** The accounts of [t] that carry the default user name. *)
Definition admin_accounts (collation_eqb : string -> string -> bool)
    (t : table User) : list User :=
  filter (fun r => collation_eqb (user_username r) ADMIN_DEFAULT_USERNAME)
         (rows t).

(** The extra day of a leap year. *)
Definition leap_day (y : Z) : Z := if Datetime._is_leap y then 1 else 0.

(** A statement keeps the foreign keys when it does so whenever it
    succeeds (a refused statement changes nothing). *)
Definition keeps_keys (stmt : Store -> result Store) : Prop :=
  forall s s', fk_integrity s -> stmt s = Ok s' -> fk_integrity s'.

(** A computation keeps the foreign keys in whatever world it ends. *)
Definition preserves {A : Type} (m : M A) : Prop :=
  forall w, fk_integrity (db w) -> fk_integrity (db (snd (m w))).

(** The text holds ASCII characters only. *)
Definition is_ascii (s : string) : bool :=
  forallb (fun c => N.ltb (N_of_ascii c) 128) (list_ascii_of_string s).

(** Both dates of a booking form are texts that [strptime] reads. *)
Definition well_dated (f : BookingForm.t) : bool :=
  match strptime (BookingForm.start_date f), strptime (BookingForm.end_date f) with
  | Ok _, Ok _ => true
  | _, _ => false
  end.

(** Instances of the three library functions, to evaluate [login] and
    [init_db] on: equality of ASCII text up to the case of letters, and a
    hash that keeps the password in clear. *)
Module SampleLibrary.

Definition lower (c : ascii) : ascii :=
  let n := N_of_ascii c in
  if (N.leb 65 n && N.leb n 90)%bool then ascii_of_N (n + 32) else c.

Fixpoint lowercase (s : string) : string :=
  match s with
  | EmptyString => EmptyString
  | String c s' => String (lower c) (lowercase s')
  end.

Definition collation_eqb (a b : string) : bool :=
  (lowercase a =? lowercase b)%string.

Definition generate_password_hash (salt password : string) : string :=
  ("plain$" ++ salt ++ "$" ++ password)%string.

Definition check_password_hash (pwhash : string) (password : option string)
  : result bool :=
  match password with
  | Some p => Ok (pwhash =? "plain$salt$" ++ p)%string
  | None => Raise AttributeError
  end.

(** A server whose users table holds one account, not the seed admin. *)
Definition other_user : User := mk_user 1 "bob" "plain$salt$secret" (Some "admin").

Definition server_with_other_user : Server :=
  server_of (mk_store (mk_table [other_user] 2) empty_table empty_table
                      empty_table empty_table).

End SampleLibrary.

(** ** The admin routes

    The seventeen routes that [app.py] registers behind [admin_required],
    each with what the URL map hands to its handler; the dashboard and the
    four list pages answer GET only, the four deletions POST only. *)
Inductive route : Type :=
| admin_dashboard
| cars_view
| customers_view
| bookings_view
| services_view
| cars_add (req : request CarForm.t)
| cars_edit (id : Z) (req : request CarForm.t)
| cars_delete (id : Z)
| customers_add (req : request CustomerForm.t)
| customers_edit (id : Z) (req : request CustomerForm.t)
| customers_delete (id : Z)
| bookings_add (req : request BookingForm.t)
| bookings_edit (id : Z) (req : request BookingForm.t)
| bookings_delete (id : Z)
| services_add (req : request ServiceForm.t)
| services_edit (id : Z) (req : request ServiceForm.t)
| services_delete (id : Z).

Definition dispatch (r : route) : M response :=
  match r with
  | admin_dashboard => dashboard
  | cars_view => view_cars
  | customers_view => view_customers
  | bookings_view => view_bookings
  | services_view => view_services
  | cars_add req => add_car req
  | cars_edit id req => edit_car id req
  | cars_delete id => delete_car id
  | customers_add req => add_customer req
  | customers_edit id req => edit_customer id req
  | customers_delete id => delete_customer id
  | bookings_add req => add_booking req
  | bookings_edit id req => edit_booking id req
  | bookings_delete id => delete_booking id
  | services_add req => add_service req
  | services_edit id req => edit_service id req
  | services_delete id => delete_service id
  end.

(** ** Primary keys *)

(** The ids of a table are pairwise different and below its AUTO_INCREMENT
    counter. *)
Definition keyed {A : Type} `{Row A} (t : table A) : Prop :=
  NoDup (map pk (rows t)) /\
  Forall (fun r => pk r < auto_increment t) (rows t).

Definition pk_integrity (s : Store) : Prop :=
  keyed (users s) /\ keyed (cars s) /\ keyed (customers s) /\
  keyed (bookings s) /\ keyed (services s).

(** A statement, and a computation, under which the property [I] of the
    store is kept. *)
Definition statement_keeps (I : Store -> Prop)
    (stmt : Store -> result Store) : Prop :=
  forall s s', I s -> stmt s = Ok s' -> I s'.

Definition maintains (I : Store -> Prop) {A : Type} (m : M A) : Prop :=
  forall w, I (db w) -> I (db (snd (m w))).

(** ** The states the application reaches

    The application starts with [init_db] on a server that has no database
    yet, and then serves requests: logins, logouts and the admin routes.
    It may be restarted, which runs [init_db] again on the database as it
    is then; the sessions live in the cookies of the clients and survive a
    restart. *)
Section Application.

Variable collation_eqb : string -> string -> bool.
Variable generate_password_hash : string -> string -> string.
Variable check_password_hash : string -> option string -> result bool.

Inductive reachable : World -> Prop :=
| reach_start (salt : string) (s : Store) (out : list string) :
    init_db collation_eqb generate_password_hash salt None = Ok (s, out) ->
    reachable (mk_world s empty_session)
| reach_restart (salt : string) (w : World) (s : Store) (out : list string) :
    reachable w ->
    init_db collation_eqb generate_password_hash salt (server_of (db w))
    = Ok (s, out) ->
    reachable (mk_world s (session w))
| reach_login (w : World) (req : request LoginForm.t) :
    reachable w ->
    reachable (snd (login collation_eqb check_password_hash req w))
| reach_logout (w : World) :
    reachable w -> reachable (snd (logout w))
| reach_route (w : World) (r : route) :
    reachable w -> reachable (snd (dispatch r w)).

End Application.

(** * Properties *)

(** ** Dates: the order of dates is the order of their ordinals *)

Module DatetimeFacts.
Import Datetime.

Lemma is_leap_cases (y : Z) :
  (_is_leap y = true /\ y mod 4 = 0 /\ (y mod 100 <> 0 \/ y mod 400 = 0)) \/
  (_is_leap y = false /\ (y mod 4 <> 0 \/ (y mod 100 = 0 /\ y mod 400 <> 0))).
Proof.
  unfold _is_leap.
  destruct (Z.eqb_spec (y mod 4) 0), (Z.eqb_spec (y mod 100) 0),
           (Z.eqb_spec (y mod 400) 0); cbn; intuition lia.
Qed.

Lemma days_before_year_succ (y : Z) :
  _days_before_year (y + 1) = _days_before_year y + 365 + leap_day y.
Proof.
  unfold _days_before_year, leap_day.
  replace (y + 1 - 1) with y by lia.
  destruct (is_leap_cases y) as [(-> & H4 & H) | (-> & H)];
    Z.div_mod_to_equations; lia.
Qed.

Lemma days_before_year_mono (a b : Z) :
  a <= b -> _days_before_year a <= _days_before_year b.
Proof.
  unfold _days_before_year. intros Hab.
  Z.div_mod_to_equations. lia.
Qed.

Ltac calendar_tables :=
  cbn [_DAYS_BEFORE_MONTH _DAYS_IN_MONTH Z.eqb Z.ltb Z.compare Pos.eqb
       Pos.compare Pos.compare_cont andb] in *.

Lemma month_cases (m : Z) :
  1 <= m <= 12 ->
  m = 1 \/ m = 2 \/ m = 3 \/ m = 4 \/ m = 5 \/ m = 6 \/
  m = 7 \/ m = 8 \/ m = 9 \/ m = 10 \/ m = 11 \/ m = 12.
Proof. lia. Qed.

Lemma valid_fields (d : date) :
  valid d ->
  1 <= year d <= 9999 /\ 1 <= month d <= 12 /\
  1 <= day d <= _days_in_month (year d) (month d).
Proof.
  unfold valid, check_date_fields, MINYEAR, MAXYEAR. intros H.
  repeat (apply andb_prop in H; destruct H as [H ?]).
  repeat match goal with
         | H : (_ <=? _) = true |- _ => apply Z.leb_le in H
         end.
  lia.
Qed.

(** The day of the year of a date lies within its year. *)
Lemma day_of_year_bounds (y m d : Z) :
  1 <= m <= 12 -> 1 <= d <= _days_in_month y m ->
  1 <= _days_before_month y m + d <= 365 + leap_day y.
Proof.
  intros Hm Hd. unfold _days_before_month, leap_day.
  unfold _days_in_month in Hd.
  destruct (_is_leap y);
    destruct (month_cases m Hm) as [-> | [-> | [-> | [-> | [-> | [-> |
                                   [-> | [-> | [-> | [-> | [-> | ->]]]]]]]]]]];
    calendar_tables; lia.
Qed.

(** Within a year, an earlier month ends before a later one begins. *)
Lemma month_before (y m1 d1 m2 d2 : Z) :
  1 <= m1 <= 12 -> 1 <= m2 <= 12 -> m1 < m2 ->
  1 <= d1 <= _days_in_month y m1 -> 1 <= d2 ->
  _days_before_month y m1 + d1 < _days_before_month y m2 + d2.
Proof.
  intros H1 H2 Hlt Hd1 Hd2. unfold _days_before_month.
  unfold _days_in_month in Hd1.
  destruct (_is_leap y);
    destruct (month_cases m1 H1) as [-> | [-> | [-> | [-> | [-> | [-> |
                                    [-> | [-> | [-> | [-> | [-> | ->]]]]]]]]]]];
    destruct (month_cases m2 H2) as [-> | [-> | [-> | [-> | [-> | [-> |
                                    [-> | [-> | [-> | [-> | [-> | ->]]]]]]]]]]];
    calendar_tables; lia.
Qed.

Lemma toordinal_lt (a b : date) :
  valid a -> valid b -> cmp a b = Lt -> toordinal a < toordinal b.
Proof.
  intros Ha Hb. apply valid_fields in Ha, Hb.
  destruct a as [ya ma da], b as [yb mb db]. cbn [year month day] in Ha, Hb.
  unfold cmp, toordinal, _ymd2ord. cbn [year month day].
  destruct (Z.compare_spec ya yb) as [-> | Hy | Hy]; try discriminate.
  - destruct (Z.compare_spec ma mb) as [-> | Hm | Hm]; try discriminate.
    + intros Hd. rewrite Z.compare_lt_iff in Hd. lia.
    + intros _.
      pose proof (month_before yb ma da mb db). lia.
  - intros _.
    pose proof (day_of_year_bounds ya ma da).
    pose proof (day_of_year_bounds yb mb db).
    pose proof (days_before_year_succ ya).
    pose proof (days_before_year_mono (ya + 1) yb).
    lia.
Qed.

Lemma cmp_Eq (a b : date) : cmp a b = Eq -> a = b.
Proof.
  destruct a as [ya ma da], b as [yb mb db]. unfold cmp. cbn [year month day].
  destruct (Z.compare_spec ya yb); try discriminate.
  destruct (Z.compare_spec ma mb); try discriminate.
  intros Hd. apply Z.compare_eq in Hd. congruence.
Qed.

Lemma cmp_antisym (a b : date) : cmp b a = CompOpp (cmp a b).
Proof.
  destruct a as [ya ma da], b as [yb mb db]. unfold cmp. cbn [year month day].
  rewrite (Z.compare_antisym ya yb), (Z.compare_antisym ma mb),
          (Z.compare_antisym da db).
  destruct (ya ?= yb), (ma ?= mb), (da ?= db); reflexivity.
Qed.

(** [a <= b] on dates exactly when [a.toordinal() <= b.toordinal()]. *)
Lemma le_toordinal (a b : date) :
  valid a -> valid b -> (le a b <-> toordinal a <= toordinal b).
Proof.
  intros Ha Hb. unfold le. split.
  - intros H. destruct (cmp a b) eqn:E; try congruence.
    + apply cmp_Eq in E. subst. lia.
    + pose proof (toordinal_lt a b Ha Hb E). lia.
  - intros H E.
    assert (E' : cmp b a = Lt) by (rewrite cmp_antisym, E; reflexivity).
    pose proof (toordinal_lt b a Hb Ha E'). lia.
Qed.

Lemma lt_toordinal (a b : date) :
  valid a -> valid b -> (lt a b <-> toordinal a < toordinal b).
Proof.
  intros Ha Hb. unfold lt. split.
  - apply toordinal_lt; assumption.
  - intros H. destruct (cmp a b) eqn:E; try reflexivity.
    + apply cmp_Eq in E. subst. lia.
    + assert (E' : cmp b a = Lt) by (rewrite cmp_antisym, E; reflexivity).
      pose proof (toordinal_lt b a Hb Ha E'). lia.
Qed.

(** What [strptime] returns is a date. *)
Lemma strptime_ymd_valid (s : string) (d : date) :
  strptime_ymd s = Some d -> valid d.
Proof.
  unfold strptime_ymd, valid.
  destruct (year_match _) as [[y [|c r]]|]; try discriminate.
  destruct c as [[] [] [] [] [] [] [] []]; try discriminate.
  destruct (month_then_day _) as [[[m dd] [|? ?]]|]; try discriminate.
  destruct (check_date_fields y m dd) eqn:E; try discriminate.
  intros [= <-]. exact E.
Qed.

End DatetimeFacts.

(** ** The cost of a rental *)

Example calc_total_cost_three_days :
  calc_total_cost (PyFloat (float_of_decimal 5000))
                  (Some "2024-01-01") (Some "2024-01-03")
  = Ok 150%float.
Proof. vm_compute. reflexivity. Qed.

Example calc_total_cost_one_day :
  calc_total_cost (PyFloat (float_of_decimal 5000))
                  (Some "2024-01-05") (Some "2024-01-05")
  = Ok 50%float.
Proof. vm_compute. reflexivity. Qed.

Example calc_total_cost_reversed :
  calc_total_cost (PyFloat (float_of_decimal 5000))
                  (Some "2024-01-05") (Some "2023-12-25")
  = Ok 50%float.
Proof. vm_compute. reflexivity. Qed.

Example strptime_examples :
  Datetime.strptime_ymd "2024-2-29" = Some (Datetime.mk_date 2024 2 29) /\
  Datetime.strptime_ymd "2023-02-29" = None /\
  Datetime.strptime_ymd "2024-13-01" = None /\
  Datetime.strptime_ymd "2024-01-45" = None /\
  Datetime.strptime_ymd "2024-01- 5" = Some (Datetime.mk_date 2024 1 5) /\
  Datetime.strptime_ymd "0000-01-01" = None /\
  Datetime.strptime_ymd "" = None.
Proof. vm_compute. repeat split. Qed.

Lemma strptime_Some (s : string) (d : Datetime.date) :
  Datetime.strptime_ymd s = Some d -> strptime (Some s) = Ok d.
Proof. unfold strptime. intros ->. reflexivity. Qed.

(** The ordinal of a date lies between 1 (0001-01-01) and 3652059
    (9999-12-31). *)
Lemma toordinal_bounds (d : Datetime.date) :
  Datetime.valid d -> 1 <= Datetime.toordinal d <= 3652059.
Proof.
  intros Hv. apply DatetimeFacts.valid_fields in Hv.
  destruct d as [y m dd]. cbn [Datetime.year Datetime.month Datetime.day] in Hv.
  unfold Datetime.toordinal, Datetime._ymd2ord.
  cbn [Datetime.year Datetime.month Datetime.day].
  pose proof (DatetimeFacts.day_of_year_bounds y m dd) as Hdoy.
  pose proof (DatetimeFacts.days_before_year_succ y) as Hsucc.
  pose proof (DatetimeFacts.days_before_year_mono 1 y) as Hlow.
  pose proof (DatetimeFacts.days_before_year_mono (y + 1) 10000) as Hhigh.
  change (Datetime._days_before_year 1) with 0 in Hlow.
  change (Datetime._days_before_year 10000) with 3652059 in Hhigh.
  lia.
Qed.

(** The days billed for two dates: at least one, at most 3652059. *)
Lemma billed_days_bounds (sd ed : Datetime.date) :
  Datetime.valid sd -> Datetime.valid ed ->
  1 <= Z.max 1 (Datetime.days_between sd ed + 1) <= 3652059.
Proof.
  intros Hs He. unfold Datetime.days_between.
  pose proof (toordinal_bounds sd Hs). pose proof (toordinal_bounds ed He).
  lia.
Qed.

(** Below 2^63 the conversion of a non-negative [int] is the primitive
    one and does not raise. *)
Lemma float_of_int_small (n : Z) :
  0 <= n < 2 ^ 63 ->
  float_of_int n = Ok (PrimFloat.of_uint63 (Uint63.of_Z n)).
Proof.
  intros Hn. unfold float_of_int, float_of_small_int.
  rewrite Z.abs_eq by lia.
  destruct (Z.ltb_spec n (2 ^ 63)) as [_ | Hge]; [| lia].
  destruct (Z.ltb_spec n 0) as [Hneg | _]; [lia | reflexivity].
Qed.

(** On texts that [strptime] reads and a price that [float] converts,
    [calc_total_cost] returns. *)
Lemma calc_total_cost_run (price : number) (x : float) (s e : string)
    (sd ed : Datetime.date) :
  Datetime.strptime_ymd s = Some sd ->
  Datetime.strptime_ymd e = Some ed ->
  float_ price = Ok x ->
  calc_total_cost price (Some s) (Some e)
  = Ok (PrimFloat.mul x
          (PrimFloat.of_uint63
             (Uint63.of_Z (Z.max 1 (Datetime.days_between sd ed + 1))))).
Proof.
  intros Hs He Hx. unfold calc_total_cost.
  rewrite (strptime_Some _ _ Hs), (strptime_Some _ _ He), Hx. cbv zeta.
  pose proof (billed_days_bounds sd ed
                (DatetimeFacts.strptime_ymd_valid _ _ Hs)
                (DatetimeFacts.strptime_ymd_valid _ _ He)) as Hb.
  replace (if Datetime.days_between sd ed + 1 <? 1 then 1
           else Datetime.days_between sd ed + 1)
    with (Z.max 1 (Datetime.days_between sd ed + 1)).
  - rewrite float_of_int_small by lia. reflexivity.
  - destruct (Z.ltb_spec (Datetime.days_between sd ed + 1) 1); lia.
Qed.

(** The price the handlers hand over is one that [float] converts. *)
Lemma float_price_of (car : option Car) :
  exists x, float_ (price_of car) = Ok x.
Proof. destruct car as [c|]; eexists; reflexivity. Qed.

(** An [int] too large for a [float] makes [float(price)] raise, after the
    dates were read. *)
Lemma calc_total_cost_overflow (n : Z) (s e : string)
    (sd ed : Datetime.date) :
  Datetime.strptime_ymd s = Some sd ->
  Datetime.strptime_ymd e = Some ed ->
  float_of_int n = Raise OverflowError ->
  calc_total_cost (PyInt n) (Some s) (Some e) = Raise OverflowError.
Proof.
  intros Hs He Hn. unfold calc_total_cost.
  rewrite (strptime_Some _ _ Hs), (strptime_Some _ _ He). cbv zeta.
  cbn [float_]. rewrite Hn. reflexivity.
Qed.

Example float_of_int_examples :
  float_of_int 3 = Ok 3%float /\
  float_of_int (-5) = Ok (-5)%float /\
  float_of_int (2 ^ 63) = Ok 9223372036854775808%float /\
  float_of_int (2 ^ 53 + 1) = Ok 9007199254740992%float /\
  float_of_int (2 ^ 1024) = Raise OverflowError /\
  float_of_decimal 5000 = 50%float /\
  float_of_decimal 12050 = 120.5%float.
Proof. vm_compute. repeat split. Qed.

(** C1.  For every price that is a [float] and every pair of dates (the
    texts [s] and [e] that [strptime] reads as the dates [sd] and [ed]),
    [calc_total_cost] returns price x max(1, (ed - sd).days + 1), the
    second factor being the day count as a [float]; when [ed >= sd] this is
    price x ((ed - sd).days + 1), both endpoints counted, and when
    [ed < sd] it is price x 1.  The day count lies between 1 and 3652059.
    An [int] price is first converted by [float], to the nearest [float]
    when it lies between 0 and 2^63, and is then treated as that
    [float]. *)
Theorem calc_total_cost_spec (x : float) (s e : string)
    (sd ed : Datetime.date) :
  Datetime.strptime_ymd s = Some sd ->
  Datetime.strptime_ymd e = Some ed ->
  let span := Datetime.days_between sd ed + 1 in
  calc_total_cost (PyFloat x) (Some s) (Some e)
  = Ok (PrimFloat.mul x (PrimFloat.of_uint63 (Uint63.of_Z (Z.max 1 span))))
  /\ 1 <= Z.max 1 span <= 3652059
  /\ (Datetime.le sd ed ->
      calc_total_cost (PyFloat x) (Some s) (Some e)
      = Ok (PrimFloat.mul x (PrimFloat.of_uint63 (Uint63.of_Z span))))
  /\ (Datetime.lt ed sd ->
      calc_total_cost (PyFloat x) (Some s) (Some e)
      = Ok (PrimFloat.mul x 1%float))
  /\ (forall n, 0 <= n < 2 ^ 63 ->
      calc_total_cost (PyInt n) (Some s) (Some e)
      = Ok (PrimFloat.mul (PrimFloat.of_uint63 (Uint63.of_Z n))
              (PrimFloat.of_uint63 (Uint63.of_Z (Z.max 1 span)))))
  /\ (forall n y, float_of_int n = Ok y ->
      calc_total_cost (PyInt n) (Some s) (Some e)
      = Ok (PrimFloat.mul y
              (PrimFloat.of_uint63 (Uint63.of_Z (Z.max 1 span))))).
Proof.
  intros Hs He span.
  pose proof (DatetimeFacts.strptime_ymd_valid _ _ Hs) as Vs.
  pose proof (DatetimeFacts.strptime_ymd_valid _ _ He) as Ve.
  pose proof (calc_total_cost_run (PyFloat x) x s e sd ed Hs He eq_refl)
    as Hrun.
  fold span in Hrun.
  split; [exact Hrun |].
  split; [exact (billed_days_bounds sd ed Vs Ve) |].
  split; [| split; [| split]].
  - intros Hle. rewrite Hrun.
    apply DatetimeFacts.le_toordinal in Hle; try assumption.
    rewrite Z.max_r; [reflexivity |].
    unfold span, Datetime.days_between. lia.
  - intros Hlt. rewrite Hrun.
    apply DatetimeFacts.lt_toordinal in Hlt; try assumption.
    rewrite Z.max_l; [reflexivity |].
    unfold span, Datetime.days_between. lia.
  - intros n Hn.
    exact (calc_total_cost_run (PyInt n) _ s e sd ed Hs He
             (float_of_int_small n Hn)).
  - intros n y Hn.
    exact (calc_total_cost_run (PyInt n) y s e sd ed Hs He Hn).
Qed.

Lemma calc_total_cost_spec_witness :
  calc_total_cost (PyFloat 50%float) (Some "2024-01-01") (Some "2024-01-03")
  = Ok 150%float
  /\ calc_total_cost (PyFloat 50%float) (Some "2024-01-05") (Some "2023-12-25")
     = Ok 50%float
  /\ calc_total_cost (PyInt 50) (Some "2024-01-01") (Some "2024-01-03")
     = Ok 150%float.
Proof.
  split; [| split].
  - exact (proj1 (calc_total_cost_spec 50%float
                    "2024-01-01" "2024-01-03"
                    (Datetime.mk_date 2024 1 1) (Datetime.mk_date 2024 1 3)
                    eq_refl eq_refl)).
  - exact (proj1 (calc_total_cost_spec 50%float
                    "2024-01-05" "2023-12-25"
                    (Datetime.mk_date 2024 1 5) (Datetime.mk_date 2023 12 25)
                    eq_refl eq_refl)).
  - refine (proj1 (proj2 (proj2 (proj2 (proj2
              (calc_total_cost_spec 50%float
                 "2024-01-01" "2024-01-03"
                 (Datetime.mk_date 2024 1 1) (Datetime.mk_date 2024 1 3)
                 eq_refl eq_refl))))) 50 _).
    lia.
Defined.

(** ** Tables: what the statements do to the rows *)

Section TableFacts.
Context {A : Type} `{Row A}.

Lemma has_id_select (t : table A) (i : option Z) :
  has_id t i = true <-> exists r, select_by_id t i = Some r.
Proof.
  unfold has_id, select_by_id. induction (rows t) as [|r l IH]; cbn.
  - split; [discriminate | intros [? [=]]].
  - destruct (id_is i r); cbn.
    + split; eauto.
    + exact IH.
Qed.

Lemma has_id_false_select (t : table A) (i : option Z) :
  has_id t i = false <-> select_by_id t i = None.
Proof.
  unfold has_id, select_by_id. induction (rows t) as [|r l IH]; cbn.
  - split; reflexivity.
  - destruct (id_is i r); cbn.
    + split; discriminate.
    + exact IH.
Qed.

Lemma select_by_id_pk (t : table A) (i : Z) (r : A) :
  select_by_id t (Some i) = Some r -> pk r = i /\ In r (rows t).
Proof.
  unfold select_by_id. intros Hf. apply find_some in Hf.
  destruct Hf as [Hin Hid]. cbn in Hid. apply Z.eqb_eq in Hid. auto.
Qed.

(** An UPDATE by id that keeps the ids rewrites the selected row. *)
Lemma select_update_same (t : table A) (i : option Z) (f : A -> A) :
  (forall r, pk (f r) = pk r) ->
  select_by_id (update_by_id t i f) i = option_map f (select_by_id t i).
Proof.
  intros Hpk. unfold select_by_id, update_by_id. cbn [rows].
  induction (rows t) as [|r l IH]; cbn; [reflexivity |].
  destruct (id_is i r) eqn:E.
  - assert (E' : id_is i (f r) = true).
    { destruct i; cbn in *; [rewrite Hpk; exact E | discriminate]. }
    rewrite E'. reflexivity.
  - rewrite E. exact IH.
Qed.

(** ... and leaves the rows of every other id as they were. *)
Lemma select_update_other (t : table A) (i : option Z) (j : Z) (f : A -> A) :
  (forall r, pk (f r) = pk r) ->
  i <> Some j ->
  select_by_id (update_by_id t i f) (Some j) = select_by_id t (Some j).
Proof.
  intros Hpk Hij. unfold select_by_id, update_by_id. cbn [rows].
  induction (rows t) as [|r l IH]; cbn; [reflexivity |].
  destruct (id_is i r) eqn:E.
  - destruct i as [n|]; cbn in E; [|discriminate].
    apply Z.eqb_eq in E. rewrite Hpk.
    destruct (Z.eqb_spec (pk r) j) as [Hj | Hj].
    + exfalso. apply Hij. congruence.
    + exact IH.
  - destruct (pk r =? j); [reflexivity | exact IH].
Qed.

Lemma update_absent (t : table A) (i : option Z) (f : A -> A) :
  has_id t i = false -> update_by_id t i f = t.
Proof.
  unfold has_id, update_by_id. destruct t as [l n]. cbn [rows auto_increment].
  intros Hno. f_equal.
  induction l as [|r l IH]; cbn in *; [reflexivity |].
  apply orb_false_elim in Hno. destruct Hno as [-> Hl].
  rewrite (IH Hl). reflexivity.
Qed.

Lemma update_length (t : table A) (i : option Z) (f : A -> A) :
  List.length (rows (update_by_id t i f)) = List.length (rows t).
Proof. unfold update_by_id. cbn [rows]. apply List.length_map. Qed.

Lemma delete_absent (t : table A) (i : option Z) :
  has_id t i = false -> delete_by_id t i = t.
Proof.
  unfold has_id, delete_by_id. destruct t as [l n]. cbn [rows auto_increment].
  intros Hno. f_equal.
  induction l as [|r l IH]; cbn in *; [reflexivity |].
  apply orb_false_elim in Hno. destruct Hno as [-> Hl].
  cbn. rewrite (IH Hl). reflexivity.
Qed.

Lemma in_delete (t : table A) (i : Z) (r : A) :
  In r (rows (delete_by_id t (Some i))) <-> In r (rows t) /\ pk r <> i.
Proof.
  unfold delete_by_id. cbn [rows]. rewrite filter_In. cbn.
  rewrite negb_true_iff, Z.eqb_neq. reflexivity.
Qed.

Lemma select_delete (t : table A) (i : Z) :
  select_by_id (delete_by_id t (Some i)) (Some i) = None.
Proof.
  destruct (select_by_id _ _) as [r|] eqn:E; [|reflexivity].
  apply select_by_id_pk in E. destruct E as [Hpk Hin].
  apply in_delete in Hin. tauto.
Qed.

End TableFacts.

Lemma update_car_status_sets (s : Store) (status : string) (id : Z) :
  has_id (cars s) (Some id) = true ->
  car_status_of (update_car_status s status (Some id)) id = Some status.
Proof.
  intros Hc. apply has_id_select in Hc. destruct Hc as [c Hc].
  unfold car_status_of, update_car_status, with_cars. cbn [cars].
  rewrite select_update_same by reflexivity.
  rewrite Hc. reflexivity.
Qed.

Lemma update_car_status_other (s : Store) (status : string)
    (i : option Z) (j : Z) :
  i <> Some j ->
  select_by_id (cars (update_car_status s status i)) (Some j)
  = select_by_id (cars s) (Some j).
Proof.
  intros Hij. unfold update_car_status, with_cars. cbn [cars].
  apply select_update_other; [reflexivity | exact Hij].
Qed.

Lemma update_car_status_frame (s : Store) (status : string) (i : option Z) :
  users (update_car_status s status i) = users s /\
  customers (update_car_status s status i) = customers s /\
  bookings (update_car_status s status i) = bookings s /\
  services (update_car_status s status i) = services s.
Proof. repeat split. Qed.

(** ** Running a handler *)

Lemma admin_required_logged_in (func : M response) (w : World) :
  logged_in w -> admin_required func w = func w.
Proof.
  unfold logged_in, admin_required.
  destruct (session_user_id (session w)); [reflexivity | congruence].
Qed.

Lemma admin_required_anonymous (func : M response) (w : World) :
  session_user_id (session w) = None ->
  admin_required func w
  = (Ok (redirect "login"),
     mk_world (db w)
       (mk_session None (session_username (session w))
          (flashes (session w) ++ [("Please login first.", "warning")]))).
Proof.
  unfold admin_required. intros E. rewrite E.
  unfold bind, flash, ret. rewrite E. reflexivity.
Qed.

(** Unfolds the monad in a goal about a handler. *)
Ltac run_handler :=
  unfold bind, ret, query, execute, lift, flash, render_template;
  cbn [fst snd db session flashes session_user_id session_username].

(** ** Bookings *)

(** C2.  A booking-creation request for a car and a customer of the store
    and a range of dates inserts one bookings row, with status [active] and
    the total cost computed from the price of that car and the dates, and
    sets the status of the car to [rented], whatever it was. *)
Theorem add_booking_spec (w : World) (f : BookingForm.t) (c cu : Z)
    (car : Car) (s e : string) (sd ed : Datetime.date) :
  logged_in w ->
  BookingForm.car_id f = Some c ->
  BookingForm.customer_id f = Some cu ->
  BookingForm.start_date f = Some s ->
  BookingForm.end_date f = Some e ->
  select_by_id (cars (db w)) (Some c) = Some car ->
  has_id (customers (db w)) (Some cu) = true ->
  Datetime.strptime_ymd s = Some sd ->
  Datetime.strptime_ymd e = Some ed ->
  let total :=
    PrimFloat.mul (hundredths_as_float (car_price_per_day car))
      (days_as_float (Z.max 1 (Datetime.days_between sd ed + 1))) in
  let w' := snd (add_booking (POST f) w) in
  fst (add_booking (POST f) w) = Ok (redirect "view_bookings") /\
  rows (bookings (db w'))
  = rows (bookings (db w))
    ++ [mk_booking (auto_increment (bookings (db w))) c cu s e total
          (Some "active")] /\
  car_status_of (db w') c = Some "rented" /\
  (forall j, j <> c ->
     select_by_id (cars (db w')) (Some j) = select_by_id (cars (db w)) (Some j)) /\
  flashes (session w') = flashes (session w) ++ [("Booking created.", "success")].
Proof.
  intros Hin Hc Hcu Hs He Hcar Hcust Hsd Hed total w'.
  assert (Hhas : has_id (cars (db w)) (Some c) = true)
    by (apply has_id_select; eauto).
  assert (Hrun : add_booking (POST f) w
                 = (Ok (redirect "view_bookings"),
                    mk_world
                      (update_car_status
                         (with_bookings (db w)
                            (insert (bookings (db w)) (fun i =>
                               mk_booking i c cu s e total (Some "active"))))
                         "rented" (Some c))
                      (mk_session (session_user_id (session w))
                         (session_username (session w))
                         (flashes (session w)
                          ++ [("Booking created.", "success")])))).
  { unfold add_booking. rewrite admin_required_logged_in by assumption.
    rewrite Hc, Hcu, Hs, He. run_handler. rewrite Hcar.
    unfold price_of.
    rewrite (calc_total_cost_run
               (PyFloat (float_of_decimal (car_price_per_day car))) _
               s e sd ed Hsd Hed eq_refl).
    unfold insert_booking, booking_values. rewrite Hhas, Hcust.
    reflexivity. }
  subst w'. rewrite Hrun. cbn [fst snd db session flashes].
  repeat split.
  - apply update_car_status_sets. exact Hhas.
  - intros j Hj. rewrite update_car_status_other by congruence. reflexivity.
Qed.

Lemma add_booking_spec_witness :
  let w' := snd (add_booking (POST Sample.booking_form) Sample.world) in
  rows (bookings (db w'))
  = [Sample.booking1; Sample.booking2; Sample.booking3;
     mk_booking 4 8 2 "2024-05-01" "2024-05-03" 361.5%float (Some "active")]
  /\ car_status_of (db Sample.world) 8 = Some "rented"
  /\ car_status_of (db w') 8 = Some "rented".
Proof.
  assert (Hin : logged_in Sample.world) by (unfold logged_in; cbn; discriminate).
  pose proof (add_booking_spec Sample.world Sample.booking_form 8 2 Sample.car8
                "2024-05-01" "2024-05-03"
                (Datetime.mk_date 2024 5 1) (Datetime.mk_date 2024 5 3)
                Hin eq_refl eq_refl eq_refl eq_refl eq_refl eq_refl eq_refl
                eq_refl) as [_ [Hrows [Hcar _]]].
  split; [exact Hrows | split; [reflexivity | exact Hcar]].
Defined.

Lemma update_booking_ok (s : Store) (id c cu : Z) (sd ed : string)
    (total : float) (status : option string) :
  has_id (cars s) (Some c) = true ->
  has_id (customers s) (Some cu) = true ->
  update_booking s id (Some c) (Some cu) (Some sd) (Some ed) total status
  = Ok (if has_id (bookings s) (Some id)
        then with_bookings s
               (update_by_id (bookings s) (Some id) (fun b =>
                  mk_booking (booking_id b) c cu sd ed total status))
        else s).
Proof.
  intros Hc Hcu. unfold update_booking, booking_values.
  rewrite Hc, Hcu. cbn [andb].
  destruct (has_id (bookings s) (Some id)); reflexivity.
Qed.

Lemma update_booking_absent (s : Store) (id : Z) (car customer : option Z)
    (sd ed : option string) (total : float) (status : option string) :
  has_id (bookings s) (Some id) = false ->
  update_booking s id car customer sd ed total status = Ok s.
Proof. unfold update_booking. intros ->. reflexivity. Qed.

(** C3.  A booking update that submits the status [completed] or
    [cancelled], a car and a customer of the store and two dates that
    [strptime] reads sets the status of the car it names (the car of the
    booking after the update) to [available]; deleting an existing booking
    of a store that satisfies its foreign keys sets the status of its car
    to [available].  Neither looks at the other bookings of that car. *)
Theorem booking_end_frees_car :
  (forall (w : World) (id : Z) (f : BookingForm.t) (c cu : Z)
          (s e : string) (sd ed : Datetime.date),
     logged_in w ->
     BookingForm.status f = Some "completed"
       \/ BookingForm.status f = Some "cancelled" ->
     BookingForm.car_id f = Some c ->
     BookingForm.customer_id f = Some cu ->
     BookingForm.start_date f = Some s ->
     BookingForm.end_date f = Some e ->
     Datetime.strptime_ymd s = Some sd ->
     Datetime.strptime_ymd e = Some ed ->
     has_id (cars (db w)) (Some c) = true ->
     has_id (customers (db w)) (Some cu) = true ->
     let w' := snd (edit_booking id (POST f) w) in
     fst (edit_booking id (POST f) w) = Ok (redirect "view_bookings") /\
     car_status_of (db w') c = Some "available" /\
     (forall b, select_by_id (bookings (db w')) (Some id) = Some b ->
                booking_car_id b = c /\ booking_status b = BookingForm.status f))
  /\
  (forall (w : World) (id : Z) (b : Booking),
     logged_in w ->
     fk_integrity (db w) ->
     select_by_id (bookings (db w)) (Some id) = Some b ->
     let w' := snd (delete_booking id w) in
     fst (delete_booking id w) = Ok (redirect "view_bookings") /\
     car_status_of (db w') (booking_car_id b) = Some "available" /\
     select_by_id (bookings (db w')) (Some id) = None).
Proof.
  split.
  - intros w id f c cu s e sd ed Hin Hst Hc Hcu Hs He Hsd Hed Hcar Hcust w'.
    assert (Hcc : completed_or_cancelled (BookingForm.status f) = true)
      by (destruct Hst as [-> | ->]; reflexivity).
    subst w'. unfold edit_booking.
    rewrite admin_required_logged_in by assumption.
    rewrite Hc, Hcu, Hs, He, Hcc. run_handler.
    destruct (float_price_of (select_by_id (cars (db w)) (Some c)))
      as [x Hx].
    rewrite (calc_total_cost_run _ x s e sd ed Hsd Hed Hx).
    rewrite update_booking_ok by assumption.
    cbn [fst snd db session flashes].
    repeat split.
    + apply update_car_status_sets.
      destruct (has_id (bookings (db w)) (Some id)); exact Hcar.
    + revert H.
      destruct (has_id (bookings (db w)) (Some id)) eqn:Eb.
      * unfold update_car_status, with_cars, with_bookings. cbn [bookings].
        rewrite select_update_same by reflexivity.
        destruct (select_by_id (bookings (db w)) (Some id)); cbn;
          intros [= <-]; reflexivity.
      * apply has_id_false_select in Eb.
        unfold update_car_status, with_cars. cbn [bookings].
        rewrite Eb. discriminate.
    + revert H.
      destruct (has_id (bookings (db w)) (Some id)) eqn:Eb.
      * unfold update_car_status, with_cars, with_bookings. cbn [bookings].
        rewrite select_update_same by reflexivity.
        destruct (select_by_id (bookings (db w)) (Some id)); cbn;
          intros [= <-]; reflexivity.
      * apply has_id_false_select in Eb.
        unfold update_car_status, with_cars. cbn [bookings].
        rewrite Eb. discriminate.
  - intros w id b Hin Hfk Hb w'.
    assert (Hcar : has_id (cars (db w)) (Some (booking_car_id b)) = true).
    { destruct (select_by_id_pk _ _ _ Hb) as [_ Hmem].
      exact (proj1 (proj1 Hfk b Hmem)). }
    subst w'. unfold delete_booking.
    rewrite admin_required_logged_in by assumption.
    run_handler. rewrite Hb. run_handler.
    repeat split.
    + unfold delete_booking_row, with_bookings, car_status_of. cbn [cars].
      apply (update_car_status_sets (db w) "available" _ Hcar).
    + unfold delete_booking_row, with_bookings. cbn [bookings].
      apply select_delete.
Qed.

Lemma booking_end_frees_car_witness :
  car_status_of (db (snd (delete_booking 1 Sample.world))) 7 = Some "available"
  /\ select_by_id (bookings (db (snd (delete_booking 1 Sample.world)))) (Some 2)
     = Some Sample.booking2
  /\ car_status_of
       (db (snd (edit_booking 3 (POST Sample.booking_form) Sample.world))) 8
     = Some "available".
Proof.
  assert (Hin : logged_in Sample.world) by (unfold logged_in; cbn; discriminate).
  assert (Hfk : fk_integrity (db Sample.world)).
  { split; cbn; intros r Hr;
      repeat (destruct Hr as [<- | Hr]; [repeat split |]);
      destruct Hr. }
  split; [| split].
  - exact (proj1 (proj2
      (proj2 booking_end_frees_car Sample.world 1 Sample.booking1
         Hin Hfk eq_refl))).
  - reflexivity.
  - exact (proj1 (proj2
      (proj1 booking_end_frees_car Sample.world 3 Sample.booking_form 8 2
         "2024-05-01" "2024-05-03"
         (Datetime.mk_date 2024 5 1) (Datetime.mk_date 2024 5 3)
         Hin (or_introl eq_refl) eq_refl eq_refl eq_refl eq_refl
         eq_refl eq_refl eq_refl eq_refl))).
Defined.

(** Booking 3, of car 8, is in the store and the admin is logged in.  The
    edit submits the status [completed], the car and the customer of the
    booking and its start date, but no end date: [calc_total_cost] raises
    [TypeError] before any write, and car 8 stays [rented]. *)
Lemma booking_completed_without_end_date :
  let f := BookingForm.mk (Some 8) (Some 1) (Some "2024-03-01") None
                          (Some "completed") in
  select_by_id (bookings (db Sample.world)) (Some 3) = Some Sample.booking3 /\
  session_user_id (session Sample.world) = Some 1 /\
  edit_booking 3 (POST f) Sample.world = (Raise TypeError, Sample.world) /\
  car_status_of (db (snd (edit_booking 3 (POST f) Sample.world))) 8
  = Some "rented".
Proof. cbv zeta. repeat split. Qed.

(** ** Services *)

(** C4.  A service-creation request for a car of the store inserts one
    services row that references the car and sets the status of the car to
    [maintenance], whatever it was ([rented] included). *)
Theorem add_service_spec (w : World) (f : ServiceForm.t) (c : Z) :
  logged_in w ->
  ServiceForm.car_id f = Some c ->
  has_id (cars (db w)) (Some c) = true ->
  let w' := snd (add_service (POST f) w) in
  fst (add_service (POST f) w) = Ok (redirect "view_services") /\
  rows (services (db w'))
  = rows (services (db w))
    ++ [mk_service (auto_increment (services (db w))) c
          (or_None (ServiceForm.service_date f)) (ServiceForm.service_type f)
          (or_zero (ServiceForm.cost f)) (ServiceForm.remarks f)] /\
  car_status_of (db w') c = Some "maintenance" /\
  (forall j, j <> c ->
     select_by_id (cars (db w')) (Some j) = select_by_id (cars (db w)) (Some j)).
Proof.
  intros Hin Hc Hcar w'. subst w'. unfold add_service.
  rewrite admin_required_logged_in by assumption.
  rewrite Hc. run_handler.
  unfold insert_service, service_values. rewrite Hcar.
  cbn [fst snd db session flashes].
  repeat split.
  - apply update_car_status_sets. exact Hcar.
  - intros j Hj. rewrite update_car_status_other by congruence. reflexivity.
Qed.

Lemma add_service_spec_witness :
  car_status_of (db Sample.world) 8 = Some "rented" /\
  car_status_of (db (snd (add_service (POST Sample.service_form) Sample.world))) 8
  = Some "maintenance".
Proof.
  split; [reflexivity |].
  refine (proj1 (proj2 (proj2
    (add_service_spec Sample.world Sample.service_form 8 _ eq_refl eq_refl)))).
  unfold logged_in. cbn. discriminate.
Defined.

(** C5.  Updating a service and deleting a service leave the cars table
    (hence every car's status) as it was, and the users, customers and
    bookings tables too: the update rewrites at most the services row of the
    given id, the deletion removes exactly the rows of that id.  This holds
    for every request, also one that is refused. *)
Theorem service_edit_delete_frame (w : World) (id : Z)
    (req : request ServiceForm.t) :
  (let w' := snd (edit_service id req w) in
   cars (db w') = cars (db w) /\
   users (db w') = users (db w) /\
   customers (db w') = customers (db w) /\
   bookings (db w') = bookings (db w) /\
   List.length (rows (services (db w'))) = List.length (rows (services (db w))) /\
   (forall j, j <> id ->
      select_by_id (services (db w')) (Some j)
      = select_by_id (services (db w)) (Some j)))
  /\
  (let w' := snd (delete_service id w) in
   cars (db w') = cars (db w) /\
   users (db w') = users (db w) /\
   customers (db w') = customers (db w) /\
   bookings (db w') = bookings (db w) /\
   (logged_in w ->
    forall v, In v (rows (services (db w')))
              <-> In v (rows (services (db w))) /\ service_id v <> id) /\
   (~ logged_in w -> services (db w') = services (db w))).
Proof.
  split.
  - cbv zeta. unfold edit_service, admin_required.
    destruct (session_user_id (session w)) eqn:Elog.
    + destruct req as [|f].
      * run_handler.
        destruct (select_by_id (services (db w)) (Some id));
          run_handler; repeat split.
      * run_handler. unfold update_service.
        destruct (has_id (services (db w)) (Some id)).
        -- destruct (service_values _ _ _ _ _ _) as [mk|] eqn:Ev;
             cbn [fst snd db]; repeat split.
           ++ unfold with_services. cbn [services]. apply update_length.
           ++ intros j Hj. unfold with_services. cbn [services].
              apply select_update_other; [| congruence].
              intros r. unfold service_values in Ev.
              destruct (ServiceForm.car_id f) as [cid|]; [|discriminate].
              destruct (has_id (cars (db w)) (Some cid)); [|discriminate].
              injection Ev as <-. reflexivity.
        -- cbn [fst snd db]. repeat split.
    + run_handler. repeat split.
  - cbv zeta. unfold delete_service, admin_required, logged_in.
    destruct (session_user_id (session w)) eqn:Elog.
    + run_handler. unfold delete_service_row, with_services.
      cbn [cars users customers bookings services].
      do 4 (split; [reflexivity |]). split.
      * intros _ v. exact (in_delete (services (db w)) id v).
      * intros Hno. exfalso. apply Hno. discriminate.
    + run_handler.
      do 4 (split; [reflexivity |]). split.
      * intros Hyes. exfalso. apply Hyes. reflexivity.
      * reflexivity.
Qed.

(** ** Deletion of a car or a customer *)

Section MoreTableFacts.
Context {A : Type} `{Row A}.

Lemma absent_id_not_in (t : table A) (i : Z) (r : A) :
  has_id t (Some i) = false -> In r (rows t) -> pk r <> i.
Proof.
  intros Hno Hin Heq.
  assert (Hyes : has_id t (Some i) = true).
  { unfold has_id. apply existsb_exists. exists r. split; [exact Hin |].
    cbn. apply Z.eqb_eq. exact Heq. }
  congruence.
Qed.

Lemma has_id_delete_other (t : table A) (i j : Z) :
  j <> i -> has_id t (Some j) = true ->
  has_id (delete_by_id t (Some i)) (Some j) = true.
Proof.
  intros Hji Hj. unfold has_id in *. apply existsb_exists in Hj.
  destruct Hj as [r [Hin Hid]]. apply existsb_exists. exists r.
  split; [| exact Hid].
  apply in_delete. split; [exact Hin |].
  cbn in Hid. apply Z.eqb_eq in Hid. congruence.
Qed.

End MoreTableFacts.

Lemma in_filter_ne {A : Type} (key : A -> Z) (l : list A) (i : Z) (r : A) :
  In r (filter (fun x => negb (key x =? i)) l) <-> In r l /\ key r <> i.
Proof. rewrite filter_In, negb_true_iff, Z.eqb_neq. reflexivity. Qed.

Lemma delete_car_row_rows (s : Store) (id : Z) :
  fk_integrity s ->
  let s' := delete_car_row s id in
  (forall c, In c (rows (cars s')) <-> In c (rows (cars s)) /\ car_id c <> id) /\
  (forall b, In b (rows (bookings s'))
             <-> In b (rows (bookings s)) /\ booking_car_id b <> id) /\
  (forall v, In v (rows (services s'))
             <-> In v (rows (services s)) /\ service_car_id v <> id) /\
  customers s' = customers s /\
  users s' = users s /\
  fk_integrity s'.
Proof.
  intros [Hb Hv]. cbv zeta. unfold delete_car_row.
  destruct (has_id (cars s) (Some id)) eqn:E.
  - cbn [cars bookings services customers users rows].
    split; [intros c; exact (in_delete (cars s) id c) |].
    split; [intros b; apply in_filter_ne |].
    split; [intros v; apply in_filter_ne |].
    split; [reflexivity |]. split; [reflexivity |].
    split; cbn [cars bookings services customers users rows].
    + intros b Hin. apply in_filter_ne in Hin. destruct Hin as [Hin Hne].
      destruct (Hb b Hin) as [Hcar Hcust]. split; [| exact Hcust].
      apply has_id_delete_other; [exact Hne | exact Hcar].
    + intros v Hin. apply in_filter_ne in Hin. destruct Hin as [Hin Hne].
      apply has_id_delete_other; [exact Hne | exact (Hv v Hin)].
  - split.
    { intros c. split; [| tauto]. intros Hin. split; [exact Hin |].
      exact (absent_id_not_in (cars s) id c E Hin). }
    split.
    { intros b. split; [| tauto]. intros Hin. split; [exact Hin |].
      intros Heq. destruct (Hb b Hin) as [Hcar _]. congruence. }
    split.
    { intros v. split; [| tauto]. intros Hin. split; [exact Hin |].
      intros Heq. pose proof (Hv v Hin) as Hcar. congruence. }
    do 2 (split; [reflexivity |]). split; assumption.
Qed.

Lemma delete_customer_row_rows (s : Store) (id : Z) :
  fk_integrity s ->
  let s' := delete_customer_row s id in
  (forall c, In c (rows (customers s'))
             <-> In c (rows (customers s)) /\ customer_id c <> id) /\
  (forall b, In b (rows (bookings s'))
             <-> In b (rows (bookings s)) /\ booking_customer_id b <> id) /\
  cars s' = cars s /\
  services s' = services s /\
  users s' = users s /\
  fk_integrity s'.
Proof.
  intros [Hb Hv]. cbv zeta. unfold delete_customer_row.
  destruct (has_id (customers s) (Some id)) eqn:E.
  - cbn [cars bookings services customers users rows].
    split; [intros c; exact (in_delete (customers s) id c) |].
    split; [intros b; apply in_filter_ne |].
    do 3 (split; [reflexivity |]).
    split; cbn [cars bookings services customers users rows].
    + intros b Hin. apply in_filter_ne in Hin. destruct Hin as [Hin Hne].
      destruct (Hb b Hin) as [Hcar Hcust]. split; [exact Hcar |].
      apply has_id_delete_other; [exact Hne | exact Hcust].
    + exact Hv.
  - split.
    { intros c. split; [| tauto]. intros Hin. split; [exact Hin |].
      exact (absent_id_not_in (customers s) id c E Hin). }
    split.
    { intros b. split; [| tauto]. intros Hin. split; [exact Hin |].
      intros Heq. destruct (Hb b Hin) as [_ Hcust]. congruence. }
    do 3 (split; [reflexivity |]). split; assumption.
Qed.

(** C6.  In every store (one that satisfies its foreign keys), deleting a
    car removes the car, every booking and every service that references it
    and no other row; deleting a customer removes the customer, every
    booking that references it and no other row.  The foreign keys still
    hold afterwards. *)
Theorem delete_cascades :
  (forall (w : World) (id : Z),
     logged_in w -> fk_integrity (db w) ->
     let w' := snd (delete_car id w) in
     fst (delete_car id w) = Ok (redirect "view_cars") /\
     (forall c, In c (rows (cars (db w')))
                <-> In c (rows (cars (db w))) /\ car_id c <> id) /\
     (forall b, In b (rows (bookings (db w')))
                <-> In b (rows (bookings (db w))) /\ booking_car_id b <> id) /\
     (forall v, In v (rows (services (db w')))
                <-> In v (rows (services (db w))) /\ service_car_id v <> id) /\
     customers (db w') = customers (db w) /\
     users (db w') = users (db w) /\
     fk_integrity (db w'))
  /\
  (forall (w : World) (id : Z),
     logged_in w -> fk_integrity (db w) ->
     let w' := snd (delete_customer id w) in
     fst (delete_customer id w) = Ok (redirect "view_customers") /\
     (forall c, In c (rows (customers (db w')))
                <-> In c (rows (customers (db w))) /\ customer_id c <> id) /\
     (forall b, In b (rows (bookings (db w')))
                <-> In b (rows (bookings (db w))) /\ booking_customer_id b <> id) /\
     cars (db w') = cars (db w) /\
     services (db w') = services (db w) /\
     users (db w') = users (db w) /\
     fk_integrity (db w')).
Proof.
  split; intros w id Hin Hfk w'; subst w'.
  - unfold delete_car. rewrite admin_required_logged_in by assumption.
    run_handler. split; [reflexivity |].
    exact (delete_car_row_rows (db w) id Hfk).
  - unfold delete_customer. rewrite admin_required_logged_in by assumption.
    run_handler. split; [reflexivity |].
    exact (delete_customer_row_rows (db w) id Hfk).
Qed.

Lemma sample_logged_in : logged_in Sample.world.
Proof. unfold logged_in. cbn. discriminate. Defined.

Lemma sample_fk_integrity : fk_integrity (db Sample.world).
Proof.
  split; cbn; intros r Hr;
    repeat (destruct Hr as [<- | Hr]; [repeat split |]);
    destruct Hr.
Defined.

Lemma delete_cascades_witness :
  (forall b, In b (rows (bookings (db (snd (delete_car 7 Sample.world)))))
             <-> In b (rows (bookings (db Sample.world))) /\ booking_car_id b <> 7)
  /\ (forall b, In b (rows (bookings (db (snd (delete_customer 1 Sample.world)))))
             <-> In b (rows (bookings (db Sample.world)))
                 /\ booking_customer_id b <> 1).
Proof.
  split.
  - exact (proj1 (proj2 (proj2
      (proj1 delete_cascades Sample.world 7
         sample_logged_in sample_fk_integrity)))).
  - exact (proj1 (proj2 (proj2
      (proj2 delete_cascades Sample.world 1
         sample_logged_in sample_fk_integrity)))).
Defined.

(** The scenario of the specification: car 7 has two bookings and one
    service; deleting it removes the four rows and nothing else. *)
Example delete_car_7 :
  let s' := db (snd (delete_car 7 Sample.world)) in
  rows (cars s') = [Sample.car8] /\
  rows (bookings s') = [Sample.booking3] /\
  rows (services s') = [] /\
  rows (customers s') = [Sample.alice; Sample.bob].
Proof. cbv zeta. repeat split. Qed.

(** ** Requests for an id that is not in the store *)

Lemma with_bookings_same (s : Store) : with_bookings s (bookings s) = s.
Proof. destruct s. reflexivity. Qed.

Lemma with_services_same (s : Store) : with_services s (services s) = s.
Proof. destruct s. reflexivity. Qed.

Lemma delete_car_row_absent (s : Store) (id : Z) :
  has_id (cars s) (Some id) = false -> delete_car_row s id = s.
Proof. unfold delete_car_row. intros ->. reflexivity. Qed.

Lemma delete_customer_row_absent (s : Store) (id : Z) :
  has_id (customers s) (Some id) = false -> delete_customer_row s id = s.
Proof. unfold delete_customer_row. intros ->. reflexivity. Qed.

Lemma delete_booking_row_absent (s : Store) (id : Z) :
  has_id (bookings s) (Some id) = false -> delete_booking_row s id = s.
Proof.
  intros Hno. unfold delete_booking_row.
  rewrite delete_absent by exact Hno. apply with_bookings_same.
Qed.

Lemma delete_service_row_absent (s : Store) (id : Z) :
  has_id (services s) (Some id) = false -> delete_service_row s id = s.
Proof.
  intros Hno. unfold delete_service_row.
  rewrite delete_absent by exact Hno. apply with_services_same.
Qed.

Lemma well_dated_run (f : BookingForm.t) (price : number) :
  well_dated f = true ->
  (exists x, float_ price = Ok x) ->
  exists total,
    calc_total_cost price (BookingForm.start_date f) (BookingForm.end_date f)
    = Ok total.
Proof.
  unfold well_dated, strptime. intros Hd [x Hx].
  destruct (BookingForm.start_date f) as [s|]; [| discriminate].
  destruct (Datetime.strptime_ymd s) as [sd|] eqn:Hs; [| discriminate].
  destruct (BookingForm.end_date f) as [e|]; [| discriminate].
  destruct (Datetime.strptime_ymd e) as [ed|] eqn:He; [| discriminate].
  eexists. exact (calc_total_cost_run price x s e sd ed Hs He Hx).
Qed.

(** C7.  For each of the four entities and an id that is not in its table,
    the GET of the edit page, the POST of the edit form and the POST of the
    deletion all answer with one flashed notice and a redirect to the list
    view of the entity, and none of them raises; for cars, customers and
    services, and for bookings on GET and on deletion, the store is left as
    it was.  The POST of a booking edit is taken with dates that [strptime]
    reads. *)
Theorem missing_id_notice (w : World) (id : Z) :
  logged_in w ->
  (has_id (cars (db w)) (Some id) = false ->
     edit_car id GET w = notice w "Car not found." "danger" "view_cars" /\
     (forall f, edit_car id (POST f) w
                = notice w "Car updated." "success" "view_cars") /\
     delete_car id w = notice w "Car deleted." "info" "view_cars")
  /\
  (has_id (customers (db w)) (Some id) = false ->
     edit_customer id GET w
     = notice w "Customer not found." "danger" "view_customers" /\
     (forall f, edit_customer id (POST f) w
                = notice w "Customer updated." "success" "view_customers") /\
     delete_customer id w
     = notice w "Customer deleted." "info" "view_customers")
  /\
  (has_id (bookings (db w)) (Some id) = false ->
     edit_booking id GET w
     = notice w "Booking not found." "danger" "view_bookings" /\
     (forall f, well_dated f = true ->
        fst (edit_booking id (POST f) w) = Ok (redirect "view_bookings") /\
        session (snd (edit_booking id (POST f) w))
        = flash_session w "Booking updated." "success" /\
        bookings (db (snd (edit_booking id (POST f) w))) = bookings (db w)) /\
     delete_booking id w = notice w "Booking deleted." "info" "view_bookings")
  /\
  (has_id (services (db w)) (Some id) = false ->
     edit_service id GET w
     = notice w "Service not found." "danger" "view_services" /\
     (forall f, edit_service id (POST f) w
                = notice w "Service record updated." "success" "view_services") /\
     delete_service id w
     = notice w "Service record deleted." "info" "view_services").
Proof.
  intros Hin. repeat apply conj; intros Hno.
  - repeat apply conj; [| intros f |].
    + unfold edit_car. rewrite admin_required_logged_in by assumption.
      run_handler. apply has_id_false_select in Hno. rewrite Hno.
      reflexivity.
    + unfold edit_car. rewrite admin_required_logged_in by assumption.
      run_handler. unfold update_car. rewrite Hno. reflexivity.
    + unfold delete_car. rewrite admin_required_logged_in by assumption.
      run_handler. rewrite delete_car_row_absent by exact Hno. reflexivity.
  - repeat apply conj; [| intros f |].
    + unfold edit_customer. rewrite admin_required_logged_in by assumption.
      run_handler. apply has_id_false_select in Hno. rewrite Hno.
      reflexivity.
    + unfold edit_customer. rewrite admin_required_logged_in by assumption.
      run_handler. unfold update_customer. rewrite Hno. reflexivity.
    + unfold delete_customer. rewrite admin_required_logged_in by assumption.
      run_handler. rewrite delete_customer_row_absent by exact Hno.
      reflexivity.
  - repeat apply conj; [| intros f Hd |].
    + unfold edit_booking. rewrite admin_required_logged_in by assumption.
      run_handler. apply has_id_false_select in Hno. rewrite Hno.
      reflexivity.
    + unfold edit_booking. rewrite admin_required_logged_in by assumption.
      run_handler.
      destruct (well_dated_run f
                  (price_of (select_by_id (cars (db w)) (BookingForm.car_id f)))
                  Hd (float_price_of _)) as [total ->].
      rewrite update_booking_absent by exact Hno.
      destruct (completed_or_cancelled (BookingForm.status f));
        run_handler; repeat split.
    + unfold delete_booking. rewrite admin_required_logged_in by assumption.
      run_handler. pose proof Hno as Hsel.
      apply has_id_false_select in Hsel. rewrite Hsel. run_handler.
      rewrite delete_booking_row_absent by exact Hno. reflexivity.
  - repeat apply conj; [| intros f |].
    + unfold edit_service. rewrite admin_required_logged_in by assumption.
      run_handler. apply has_id_false_select in Hno. rewrite Hno.
      reflexivity.
    + unfold edit_service. rewrite admin_required_logged_in by assumption.
      run_handler. unfold update_service. rewrite Hno. reflexivity.
    + unfold delete_service. rewrite admin_required_logged_in by assumption.
      run_handler. rewrite delete_service_row_absent by exact Hno.
      reflexivity.
Qed.

Lemma missing_id_notice_witness :
  edit_car 99 GET Sample.world
  = notice Sample.world "Car not found." "danger" "view_cars"
  /\ delete_service 99 Sample.world
     = notice Sample.world "Service record deleted." "info" "view_services"
  /\ fst (edit_booking 99 (POST Sample.booking_form) Sample.world)
     = Ok (redirect "view_bookings").
Proof.
  pose proof (missing_id_notice Sample.world 99 sample_logged_in)
    as [Hcars [_ [Hbookings Hservices]]].
  split; [exact (proj1 (Hcars eq_refl)) | split].
  - exact (proj2 (proj2 (Hservices eq_refl))).
  - exact (proj1 (proj1 (proj2 (Hbookings eq_refl)) Sample.booking_form eq_refl)).
Defined.

(** A booking edit with a date that is missing, or that is an ASCII text
    [strptime] does not read, raises before any write and any notice, for
    an id that is in the store and for one that is not. *)
Lemma edit_booking_unread_dates (w : World) (id : Z) (f : BookingForm.t) :
  logged_in w ->
  (forall s, BookingForm.start_date f = Some s -> is_ascii s = true) ->
  (forall e, BookingForm.end_date f = Some e -> is_ascii e = true) ->
  well_dated f = false ->
  exists e, edit_booking id (POST f) w = (Raise e, w).
Proof.
  intros Hin _ _ Hd. unfold edit_booking.
  rewrite admin_required_logged_in by assumption. run_handler.
  unfold well_dated in Hd. unfold calc_total_cost.
  destruct (strptime (BookingForm.start_date f)) as [sd | e1]; [| eauto].
  destruct (strptime (BookingForm.end_date f)) as [ed | e2];
    [discriminate | eauto].
Qed.

(** The id 99 is not in the bookings table, the admin is logged in, the
    form carries no readable start date: the POST of the edit raises
    [ValueError], flashes nothing and redirects nowhere. *)
Lemma missing_id_unread_dates_raise :
  let f := BookingForm.mk (Some 8) (Some 2) (Some "") (Some "2024-05-03")
                          (Some "active") in
  has_id (bookings (db Sample.world)) (Some 99) = false /\
  session_user_id (session Sample.world) = Some 1 /\
  edit_booking 99 (POST f) Sample.world = (Raise ValueError, Sample.world).
Proof. cbv zeta. repeat split. Qed.

(** C10.  A booking-edit POST for an id that is not in the bookings table,
    with dates that [strptime] reads, changes no bookings row, still sets
    the car named by the submitted [car_id] to [available] when the
    submitted status is [completed] or [cancelled] (and touches no car
    otherwise), and answers with the success notice and the redirect. *)
Theorem edit_missing_booking_spec (w : World) (id : Z) (f : BookingForm.t) :
  logged_in w ->
  has_id (bookings (db w)) (Some id) = false ->
  well_dated f = true ->
  let w' := snd (edit_booking id (POST f) w) in
  fst (edit_booking id (POST f) w) = Ok (redirect "view_bookings") /\
  session w' = flash_session w "Booking updated." "success" /\
  bookings (db w') = bookings (db w) /\
  (completed_or_cancelled (BookingForm.status f) = true ->
     db w' = update_car_status (db w) "available" (BookingForm.car_id f) /\
     forall c, BookingForm.car_id f = Some c ->
               has_id (cars (db w)) (Some c) = true ->
               car_status_of (db w') c = Some "available") /\
  (completed_or_cancelled (BookingForm.status f) = false -> db w' = db w).
Proof.
  intros Hin Hno Hd w'. subst w'. unfold edit_booking.
  rewrite admin_required_logged_in by assumption. run_handler.
  destruct (well_dated_run f
              (price_of (select_by_id (cars (db w)) (BookingForm.car_id f)))
              Hd (float_price_of _)) as [total ->].
  rewrite update_booking_absent by exact Hno.
  destruct (completed_or_cancelled (BookingForm.status f));
    run_handler; (do 3 (split; [reflexivity |])); split;
    try discriminate; try reflexivity.
  intros _. split; [reflexivity |].
  intros c -> Hc. apply update_car_status_sets. exact Hc.
Qed.

Lemma edit_missing_booking_spec_witness :
  fst (edit_booking 99 (POST Sample.booking_form) Sample.world)
  = Ok (redirect "view_bookings")
  /\ car_status_of (db Sample.world) 8 = Some "rented"
  /\ car_status_of
       (db (snd (edit_booking 99 (POST Sample.booking_form) Sample.world))) 8
     = Some "available".
Proof.
  pose proof (edit_missing_booking_spec Sample.world 99 Sample.booking_form
                sample_logged_in eq_refl eq_refl)
    as [Hresp [_ [_ [Hcar _]]]].
  split; [exact Hresp | split; [reflexivity |]].
  exact (proj2 (Hcar eq_refl) 8 eq_refl eq_refl).
Defined.

(** The id 99 is not in the bookings table and the submitted status is
    [completed], but the form carries no end date: the POST raises
    [TypeError], car 8 stays [rented] and no notice is flashed. *)
Lemma edit_missing_booking_no_dates :
  let f := BookingForm.mk (Some 8) (Some 2) (Some "2024-05-01") None
                          (Some "completed") in
  has_id (bookings (db Sample.world)) (Some 99) = false /\
  session_user_id (session Sample.world) = Some 1 /\
  fst (edit_booking 99 (POST f) Sample.world) = Raise TypeError /\
  car_status_of (db (snd (edit_booking 99 (POST f) Sample.world))) 8
  = Some "rented" /\
  flashes (session (snd (edit_booking 99 (POST f) Sample.world))) = [].
Proof. cbv zeta. repeat split. Qed.

(** ** Accounts *)

Section AccountFacts.

Variable collation_eqb : string -> string -> bool.
Variable generate_password_hash : string -> string -> string.
Variable check_password_hash : string -> option string -> result bool.

(** C8.  A login with a user name that no account has, and a login with a
    user name that an account has and a submitted password that
    [check_password_hash] rejects, both fail, and fail alike: the login
    page is rendered again, the session keys are not set, and the one
    notice flashed is "Invalid credentials." in both cases, so that the two
    outcomes are equal.  When [check_password_hash] raises, as it does
    where no password was submitted, the login raises with it, which
    happens for the user name of an account only. *)
Theorem login_failure_uniform (w : World) :
  (forall f,
     select_user collation_eqb (users (db w)) (LoginForm.username f) = None ->
     login collation_eqb check_password_hash (POST f) w = login_failed w)
  /\
  (forall f r,
     select_user collation_eqb (users (db w)) (LoginForm.username f) = Some r ->
     check_password_hash (user_password_hash r) (LoginForm.password f)
     = Ok false ->
     login collation_eqb check_password_hash (POST f) w = login_failed w)
  /\
  session_user_id (session (snd (login_failed w)))
  = session_user_id (session w)
  /\
  session_username (session (snd (login_failed w)))
  = session_username (session w)
  /\
  (forall f1 f2 r,
     select_user collation_eqb (users (db w)) (LoginForm.username f1) = None ->
     select_user collation_eqb (users (db w)) (LoginForm.username f2) = Some r ->
     check_password_hash (user_password_hash r) (LoginForm.password f2)
     = Ok false ->
     login collation_eqb check_password_hash (POST f1) w
     = login collation_eqb check_password_hash (POST f2) w)
  /\
  (forall f r err,
     select_user collation_eqb (users (db w)) (LoginForm.username f) = Some r ->
     check_password_hash (user_password_hash r) (LoginForm.password f)
     = Raise err ->
     login collation_eqb check_password_hash (POST f) w = (Raise err, w)).
Proof.
  assert (Hunknown : forall f,
    select_user collation_eqb (users (db w)) (LoginForm.username f) = None ->
    login collation_eqb check_password_hash (POST f) w = login_failed w).
  { intros f Hsel. unfold login. run_handler. rewrite Hsel. reflexivity. }
  assert (Hwrong : forall f r,
    select_user collation_eqb (users (db w)) (LoginForm.username f) = Some r ->
    check_password_hash (user_password_hash r) (LoginForm.password f)
    = Ok false ->
    login collation_eqb check_password_hash (POST f) w = login_failed w).
  { intros f r Hsel Hpw. unfold login. run_handler. rewrite Hsel, Hpw.
    reflexivity. }
  split; [exact Hunknown | split; [exact Hwrong |]].
  split; [reflexivity | split; [reflexivity | split]].
  - intros f1 f2 r H1 H2 Hpw.
    rewrite (Hunknown f1 H1), (Hwrong f2 r H2 Hpw). reflexivity.
  - intros f r err Hsel Hpw. unfold login. run_handler.
    rewrite Hsel, Hpw. reflexivity.
Qed.

End AccountFacts.

Lemma login_failure_uniform_witness :
  login SampleLibrary.collation_eqb SampleLibrary.check_password_hash
        (POST (LoginForm.mk (Some "nobody") (Some "admin123"))) Sample.anonymous
  = login SampleLibrary.collation_eqb SampleLibrary.check_password_hash
        (POST (LoginForm.mk (Some "Admin") (Some "letmein"))) Sample.anonymous.
Proof.
  exact (proj1 (proj2 (proj2 (proj2 (proj2
    (login_failure_uniform SampleLibrary.collation_eqb
       SampleLibrary.check_password_hash Sample.anonymous)))))
    (LoginForm.mk (Some "nobody") (Some "admin123"))
    (LoginForm.mk (Some "Admin") (Some "letmein"))
    Sample.admin eq_refl eq_refl eq_refl).
Defined.

(** Two requests without a password field, on a store whose one account is
    [admin]: for the user name of the account [check_password_hash] is
    called on [None] and raises, and the request fails with a server error;
    for a user name that no account has the login page is rendered with the
    notice.  The two are told apart. *)
Lemma login_without_password_differs :
  let known := LoginForm.mk (Some "admin") None in
  let unknown := LoginForm.mk (Some "nobody") None in
  login SampleLibrary.collation_eqb SampleLibrary.check_password_hash
        (POST known) Sample.anonymous
  = (Raise AttributeError, Sample.anonymous)
  /\
  login SampleLibrary.collation_eqb SampleLibrary.check_password_hash
        (POST unknown) Sample.anonymous
  = (Ok (page "login.html" no_context [("Invalid credentials.", "danger")]),
     Sample.anonymous).
Proof. cbv zeta. split; reflexivity. Qed.

Section InitDbFacts.

Variable collation_eqb : string -> string -> bool.
Variable generate_password_hash : string -> string -> string.

(** A name equals itself under the collation. *)
Hypothesis collation_refl : forall s, collation_eqb s s = true.

Lemma select_user_admin_accounts (t : table User) :
  select_user collation_eqb t (Some ADMIN_DEFAULT_USERNAME) = None
  <-> admin_accounts collation_eqb t = [].
Proof.
  unfold select_user, admin_accounts.
  induction (rows t) as [|r l IH]; cbn; [tauto |].
  destruct (collation_eqb (user_username r) ADMIN_DEFAULT_USERNAME).
  - split; discriminate.
  - exact IH.
Qed.

Lemma insert_user_fresh (t : table User) (h : string) (role : option string) :
  select_user collation_eqb t (Some ADMIN_DEFAULT_USERNAME) = None ->
  insert_user collation_eqb t ADMIN_DEFAULT_USERNAME h role
  = Ok (insert t (fun i => mk_user i ADMIN_DEFAULT_USERNAME h role)).
Proof.
  intros Hno. unfold insert_user.
  replace (existsb _ (rows t)) with false; [reflexivity |].
  symmetry. unfold select_user in Hno.
  induction (rows t) as [|r l IH]; cbn in *; [reflexivity |].
  destruct (collation_eqb (user_username r) ADMIN_DEFAULT_USERNAME);
    [discriminate | exact (IH Hno)].
Qed.

Lemma admin_accounts_insert (t : table User) (h : string)
    (role : option string) :
  admin_accounts collation_eqb
    (insert t (fun i => mk_user i ADMIN_DEFAULT_USERNAME h role))
  = admin_accounts collation_eqb t
    ++ [mk_user (auto_increment t) ADMIN_DEFAULT_USERNAME h role].
Proof.
  unfold admin_accounts, insert. cbn [rows].
  rewrite filter_app. cbn [filter user_username].
  rewrite collation_refl. reflexivity.
Qed.

(** C9.  [init_db] always returns; it inserts the seed account
    exactly when the users table has no account with the default user name
    (so in particular when the table is absent or empty), and then the
    account carries the default user name, a hash of the default password
    and the role [admin]; it changes nothing else.  After it the users table
    has an account with the default user name (exactly one when it had at
    most one before), and running [init_db] again, with any salt, leaves
    the store as it is and prints nothing. *)
Theorem init_db_spec (salt : string) (sv : Server) :
  let d := create_database_if_not_exists sv in
  let users0 := create_table_if_not_exists (users_table d) in
  exists (s : Store) (out : list string),
    init_db collation_eqb generate_password_hash salt sv = Ok (s, out) /\
    cars s = create_table_if_not_exists (cars_table d) /\
    customers s = create_table_if_not_exists (customers_table d) /\
    bookings s = create_table_if_not_exists (bookings_table d) /\
    services s = create_table_if_not_exists (services_table d) /\
    (admin_accounts collation_eqb users0 = [] ->
       rows (users s)
       = rows users0 ++ [seed_admin generate_password_hash salt users0] /\
       out <> []) /\
    (admin_accounts collation_eqb users0 <> [] ->
       users s = users0 /\ out = []) /\
    (rows users0 = [] ->
       rows (users s) = [seed_admin generate_password_hash salt users0]) /\
    admin_accounts collation_eqb (users s) <> [] /\
    ((List.length (admin_accounts collation_eqb users0) <= 1)%nat ->
       List.length (admin_accounts collation_eqb (users s)) = 1%nat) /\
    (forall salt',
       init_db collation_eqb generate_password_hash salt' (server_of s)
       = Ok (s, [])).
Proof.
  intros d users0. unfold init_db. fold d. fold users0.
  destruct (select_user collation_eqb users0 (Some ADMIN_DEFAULT_USERNAME))
    as [r|] eqn:Esel.
  - assert (Hsome : admin_accounts collation_eqb users0 <> []).
    { intros Hnil. apply select_user_admin_accounts in Hnil. congruence. }
    eexists. eexists. split; [reflexivity |].
    cbn [users cars customers bookings services].
    do 4 (split; [reflexivity |]).
    split; [intros Hnil; contradiction |].
    split; [intros _; split; reflexivity |].
    split.
    { intros Hnil. unfold admin_accounts in Hsome. rewrite Hnil in Hsome.
      cbn in Hsome. congruence. }
    split; [exact Hsome |].
    split.
    { intros Hle. destruct (admin_accounts collation_eqb users0) as [|x [|y l]];
        [congruence | reflexivity | cbn in Hle; lia]. }
    intros salt'. cbn [server_of create_database_if_not_exists users_table
                       cars_table customers_table bookings_table
                       services_table create_table_if_not_exists
                       users cars customers bookings services].
    rewrite Esel. reflexivity.
  - pose proof (proj1 (select_user_admin_accounts users0) Esel) as Hnil.
    rewrite (insert_user_fresh users0 _ _ Esel).
    eexists. eexists. split; [reflexivity |].
    cbn [users cars customers bookings services].
    do 4 (split; [reflexivity |]).
    split; [intros _; split; [reflexivity | discriminate] |].
    split; [intros Hne; contradiction |].
    split.
    { intros Hrows. unfold insert. cbn [rows]. rewrite Hrows. reflexivity. }
    split.
    { rewrite admin_accounts_insert, Hnil. discriminate. }
    split.
    { intros _. rewrite admin_accounts_insert, Hnil. reflexivity. }
    intros salt'. cbn [server_of create_database_if_not_exists users_table
                       cars_table customers_table bookings_table
                       services_table create_table_if_not_exists
                       users cars customers bookings services].
    assert (Hnow : exists r,
      select_user collation_eqb
        (insert users0 (fun i => mk_user i ADMIN_DEFAULT_USERNAME
           (generate_password_hash salt ADMIN_DEFAULT_PASSWORD) (Some "admin")))
        (Some ADMIN_DEFAULT_USERNAME) = Some r).
    { destruct (select_user collation_eqb (insert users0 _) _) as [r|] eqn:E;
        [eauto |].
      apply select_user_admin_accounts in E.
      rewrite admin_accounts_insert, Hnil in E. discriminate. }
    destruct Hnow as [r ->]. reflexivity.
Qed.

End InitDbFacts.

Lemma sample_collation_refl (s : string) :
  SampleLibrary.collation_eqb s s = true.
Proof. unfold SampleLibrary.collation_eqb. apply String.eqb_refl. Defined.

Lemma init_db_spec_witness :
  exists (s : Store) (out : list string),
    init_db SampleLibrary.collation_eqb SampleLibrary.generate_password_hash
            "salt" None = Ok (s, out) /\
    rows (users s) = [mk_user 1 "admin" "plain$salt$admin123" (Some "admin")] /\
    (forall salt',
       init_db SampleLibrary.collation_eqb
               SampleLibrary.generate_password_hash salt' (server_of s)
       = Ok (s, [])).
Proof.
  destruct (init_db_spec SampleLibrary.collation_eqb
              SampleLibrary.generate_password_hash sample_collation_refl
              "salt" None)
    as (s & out & Hrun & _ & _ & _ & _ & _ & _ & Hempty & _ & _ & Hagain).
  exists s, out. split; [exact Hrun | split; [| exact Hagain]].
  exact (Hempty eq_refl).
Defined.

(** The users table holds one account, "bob": it is not empty, and
    [init_db] inserts the seed account all the same. *)
Lemma init_db_seeds_beside_other_user :
  exists (t : table User) (s : Store) (out : list string),
    SampleLibrary.server_with_other_user
    = Some (mk_database (Some t) (Some empty_table) (Some empty_table)
                        (Some empty_table) (Some empty_table)) /\
    rows t = [SampleLibrary.other_user] /\
    init_db SampleLibrary.collation_eqb SampleLibrary.generate_password_hash
            "salt" SampleLibrary.server_with_other_user = Ok (s, out) /\
    rows (users s)
    = [SampleLibrary.other_user;
       mk_user 2 "admin" "plain$salt$admin123" (Some "admin")] /\
    out = ["Default admin created -> username: admin password: admin123"].
Proof.
  eexists. eexists. eexists.
  split; [reflexivity |]. split; [reflexivity |].
  split; [vm_compute; reflexivity |]. split; reflexivity.
Qed.

Lemma service_edit_delete_frame_witness :
  cars (db (snd (edit_service 1 (POST Sample.service_form) Sample.world)))
  = cars (db Sample.world)
  /\ cars (db (snd (delete_service 1 Sample.world))) = cars (db Sample.world).
Proof.
  split.
  - exact (proj1 (proj1
      (service_edit_delete_frame Sample.world 1 (POST Sample.service_form)))).
  - exact (proj1 (proj2
      (service_edit_delete_frame Sample.world 1 GET))).
Defined.

(** ** Referential integrity is an invariant of the handlers *)

Section KeyFacts.
Context {A : Type} `{Row A}.

Lemma has_id_insert (t : table A) (mk : Z -> A) (i : option Z) :
  has_id t i = true -> has_id (insert t mk) i = true.
Proof.
  unfold has_id, insert. cbn [rows]. rewrite existsb_app.
  intros ->. reflexivity.
Qed.

Lemma has_id_update (t : table A) (j i : option Z) (f : A -> A) :
  (forall r, pk (f r) = pk r) ->
  has_id (update_by_id t j f) i = has_id t i.
Proof.
  intros Hpk. unfold has_id, update_by_id. cbn [rows].
  induction (rows t) as [|r l IH]; cbn; [reflexivity |].
  rewrite IH. f_equal.
  destruct (id_is j r); [| reflexivity].
  destruct i; cbn; [rewrite Hpk |]; reflexivity.
Qed.

Lemma in_update (t : table A) (j : option Z) (f : A -> A) (x : A) :
  In x (rows (update_by_id t j f)) ->
  In x (rows t) \/ exists r, In r (rows t) /\ x = f r.
Proof.
  unfold update_by_id. cbn [rows]. rewrite in_map_iff.
  intros [r [Hx Hin]]. destruct (id_is j r); subst; eauto.
Qed.

End KeyFacts.

Lemma preserves_ret {A : Type} (a : A) : preserves (ret a).
Proof. intros w Hw. exact Hw. Qed.

Lemma preserves_bind {A B : Type} (m : M A) (k : A -> M B) :
  preserves m -> (forall a, preserves (k a)) -> preserves (bind m k).
Proof.
  intros Hm Hk w Hw. unfold bind. specialize (Hm w Hw).
  destruct (m w) as [[a | e] w1]; cbn [snd] in *.
  - apply Hk. exact Hm.
  - exact Hm.
Qed.

Lemma preserves_query {A : Type} (q : Store -> A) : preserves (query q).
Proof. intros w Hw. exact Hw. Qed.

Lemma preserves_lift {A : Type} (r : result A) : preserves (lift r).
Proof. intros w Hw. exact Hw. Qed.

Lemma preserves_flash (message category : string) :
  preserves (flash message category).
Proof. intros w Hw. exact Hw. Qed.

Lemma preserves_render (template : string) (ctx : context) :
  preserves (render_template template ctx).
Proof. intros w Hw. exact Hw. Qed.

Lemma preserves_execute (stmt : Store -> result Store) :
  keeps_keys stmt -> preserves (execute stmt).
Proof.
  intros Hs w Hw. unfold execute.
  destruct (stmt (db w)) as [s' | e] eqn:E; cbn [snd db].
  - exact (Hs _ _ Hw E).
  - exact Hw.
Qed.

Lemma preserves_admin_required (func : M response) :
  preserves func -> preserves (admin_required func).
Proof.
  intros Hf w Hw. unfold admin_required.
  destruct (session_user_id (session w)); [apply Hf; exact Hw | exact Hw].
Qed.

Lemma keeps_update_car_status (status : string) (i : option Z) :
  keeps_keys (fun s => Ok (update_car_status s status i)).
Proof.
  intros s s' [Hb Hv] [= <-]. unfold update_car_status, with_cars.
  split; cbn [bookings services cars customers]; intros x Hx.
  - rewrite has_id_update by reflexivity. exact (Hb x Hx).
  - rewrite has_id_update by reflexivity. exact (Hv x Hx).
Qed.

Lemma keeps_insert_car name brand model year price status description :
  keeps_keys (fun s =>
    insert_car s name brand model year price status description).
Proof.
  intros s s' [Hb Hv]. unfold insert_car.
  destruct name as [n|]; [| discriminate]. intros [= <-].
  split; cbn [bookings services cars customers with_cars]; intros x Hx.
  - destruct (Hb x Hx) as [Hc Hcu]. split; [| exact Hcu].
    apply has_id_insert. exact Hc.
  - apply has_id_insert. exact (Hv x Hx).
Qed.

Lemma keeps_update_car id name brand model year price status description :
  keeps_keys (fun s =>
    update_car s id name brand model year price status description).
Proof.
  intros s s' [Hb Hv]. unfold update_car.
  destruct (has_id (cars s) (Some id)); [| intros [= <-]; split; assumption].
  destruct name as [n|]; [| discriminate]. intros [= <-].
  split; cbn [bookings services cars customers with_cars]; intros x Hx.
  - rewrite has_id_update by reflexivity. exact (Hb x Hx).
  - rewrite has_id_update by reflexivity. exact (Hv x Hx).
Qed.

Lemma keeps_insert_customer name email phone license_no address :
  keeps_keys (fun s => insert_customer s name email phone license_no address).
Proof.
  intros s s' [Hb Hv]. unfold insert_customer.
  destruct name as [n|]; [| discriminate]. intros [= <-].
  split; cbn [bookings services cars customers with_customers]; intros x Hx.
  - destruct (Hb x Hx) as [Hc Hcu]. split; [exact Hc |].
    apply has_id_insert. exact Hcu.
  - exact (Hv x Hx).
Qed.

Lemma keeps_update_customer id name email phone license_no address :
  keeps_keys (fun s =>
    update_customer s id name email phone license_no address).
Proof.
  intros s s' [Hb Hv]. unfold update_customer.
  destruct (has_id (customers s) (Some id));
    [| intros [= <-]; split; assumption].
  destruct name as [n|]; [| discriminate]. intros [= <-].
  split; cbn [bookings services cars customers with_customers]; intros x Hx.
  - destruct (Hb x Hx) as [Hc Hcu]. split; [exact Hc |].
    rewrite has_id_update by reflexivity. exact Hcu.
  - exact (Hv x Hx).
Qed.

Lemma keeps_delete_car_row (id : Z) :
  keeps_keys (fun s => Ok (delete_car_row s id)).
Proof.
  intros s s' Hs [= <-].
  exact (proj2 (proj2 (proj2 (proj2 (proj2
    (delete_car_row_rows s id Hs)))))).
Qed.

Lemma keeps_delete_customer_row (id : Z) :
  keeps_keys (fun s => Ok (delete_customer_row s id)).
Proof.
  intros s s' Hs [= <-].
  exact (proj2 (proj2 (proj2 (proj2 (proj2
    (delete_customer_row_rows s id Hs)))))).
Qed.

Lemma booking_values_keys (s : Store) car customer sd ed total status
    (mk : Z -> Booking) (i : Z) :
  booking_values s car customer sd ed total status = Some mk ->
  has_id (cars s) (Some (booking_car_id (mk i))) = true /\
  has_id (customers s) (Some (booking_customer_id (mk i))) = true.
Proof.
  unfold booking_values.
  destruct car as [c|], customer as [cu|], sd as [a|], ed as [b|];
    try discriminate.
  destruct (has_id (cars s) (Some c)) eqn:Ec; [| discriminate].
  destruct (has_id (customers s) (Some cu)) eqn:Ecu; [| discriminate].
  intros [= <-]. cbn. auto.
Qed.

Lemma keeps_insert_booking car customer sd ed total status :
  keeps_keys (fun s => insert_booking s car customer sd ed total status).
Proof.
  intros s s' [Hb Hv]. unfold insert_booking.
  destruct (booking_values _ _ _ _ _ _ _) as [mk|] eqn:E; [| discriminate].
  intros [= <-].
  split; cbn [bookings services cars customers with_bookings]; [| exact Hv].
  intros x Hx. unfold insert in Hx. cbn [rows] in Hx.
  apply in_app_or in Hx. destruct Hx as [Hx | [<- | []]].
  - exact (Hb x Hx).
  - exact (booking_values_keys _ _ _ _ _ _ _ _ _ E).
Qed.

Lemma keeps_update_booking id car customer sd ed total status :
  keeps_keys (fun s => update_booking s id car customer sd ed total status).
Proof.
  intros s s' [Hb Hv]. unfold update_booking.
  destruct (has_id (bookings s) (Some id));
    [| intros [= <-]; split; assumption].
  destruct (booking_values _ _ _ _ _ _ _) as [mk|] eqn:E; [| discriminate].
  intros [= <-].
  split; cbn [bookings services cars customers with_bookings]; [| exact Hv].
  intros x Hx. apply in_update in Hx. destruct Hx as [Hx | [r [_ ->]]].
  - exact (Hb x Hx).
  - exact (booking_values_keys _ _ _ _ _ _ _ _ _ E).
Qed.

Lemma keeps_delete_booking_row (id : Z) :
  keeps_keys (fun s => Ok (delete_booking_row s id)).
Proof.
  intros s s' [Hb Hv] [= <-]. unfold delete_booking_row.
  split; cbn [bookings services cars customers with_bookings]; [| exact Hv].
  intros x Hx. apply in_delete in Hx. exact (Hb x (proj1 Hx)).
Qed.

Lemma service_values_keys (s : Store) car date type cost remarks
    (mk : Z -> Service) (i : Z) :
  service_values s car date type cost remarks = Some mk ->
  has_id (cars s) (Some (service_car_id (mk i))) = true.
Proof.
  unfold service_values. destruct car as [c|]; [| discriminate].
  destruct (has_id (cars s) (Some c)) eqn:Ec; [| discriminate].
  intros [= <-]. exact Ec.
Qed.

Lemma keeps_insert_service car date type cost remarks :
  keeps_keys (fun s => insert_service s car date type cost remarks).
Proof.
  intros s s' [Hb Hv]. unfold insert_service.
  destruct (service_values _ _ _ _ _ _) as [mk|] eqn:E; [| discriminate].
  intros [= <-].
  split; cbn [bookings services cars customers with_services]; [exact Hb |].
  intros x Hx. unfold insert in Hx. cbn [rows] in Hx.
  apply in_app_or in Hx. destruct Hx as [Hx | [<- | []]].
  - exact (Hv x Hx).
  - exact (service_values_keys _ _ _ _ _ _ _ _ E).
Qed.

Lemma keeps_update_service id car date type cost remarks :
  keeps_keys (fun s => update_service s id car date type cost remarks).
Proof.
  intros s s' [Hb Hv]. unfold update_service.
  destruct (has_id (services s) (Some id));
    [| intros [= <-]; split; assumption].
  destruct (service_values _ _ _ _ _ _) as [mk|] eqn:E; [| discriminate].
  intros [= <-].
  split; cbn [bookings services cars customers with_services]; [exact Hb |].
  intros x Hx. apply in_update in Hx. destruct Hx as [Hx | [r [_ ->]]].
  - exact (Hv x Hx).
  - exact (service_values_keys _ _ _ _ _ _ _ _ E).
Qed.

Lemma keeps_delete_service_row (id : Z) :
  keeps_keys (fun s => Ok (delete_service_row s id)).
Proof.
  intros s s' [Hb Hv] [= <-]. unfold delete_service_row.
  split; cbn [bookings services cars customers with_services]; [exact Hb |].
  intros x Hx. apply in_delete in Hx. exact (Hv x (proj1 Hx)).
Qed.

Create HintDb keys.
#[export] Hint Resolve preserves_ret preserves_query preserves_lift
  preserves_flash preserves_render preserves_execute preserves_admin_required
  keeps_update_car_status keeps_insert_car keeps_update_car
  keeps_delete_car_row keeps_insert_customer keeps_update_customer
  keeps_delete_customer_row keeps_insert_booking keeps_update_booking
  keeps_delete_booking_row keeps_insert_service keeps_update_service
  keeps_delete_service_row : keys.

(** Closes [preserves h] for a handler [h] built from the statements
    above. *)
Ltac keys_step :=
  match goal with
  | |- preserves (bind _ _) => apply preserves_bind; [| intros ?]
  | |- preserves (match ?x with _ => _ end) => destruct x
  | |- preserves (if ?b then _ else _) => destruct b
  | |- preserves _ => solve [auto with keys]
  end.

(** Every handler that writes keeps the foreign keys, whatever the request
    and whether it returns or raises. *)
Theorem handlers_keep_keys :
  (forall req, preserves (add_car req)) /\
  (forall id req, preserves (edit_car id req)) /\
  (forall id, preserves (delete_car id)) /\
  (forall req, preserves (add_customer req)) /\
  (forall id req, preserves (edit_customer id req)) /\
  (forall id, preserves (delete_customer id)) /\
  (forall req, preserves (add_booking req)) /\
  (forall id req, preserves (edit_booking id req)) /\
  (forall id, preserves (delete_booking id)) /\
  (forall req, preserves (add_service req)) /\
  (forall id req, preserves (edit_service id req)) /\
  (forall id, preserves (delete_service id)).
Proof.
  repeat apply conj; intros;
    unfold dashboard, view_cars, view_customers, view_bookings,
           view_services, add_car, edit_car, delete_car, add_customer,
           edit_customer, delete_customer, add_booking, edit_booking,
           delete_booking, add_service, edit_service, delete_service;
    apply preserves_admin_required; repeat keys_step.
Qed.

(** * Further properties of the handlers *)

(** ** Invariants, through the monad *)

Section Maintains.
Variable I : Store -> Prop.

Lemma maintains_ret {A : Type} (a : A) : maintains I (ret a).
Proof. intros w Hw. exact Hw. Qed.

Lemma maintains_bind {A B : Type} (m : M A) (k : A -> M B) :
  maintains I m -> (forall a, maintains I (k a)) -> maintains I (bind m k).
Proof.
  intros Hm Hk w Hw. unfold bind. specialize (Hm w Hw).
  destruct (m w) as [[a | e] w1]; cbn [snd] in *.
  - apply Hk. exact Hm.
  - exact Hm.
Qed.

Lemma maintains_query {A : Type} (q : Store -> A) : maintains I (query q).
Proof. intros w Hw. exact Hw. Qed.

Lemma maintains_lift {A : Type} (r : result A) : maintains I (lift r).
Proof. intros w Hw. exact Hw. Qed.

Lemma maintains_flash (message category : string) :
  maintains I (flash message category).
Proof. intros w Hw. exact Hw. Qed.

Lemma maintains_render (template : string) (ctx : context) :
  maintains I (render_template template ctx).
Proof. intros w Hw. exact Hw. Qed.

Lemma maintains_execute (stmt : Store -> result Store) :
  statement_keeps I stmt -> maintains I (execute stmt).
Proof.
  intros Hs w Hw. unfold execute.
  destruct (stmt (db w)) as [s' | e] eqn:E; cbn [snd db].
  - exact (Hs _ _ Hw E).
  - exact Hw.
Qed.

Lemma maintains_admin_required (func : M response) :
  maintains I func -> maintains I (admin_required func).
Proof.
  intros Hf w Hw. unfold admin_required.
  destruct (session_user_id (session w)); [apply Hf; exact Hw | exact Hw].
Qed.

End Maintains.

(** ** Primary keys stay unique and below the counter *)

Section KeyedFacts.
Context {A : Type} `{Row A}.

Lemma keyed_insert (t : table A) (mk : Z -> A) :
  (forall i, pk (mk i) = i) -> keyed t -> keyed (insert t mk).
Proof.
  intros Hmk [Hnd Hlt]. unfold keyed, insert. cbn [rows auto_increment].
  split.
  - rewrite map_app. cbn [map]. rewrite Hmk.
    apply NoDup_app; [exact Hnd | repeat constructor; intros [] | ].
    intros x Hx [<- | []]. apply in_map_iff in Hx.
    destruct Hx as [r [Hr Hin]].
    rewrite Forall_forall in Hlt. specialize (Hlt r Hin). lia.
  - apply Forall_app. split.
    + eapply Forall_impl; [| exact Hlt]. cbn. intros r Hr. lia.
    + repeat constructor. rewrite Hmk. lia.
Qed.

Lemma map_pk_update (t : table A) (i : option Z) (f : A -> A) :
  (forall r, pk (f r) = pk r) ->
  map pk (rows (update_by_id t i f)) = map pk (rows t).
Proof.
  intros Hpk. unfold update_by_id. cbn [rows]. rewrite map_map.
  apply map_ext. intros r. destruct (id_is i r); [apply Hpk | reflexivity].
Qed.

Lemma keyed_update (t : table A) (i : option Z) (f : A -> A) :
  (forall r, pk (f r) = pk r) -> keyed t -> keyed (update_by_id t i f).
Proof.
  intros Hpk [Hnd Hlt]. unfold keyed. split.
  - rewrite map_pk_update by exact Hpk. exact Hnd.
  - unfold update_by_id. cbn [rows auto_increment].
    apply Forall_map. eapply Forall_impl; [| exact Hlt]. cbn.
    intros r Hr. destruct (id_is i r); [rewrite Hpk |]; exact Hr.
Qed.

Lemma keyed_filter (t : table A) (p : A -> bool) :
  keyed t -> keyed (mk_table (filter p (rows t)) (auto_increment t)).
Proof.
  intros [Hnd Hlt]. unfold keyed. cbn [rows auto_increment]. split.
  - clear Hlt. induction (rows t) as [|r l IH]; cbn; [constructor |].
    inversion Hnd as [| x l' Hnotin Hnd']; subst.
    destruct (p r); cbn; [| exact (IH Hnd')].
    constructor; [| exact (IH Hnd')].
    intros Hin. apply Hnotin. apply in_map_iff in Hin.
    destruct Hin as [y [Hy Hyin]]. apply filter_In in Hyin.
    apply in_map_iff. exists y. tauto.
  - rewrite Forall_forall in *. intros r Hr. apply filter_In in Hr.
    apply Hlt. tauto.
Qed.

Lemma keyed_delete (t : table A) (i : option Z) :
  keyed t -> keyed (delete_by_id t i).
Proof. apply keyed_filter. Qed.

(** What was inserted is what a selection by the fresh id returns. *)
Lemma select_insert_new (t : table A) (mk : Z -> A) :
  (forall i, pk (mk i) = i) -> keyed t ->
  select_by_id (insert t mk) (Some (auto_increment t))
  = Some (mk (auto_increment t)).
Proof.
  intros Hmk [_ Hlt]. unfold select_by_id, insert. cbn [rows].
  induction (rows t) as [|r l IH]; cbn.
  - rewrite Hmk, Z.eqb_refl. reflexivity.
  - inversion Hlt as [| x l' Hr Hl]; subst.
    destruct (Z.eqb_spec (pk r) (auto_increment t)); [lia |].
    exact (IH Hl).
Qed.

Lemma select_insert_old (t : table A) (mk : Z -> A) (j : Z) :
  (forall i, pk (mk i) = i) -> j <> auto_increment t ->
  select_by_id (insert t mk) (Some j) = select_by_id t (Some j).
Proof.
  intros Hmk Hj. unfold select_by_id, insert. cbn [rows].
  induction (rows t) as [|r l IH]; cbn.
  - rewrite Hmk. destruct (Z.eqb_spec (auto_increment t) j); [congruence |].
    reflexivity.
  - destruct (pk r =? j); [reflexivity | exact IH].
Qed.

(** Deleting the fresh id of an insertion gives the rows back. *)
Lemma delete_insert_new (t : table A) (mk : Z -> A) :
  (forall i, pk (mk i) = i) -> keyed t ->
  rows (delete_by_id (insert t mk) (Some (auto_increment t))) = rows t.
Proof.
  intros Hmk [_ Hlt]. unfold delete_by_id, insert. cbn [rows].
  rewrite filter_app. cbn [filter id_is]. rewrite Hmk, Z.eqb_refl.
  cbn [negb]. rewrite app_nil_r.
  induction (rows t) as [|r l IH]; cbn; [reflexivity |].
  inversion Hlt as [| x l' Hr Hl]; subst.
  destruct (Z.eqb_spec (pk r) (auto_increment t)); [lia |].
  cbn [negb]. rewrite (IH Hl). reflexivity.
Qed.

End KeyedFacts.

Ltac split_keys :=
  match goal with
  | H : pk_integrity _ |- pk_integrity _ =>
      destruct H as (Hu & Hc & Hcu & Hb & Hv);
      unfold pk_integrity;
      cbn [users cars customers bookings services
           with_users with_cars with_customers with_bookings with_services];
      refine (conj _ (conj _ (conj _ (conj _ _)))); try assumption
  end.

Lemma pk_update_car_status (status : string) (i : option Z) :
  statement_keeps pk_integrity (fun s => Ok (update_car_status s status i)).
Proof.
  intros s s' Hs [= <-]. unfold update_car_status. split_keys.
  apply keyed_update; [reflexivity | assumption].
Qed.

Lemma pk_insert_car name brand model year price status description :
  statement_keeps pk_integrity (fun s =>
    insert_car s name brand model year price status description).
Proof.
  intros s s' Hs. unfold insert_car.
  destruct name as [n|]; [| discriminate]. intros [= <-]. split_keys.
  apply keyed_insert; [reflexivity | assumption].
Qed.

Lemma pk_update_car id name brand model year price status description :
  statement_keeps pk_integrity (fun s =>
    update_car s id name brand model year price status description).
Proof.
  intros s s' Hs. unfold update_car.
  destruct (has_id (cars s) (Some id)); [| intros [= <-]; exact Hs].
  destruct name as [n|]; [| discriminate]. intros [= <-]. split_keys.
  apply keyed_update; [reflexivity | assumption].
Qed.

Lemma pk_delete_car_row (id : Z) :
  statement_keeps pk_integrity (fun s => Ok (delete_car_row s id)).
Proof.
  intros s s' Hs [= <-]. unfold delete_car_row.
  destruct (has_id (cars s) (Some id)); [| exact Hs]. split_keys.
  - apply keyed_delete. assumption.
  - apply (keyed_filter (bookings s)). assumption.
  - apply (keyed_filter (services s)). assumption.
Qed.

Lemma pk_insert_customer name email phone license_no address :
  statement_keeps pk_integrity (fun s =>
    insert_customer s name email phone license_no address).
Proof.
  intros s s' Hs. unfold insert_customer.
  destruct name as [n|]; [| discriminate]. intros [= <-]. split_keys.
  apply keyed_insert; [reflexivity | assumption].
Qed.

Lemma pk_update_customer id name email phone license_no address :
  statement_keeps pk_integrity (fun s =>
    update_customer s id name email phone license_no address).
Proof.
  intros s s' Hs. unfold update_customer.
  destruct (has_id (customers s) (Some id)); [| intros [= <-]; exact Hs].
  destruct name as [n|]; [| discriminate]. intros [= <-]. split_keys.
  apply keyed_update; [reflexivity | assumption].
Qed.

Lemma pk_delete_customer_row (id : Z) :
  statement_keeps pk_integrity (fun s => Ok (delete_customer_row s id)).
Proof.
  intros s s' Hs [= <-]. unfold delete_customer_row.
  destruct (has_id (customers s) (Some id)); [| exact Hs]. split_keys.
  - apply keyed_delete. assumption.
  - apply (keyed_filter (bookings s)). assumption.
Qed.

Lemma booking_values_id (s : Store) car customer sd ed total status
    (mk : Z -> Booking) :
  booking_values s car customer sd ed total status = Some mk ->
  forall i, booking_id (mk i) = i.
Proof.
  unfold booking_values.
  destruct car as [c|], customer as [cu|], sd as [a|], ed as [b|];
    try discriminate.
  destruct (has_id (cars s) (Some c) && has_id (customers s) (Some cu));
    [| discriminate].
  intros [= <-] i. reflexivity.
Qed.

Lemma service_values_id (s : Store) car date type cost remarks
    (mk : Z -> Service) :
  service_values s car date type cost remarks = Some mk ->
  forall i, service_id (mk i) = i.
Proof.
  unfold service_values. destruct car as [c|]; [| discriminate].
  destruct (has_id (cars s) (Some c)); [| discriminate].
  intros [= <-] i. reflexivity.
Qed.

Lemma pk_insert_booking car customer sd ed total status :
  statement_keeps pk_integrity (fun s =>
    insert_booking s car customer sd ed total status).
Proof.
  intros s s' Hs. unfold insert_booking.
  destruct (booking_values _ _ _ _ _ _ _) as [mk|] eqn:E; [| discriminate].
  intros [= <-]. split_keys.
  apply keyed_insert; [exact (booking_values_id _ _ _ _ _ _ _ _ E) | assumption].
Qed.

Lemma pk_update_booking id car customer sd ed total status :
  statement_keeps pk_integrity (fun s =>
    update_booking s id car customer sd ed total status).
Proof.
  intros s s' Hs. unfold update_booking.
  destruct (has_id (bookings s) (Some id)); [| intros [= <-]; exact Hs].
  destruct (booking_values _ _ _ _ _ _ _) as [mk|] eqn:E; [| discriminate].
  intros [= <-]. split_keys.
  apply keyed_update; [| assumption].
  intros r. exact (booking_values_id _ _ _ _ _ _ _ _ E (booking_id r)).
Qed.

Lemma pk_delete_booking_row (id : Z) :
  statement_keeps pk_integrity (fun s => Ok (delete_booking_row s id)).
Proof.
  intros s s' Hs [= <-]. unfold delete_booking_row. split_keys.
  apply keyed_delete. assumption.
Qed.

Lemma pk_insert_service car date type cost remarks :
  statement_keeps pk_integrity (fun s =>
    insert_service s car date type cost remarks).
Proof.
  intros s s' Hs. unfold insert_service.
  destruct (service_values _ _ _ _ _ _) as [mk|] eqn:E; [| discriminate].
  intros [= <-]. split_keys.
  apply keyed_insert; [exact (service_values_id _ _ _ _ _ _ _ E) | assumption].
Qed.

Lemma pk_update_service id car date type cost remarks :
  statement_keeps pk_integrity (fun s =>
    update_service s id car date type cost remarks).
Proof.
  intros s s' Hs. unfold update_service.
  destruct (has_id (services s) (Some id)); [| intros [= <-]; exact Hs].
  destruct (service_values _ _ _ _ _ _) as [mk|] eqn:E; [| discriminate].
  intros [= <-]. split_keys.
  apply keyed_update; [| assumption].
  intros r. exact (service_values_id _ _ _ _ _ _ _ E (service_id r)).
Qed.

Lemma pk_delete_service_row (id : Z) :
  statement_keeps pk_integrity (fun s => Ok (delete_service_row s id)).
Proof.
  intros s s' Hs [= <-]. unfold delete_service_row. split_keys.
  apply keyed_delete. assumption.
Qed.

Create HintDb primary.
#[export] Hint Resolve maintains_ret maintains_query maintains_lift
  maintains_flash maintains_render maintains_execute maintains_admin_required
  pk_update_car_status pk_insert_car pk_update_car pk_delete_car_row
  pk_insert_customer pk_update_customer pk_delete_customer_row
  pk_insert_booking pk_update_booking pk_delete_booking_row
  pk_insert_service pk_update_service pk_delete_service_row : primary.

Ltac primary_step :=
  match goal with
  | |- maintains _ (bind _ _) => apply maintains_bind; [| intros ?]
  | |- maintains _ (match ?x with _ => _ end) => destruct x
  | |- maintains _ (if ?b then _ else _) => destruct b
  | |- maintains _ _ => solve [auto with primary]
  end.

(** X1.  Every admin route keeps the primary keys: whatever the request,
    and whether the handler returns or raises, the ids of each table stay
    pairwise different and below the table's AUTO_INCREMENT counter. *)
Theorem routes_keep_primary_keys (r : route) (w : World) :
  pk_integrity (db w) -> pk_integrity (db (snd (dispatch r w))).
Proof.
  revert w. change (maintains pk_integrity (dispatch r)).
  destruct r; cbn [dispatch];
    unfold dashboard, view_cars, view_customers, view_bookings,
           view_services, add_car, edit_car, delete_car, add_customer,
           edit_customer, delete_customer, add_booking, edit_booking,
           delete_booking, add_service, edit_service, delete_service;
    apply maintains_admin_required; repeat primary_step.
Qed.

(** X2.  Every admin route keeps the foreign keys: after any request, a
    booking still references a car and a customer of the store and a
    service a car of the store. *)
Theorem routes_keep_foreign_keys (r : route) (w : World) :
  fk_integrity (db w) -> fk_integrity (db (snd (dispatch r w))).
Proof.
  revert w. change (preserves (dispatch r)).
  destruct r; cbn [dispatch];
    unfold dashboard, view_cars, view_customers, view_bookings,
           view_services, add_car, edit_car, delete_car, add_customer,
           edit_customer, delete_customer, add_booking, edit_booking,
           delete_booking, add_service, edit_service, delete_service;
    apply preserves_admin_required; repeat keys_step.
Qed.

Lemma sample_pk_integrity : pk_integrity (db Sample.world).
Proof.
  unfold pk_integrity, keyed.
  cbn [db Sample.world Sample.store users cars customers bookings services
       rows auto_increment map].
  repeat match goal with
         | |- _ /\ _ => split
         | |- NoDup _ => constructor
         | |- Forall _ _ => constructor
         | |- ~ In _ _ => cbn; intuition lia
         | |- _ < _ => cbn; lia
         end.
Defined.

Lemma routes_keep_primary_keys_witness :
  pk_integrity
    (db (snd (dispatch (bookings_add (POST Sample.booking_form)) Sample.world))).
Proof.
  exact (routes_keep_primary_keys (bookings_add (POST Sample.booking_form))
           Sample.world sample_pk_integrity).
Defined.

Lemma routes_keep_foreign_keys_witness :
  fk_integrity (db (snd (dispatch (cars_delete 7) Sample.world))).
Proof.
  exact (routes_keep_foreign_keys (cars_delete 7) Sample.world
           sample_fk_integrity).
Defined.

(** ** The login gate *)

Ltac unfold_handlers :=
  unfold dashboard, view_cars, view_customers, view_bookings, view_services,
         add_car, edit_car, delete_car, add_customer, edit_customer,
         delete_customer, add_booking, edit_booking, delete_booking,
         add_service, edit_service, delete_service.

(** X3.  Without [user_id] in the session every admin route answers with
    the warning "Please login first." and the redirect to the login page,
    and neither reads the form nor touches the store. *)
Theorem routes_require_login (r : route) (w : World) :
  session_user_id (session w) = None ->
  dispatch r w
  = (Ok (redirect "login"),
     mk_world (db w) (flash_session w "Please login first." "warning")).
Proof.
  intros Hanon.
  destruct r; cbn [dispatch]; unfold_handlers;
    rewrite admin_required_anonymous by exact Hanon;
    unfold flash_session; rewrite Hanon; reflexivity.
Qed.

Lemma routes_require_login_witness :
  dispatch (cars_delete 7) Sample.anonymous
  = (Ok (redirect "login"),
     mk_world Sample.store
       (mk_session None None [("Please login first.", "warning")])).
Proof.
  exact (routes_require_login (cars_delete 7) Sample.anonymous eq_refl).
Defined.

(** ** Requests that are refused *)

(** Case analysis on whatever the handler branches on next. *)
Ltac branch :=
  match goal with
  | |- context [match ?x with _ => _ end] =>
      lazymatch x with
      | context [match _ with _ => _ end] => fail
      | _ => destruct x eqn:?
      end
  end.

(** X4.  A request that raises leaves no trace: when the handler of an
    admin route raises, the store and the session are as they were before
    the request (the first statement that can be refused comes before any
    other write and any notice). *)
Theorem routes_raise_without_effect (r : route) (w : World) (e : exn) :
  fst (dispatch r w) = Raise e -> snd (dispatch r w) = w.
Proof.
  destruct w as [s ss].
  destruct r; cbn [dispatch]; unfold_handlers; unfold admin_required;
    cbn [session session_user_id];
    (destruct (session_user_id ss); [| run_handler; discriminate]);
    try destruct req; run_handler;
    unfold insert_car, update_car, insert_customer, update_customer,
           insert_booking, update_booking, insert_service, update_service;
    repeat (branch; run_handler);
    try discriminate; intros _; reflexivity.
Qed.

Lemma routes_raise_without_effect_witness :
  snd (dispatch (bookings_add
                   (POST (BookingForm.mk (Some 99) (Some 2)
                            (Some "2024-05-01") (Some "2024-05-03") None)))
                Sample.world)
  = Sample.world.
Proof.
  exact (routes_raise_without_effect
           (bookings_add
              (POST (BookingForm.mk (Some 99) (Some 2)
                       (Some "2024-05-01") (Some "2024-05-03") None)))
           Sample.world IntegrityError eq_refl).
Defined.

(** X5.  No admin route touches the login: [user_id] and [username] of the
    session are after the request what they were before.  A request that is
    answered with a redirect adds exactly one notice to the pending ones; one
    that is answered with a page shows all pending notices on it and leaves
    none pending; one that raises leaves them as they were. *)
Theorem routes_keep_session (r : route) (w : World) :
  let w' := snd (dispatch r w) in
  session_user_id (session w') = session_user_id (session w) /\
  session_username (session w') = session_username (session w) /\
  match fst (dispatch r w) with
  | Ok (redirect _) =>
      exists message category,
        flashes (session w') = flashes (session w) ++ [(message, category)]
  | Ok (page _ _ shown) =>
      shown = flashes (session w) /\ flashes (session w') = []
  | Raise _ => flashes (session w') = flashes (session w)
  end.
Proof.
  cbv zeta. destruct w as [s ss].
  destruct r; cbn [dispatch]; unfold_handlers; unfold admin_required;
    cbn [session session_user_id];
    (destruct (session_user_id ss) eqn:Elog;
     [| run_handler; rewrite Elog; eauto 6]);
    try destruct req; run_handler;
    unfold insert_car, update_car, insert_customer, update_customer,
           insert_booking, update_booking, insert_service, update_service;
    repeat (branch; run_handler);
    rewrite ?Elog; eauto 6.
Qed.

Lemma routes_keep_session_witness :
  session_user_id
    (session (snd (dispatch (bookings_delete 1) Sample.world))) = Some 1.
Proof.
  exact (proj1 (routes_keep_session (bookings_delete 1) Sample.world)).
Defined.

(** ** Cars: what is added is what is shown *)

Lemma add_car_run (w : World) (f : CarForm.t) (n : string) :
  logged_in w ->
  CarForm.name f = Some n ->
  add_car (POST f) w
  = (Ok (redirect "view_cars"),
     mk_world
       (with_cars (db w) (insert (cars (db w)) (fun i =>
          mk_car i n (CarForm.brand f) (CarForm.model f) (CarForm.year f)
                 (or_zero (CarForm.price f))
                 (or_text (CarForm.status f) "available")
                 (CarForm.description f))))
       (flash_session w "Car added." "success")).
Proof.
  intros Hin Hn. unfold add_car.
  rewrite admin_required_logged_in by assumption.
  run_handler. unfold insert_car. rewrite Hn. reflexivity.
Qed.

(** X6.  A car added with a name gets the next id of the cars table, and
    the edit page of that id then shows the submitted values, with the
    price 0 when none was submitted and the status [available] when none or
    an empty one was.  The page also shows the notices that were pending,
    "Car added." last, and leaves none pending; the cars that were there
    are not changed. *)
Theorem add_car_then_edit_page (w : World) (f : CarForm.t) (n : string) :
  logged_in w ->
  keyed (cars (db w)) ->
  CarForm.name f = Some n ->
  let id := auto_increment (cars (db w)) in
  let w1 := snd (add_car (POST f) w) in
  let price := match CarForm.price f with Some p => p | None => 0 end in
  let status := match CarForm.status f with
                | Some "" | None => "available"
                | Some s => s
                end in
  fst (add_car (POST f) w) = Ok (redirect "view_cars") /\
  edit_car id GET w1
  = (Ok (page "edit_car.html"
           (car_context (mk_car id n (CarForm.brand f) (CarForm.model f)
                                (CarForm.year f) price status
                                (CarForm.description f)))
           (flashes (session w) ++ [("Car added.", "success")])),
     mk_world (db w1)
       (mk_session (session_user_id (session w))
                   (session_username (session w)) [])) /\
  (forall j, j <> id ->
     select_by_id (cars (db w1)) (Some j) = select_by_id (cars (db w)) (Some j)).
Proof.
  intros Hin Hk Hn id w1 price status. subst w1.
  rewrite (add_car_run w f n Hin Hn). cbn [fst snd].
  split; [reflexivity |]. split.
  - unfold edit_car. rewrite admin_required_logged_in by exact Hin.
    run_handler. cbn [cars with_cars].
    rewrite (select_insert_new (cars (db w))) by (reflexivity || exact Hk).
    fold id. run_handler.
    replace (or_zero (CarForm.price f)) with price by reflexivity.
    replace (or_text (CarForm.status f) "available") with status.
    + reflexivity.
    + unfold status, or_text. destruct (CarForm.status f) as [[|c s]|];
        reflexivity.
  - intros j Hj. cbn [db cars with_cars].
    apply select_insert_old; [reflexivity | exact Hj].
Qed.

Lemma add_car_then_edit_page_witness :
  fst (edit_car 9 GET
         (snd (add_car (POST (CarForm.mk (Some "Golf") None None None None
                                (Some "") None))
                       Sample.world)))
  = Ok (page "edit_car.html"
          (car_context (mk_car 9 "Golf" None None None 0 "available" None))
          [("Car added.", "success")]).
Proof.
  exact (f_equal fst (proj1 (proj2
    (add_car_then_edit_page Sample.world
       (CarForm.mk (Some "Golf") None None None None (Some "") None) "Golf"
       sample_logged_in (proj1 (proj2 sample_pk_integrity)) eq_refl)))).
Defined.

(** X7.  The one field that adding a car or a customer insists on is the
    name: without it the INSERT is refused ([IntegrityError]) and nothing is
    stored or flashed, while an empty name is stored as it is. *)
Theorem add_without_name (w : World) :
  logged_in w ->
  (forall f, CarForm.name f = None ->
             add_car (POST f) w = (Raise IntegrityError, w)) /\
  (forall f, CustomerForm.name f = None ->
             add_customer (POST f) w = (Raise IntegrityError, w)) /\
  (forall f, CarForm.name f = Some "" ->
     fst (add_car (POST f) w) = Ok (redirect "view_cars") /\
     exists c, In c (rows (cars (db (snd (add_car (POST f) w)))))
               /\ car_name c = "" /\ car_id c = auto_increment (cars (db w))) /\
  (forall f, CustomerForm.name f = Some "" ->
     fst (add_customer (POST f) w) = Ok (redirect "view_customers") /\
     exists c, In c (rows (customers (db (snd (add_customer (POST f) w)))))
               /\ customer_name c = ""
               /\ customer_id c = auto_increment (customers (db w))).
Proof.
  intros Hin. repeat apply conj; intros f Hn.
  - unfold add_car. rewrite admin_required_logged_in by exact Hin.
    run_handler. unfold insert_car. rewrite Hn. reflexivity.
  - unfold add_customer. rewrite admin_required_logged_in by exact Hin.
    run_handler. unfold insert_customer. rewrite Hn. reflexivity.
  - rewrite (add_car_run w f "" Hin Hn). cbn [fst snd db cars with_cars].
    split; [reflexivity |]. eexists. split.
    + unfold insert. cbn [rows]. apply in_or_app. right. left. reflexivity.
    + split; reflexivity.
  - unfold add_customer. rewrite admin_required_logged_in by exact Hin.
    run_handler. unfold insert_customer. rewrite Hn.
    cbn [fst snd db customers with_customers].
    split; [reflexivity |]. eexists. split.
    + unfold insert. cbn [rows]. apply in_or_app. right. left. reflexivity.
    + split; reflexivity.
Qed.

Lemma add_without_name_witness :
  add_car (POST (CarForm.mk None (Some "Honda") None None (Some 5000) None None))
          Sample.world
  = (Raise IntegrityError, Sample.world).
Proof.
  exact (proj1 (add_without_name Sample.world sample_logged_in)
           (CarForm.mk None (Some "Honda") None None (Some 5000) None None)
           eq_refl).
Defined.

(** X8.  Editing a car that exists replaces every column but the id by
    what the form carries, leaves every other car as it was, and writes to
    no other table: the bookings of the car keep the total cost they were
    stored with, also when the price changes. *)
Theorem edit_car_replaces (w : World) (id : Z) (f : CarForm.t) (n : string) :
  logged_in w ->
  has_id (cars (db w)) (Some id) = true ->
  CarForm.name f = Some n ->
  let w1 := snd (edit_car id (POST f) w) in
  fst (edit_car id (POST f) w) = Ok (redirect "view_cars") /\
  select_by_id (cars (db w1)) (Some id)
  = Some (mk_car id n (CarForm.brand f) (CarForm.model f) (CarForm.year f)
                 (or_zero (CarForm.price f))
                 (or_text (CarForm.status f) "available")
                 (CarForm.description f)) /\
  (forall j, j <> id ->
     select_by_id (cars (db w1)) (Some j) = select_by_id (cars (db w)) (Some j)) /\
  bookings (db w1) = bookings (db w) /\
  services (db w1) = services (db w) /\
  customers (db w1) = customers (db w) /\
  users (db w1) = users (db w).
Proof.
  intros Hin Hhas Hn w1. subst w1. unfold edit_car.
  rewrite admin_required_logged_in by exact Hin.
  run_handler. unfold update_car. rewrite Hhas, Hn.
  cbn [fst snd db cars bookings services customers users with_cars].
  split; [reflexivity |]. split; [| split; [| repeat split]].
  - rewrite select_update_same by reflexivity.
    apply has_id_select in Hhas. destruct Hhas as [c0 Hc0].
    rewrite Hc0. cbn [option_map].
    destruct (select_by_id_pk _ _ _ Hc0) as [Hpk _]. cbn in Hpk.
    rewrite Hpk. reflexivity.
  - intros j Hj. apply select_update_other; [reflexivity | congruence].
Qed.

Lemma edit_car_replaces_witness :
  bookings
    (db (snd (edit_car 7 (POST (CarForm.mk (Some "Civic") None None None
                                  (Some 9900) None None))
                       Sample.world)))
  = bookings (db Sample.world).
Proof.
  exact (proj1 (proj2 (proj2 (proj2
    (edit_car_replaces Sample.world 7
       (CarForm.mk (Some "Civic") None None None (Some 9900) None None)
       "Civic" sample_logged_in eq_refl eq_refl))))).
Defined.

(** ** Bookings: what an edit stores, and which cars it reaches *)

(** X9.  Editing a booking that exists stores the submitted car, customer,
    dates and status under the same id, with the total cost computed anew
    from the price of the submitted car and the submitted dates; the other
    bookings are not changed. *)
Theorem edit_booking_recomputes (w : World) (id : Z) (f : BookingForm.t)
    (c cu : Z) (car : Car) (s e : string) (sd ed : Datetime.date) :
  logged_in w ->
  has_id (bookings (db w)) (Some id) = true ->
  BookingForm.car_id f = Some c ->
  BookingForm.customer_id f = Some cu ->
  BookingForm.start_date f = Some s ->
  BookingForm.end_date f = Some e ->
  select_by_id (cars (db w)) (Some c) = Some car ->
  has_id (customers (db w)) (Some cu) = true ->
  Datetime.strptime_ymd s = Some sd ->
  Datetime.strptime_ymd e = Some ed ->
  let total :=
    PrimFloat.mul (hundredths_as_float (car_price_per_day car))
      (days_as_float (Z.max 1 (Datetime.days_between sd ed + 1))) in
  let w1 := snd (edit_booking id (POST f) w) in
  fst (edit_booking id (POST f) w) = Ok (redirect "view_bookings") /\
  select_by_id (bookings (db w1)) (Some id)
  = Some (mk_booking id c cu s e total (BookingForm.status f)) /\
  (forall j, j <> id ->
     select_by_id (bookings (db w1)) (Some j)
     = select_by_id (bookings (db w)) (Some j)).
Proof.
  intros Hin Hb Hc Hcu Hs He Hcar Hcust Hsd Hed total w1. subst w1.
  assert (Hhas : has_id (cars (db w)) (Some c) = true)
    by (apply has_id_select; eauto).
  unfold edit_booking. rewrite admin_required_logged_in by exact Hin.
  rewrite Hc, Hcu, Hs, He. run_handler. rewrite Hcar. unfold price_of.
  rewrite (calc_total_cost_run
             (PyFloat (float_of_decimal (car_price_per_day car))) _
             s e sd ed Hsd Hed eq_refl).
  rewrite update_booking_ok by assumption. rewrite Hb. fold total.
  apply has_id_select in Hb. destruct Hb as [b0 Hb0].
  destruct (select_by_id_pk _ _ _ Hb0) as [Hpk _]. cbn in Hpk.
  destruct (completed_or_cancelled (BookingForm.status f));
    run_handler;
    cbn [bookings update_car_status with_cars with_bookings];
    (split; [reflexivity |]); split;
    try (rewrite select_update_same by reflexivity;
         rewrite Hb0; cbn [option_map]; rewrite Hpk; reflexivity);
    intros j Hj; apply select_update_other; (reflexivity || congruence).
Qed.

Lemma edit_booking_recomputes_witness :
  select_by_id
    (bookings (db (snd (edit_booking 1 (POST Sample.booking_form) Sample.world))))
    (Some 1)
  = Some (mk_booking 1 8 2 "2024-05-01" "2024-05-03"
            361.5%float (Some "completed")).
Proof.
  exact (proj1 (proj2
    (edit_booking_recomputes Sample.world 1 Sample.booking_form 8 2
       Sample.car8 "2024-05-01" "2024-05-03"
       (Datetime.mk_date 2024 5 1) (Datetime.mk_date 2024 5 3)
       sample_logged_in eq_refl eq_refl eq_refl eq_refl eq_refl eq_refl
       eq_refl eq_refl eq_refl))).
Defined.

(** X10.  An edit of a booking reaches no car but the one the form names:
    every other car row is after the request what it was before.  So when
    the edit moves a booking to another car, the car it had keeps its
    status (a [rented] car stays [rented]). *)
Theorem edit_booking_other_cars (w : World) (id : Z)
    (req : request BookingForm.t) :
  let w1 := snd (edit_booking id req w) in
  (forall j,
     match req with
     | POST f => BookingForm.car_id f <> Some j
     | GET => True
     end ->
     select_by_id (cars (db w1)) (Some j) = select_by_id (cars (db w)) (Some j))
  /\
  (forall f b0,
     req = POST f ->
     select_by_id (bookings (db w)) (Some id) = Some b0 ->
     BookingForm.car_id f <> Some (booking_car_id b0) ->
     car_status_of (db w1) (booking_car_id b0)
     = car_status_of (db w) (booking_car_id b0)).
Proof.
  cbv zeta.
  assert (Hall : forall j,
     match req with
     | POST f => BookingForm.car_id f <> Some j
     | GET => True
     end ->
     select_by_id (cars (db (snd (edit_booking id req w)))) (Some j)
     = select_by_id (cars (db w)) (Some j)).
  { intros j Hj. destruct w as [st ss].
    unfold edit_booking, admin_required. cbn [session session_user_id].
    destruct (session_user_id ss); [| run_handler; reflexivity].
    destruct req as [| f]; run_handler.
    - destruct (select_by_id (bookings st) (Some id)); run_handler;
        reflexivity.
    - unfold update_booking.
      repeat (branch; run_handler);
        cbn [cars update_car_status with_cars with_bookings];
        try reflexivity;
        apply select_update_other; (reflexivity || exact Hj). }
  split; [exact Hall |].
  intros f b0 -> _ Hne. unfold car_status_of. rewrite Hall by exact Hne.
  reflexivity.
Qed.

Lemma edit_booking_other_cars_witness :
  car_status_of
    (db (snd (edit_booking 3
                (POST (BookingForm.mk (Some 7) (Some 1) (Some "2024-03-01")
                         (Some "2024-03-02") (Some "completed")))
                Sample.world))) 8
  = Some "rented".
Proof.
  exact (proj2
    (edit_booking_other_cars Sample.world 3
       (POST (BookingForm.mk (Some 7) (Some 1) (Some "2024-03-01")
                (Some "2024-03-02") (Some "completed"))))
    _ Sample.booking3 eq_refl eq_refl ltac:(discriminate)).
Defined.

(** ** Adding and then deleting *)

Lemma add_booking_run (w : World) (f : BookingForm.t) (c cu : Z)
    (car : Car) (s e : string) (sd ed : Datetime.date) :
  logged_in w ->
  BookingForm.car_id f = Some c ->
  BookingForm.customer_id f = Some cu ->
  BookingForm.start_date f = Some s ->
  BookingForm.end_date f = Some e ->
  select_by_id (cars (db w)) (Some c) = Some car ->
  has_id (customers (db w)) (Some cu) = true ->
  Datetime.strptime_ymd s = Some sd ->
  Datetime.strptime_ymd e = Some ed ->
  add_booking (POST f) w
  = (Ok (redirect "view_bookings"),
     mk_world
       (update_car_status
          (with_bookings (db w)
             (insert (bookings (db w)) (fun i =>
                mk_booking i c cu s e
                  (PrimFloat.mul (hundredths_as_float (car_price_per_day car))
                     (days_as_float
                        (Z.max 1 (Datetime.days_between sd ed + 1))))
                  (Some "active"))))
          "rented" (Some c))
       (flash_session w "Booking created." "success")).
Proof.
  intros Hin Hc Hcu Hs He Hcar Hcust Hsd Hed.
  assert (Hhas : has_id (cars (db w)) (Some c) = true)
    by (apply has_id_select; eauto).
  unfold add_booking. rewrite admin_required_logged_in by assumption.
  rewrite Hc, Hcu, Hs, He. run_handler. rewrite Hcar. unfold price_of.
  rewrite (calc_total_cost_run
             (PyFloat (float_of_decimal (car_price_per_day car))) _
             s e sd ed Hsd Hed eq_refl).
  unfold insert_booking, booking_values. rewrite Hhas, Hcust.
  reflexivity.
Qed.

(** X11.  Creating a booking and then deleting it gives the bookings table
    its rows back, but not the car its status: the car ends [available],
    whatever its status was before the booking ([maintenance] included). *)
Theorem add_then_delete_booking (w : World) (f : BookingForm.t) (c cu : Z)
    (car : Car) (s e : string) (sd ed : Datetime.date) :
  logged_in w ->
  keyed (bookings (db w)) ->
  BookingForm.car_id f = Some c ->
  BookingForm.customer_id f = Some cu ->
  BookingForm.start_date f = Some s ->
  BookingForm.end_date f = Some e ->
  select_by_id (cars (db w)) (Some c) = Some car ->
  has_id (customers (db w)) (Some cu) = true ->
  Datetime.strptime_ymd s = Some sd ->
  Datetime.strptime_ymd e = Some ed ->
  let w1 := snd (add_booking (POST f) w) in
  let w2 := snd (delete_booking (auto_increment (bookings (db w))) w1) in
  fst (delete_booking (auto_increment (bookings (db w))) w1)
  = Ok (redirect "view_bookings") /\
  rows (bookings (db w2)) = rows (bookings (db w)) /\
  auto_increment (bookings (db w2)) = auto_increment (bookings (db w)) + 1 /\
  car_status_of (db w2) c = Some "available".
Proof.
  intros Hin Hk Hc Hcu Hs He Hcar Hcust Hsd Hed w1 w2. subst w2 w1.
  assert (Hhas : has_id (cars (db w)) (Some c) = true)
    by (apply has_id_select; eauto).
  rewrite (add_booking_run w f c cu car s e sd ed) by assumption.
  cbn [snd]. unfold delete_booking.
  rewrite admin_required_logged_in by exact Hin.
  run_handler. cbn [bookings update_car_status with_cars with_bookings].
  rewrite (select_insert_new (bookings (db w))) by (reflexivity || exact Hk).
  run_handler. cbn [booking_car_id].
  unfold delete_booking_row.
  cbn [bookings cars update_car_status with_cars with_bookings].
  split; [reflexivity |]. split; [| split].
  - apply (delete_insert_new (bookings (db w))); [reflexivity | exact Hk].
  - reflexivity.
  - unfold car_status_of, update_car_status, with_cars, with_bookings.
    cbn [cars].
    rewrite select_update_same by reflexivity.
    rewrite select_update_same by reflexivity.
    rewrite Hcar. reflexivity.
Qed.

Lemma add_then_delete_booking_witness :
  car_status_of (db Sample.world) 7 = Some "maintenance" /\
  car_status_of
    (db (snd (delete_booking 4
                (snd (add_booking
                        (POST (BookingForm.mk (Some 7) (Some 1)
                                 (Some "2024-07-01") (Some "2024-07-02") None))
                        Sample.world))))) 7
  = Some "available".
Proof.
  split; [reflexivity |].
  exact (proj2 (proj2 (proj2
    (add_then_delete_booking Sample.world
       (BookingForm.mk (Some 7) (Some 1) (Some "2024-07-01")
          (Some "2024-07-02") None)
       7 1 Sample.car7 "2024-07-01" "2024-07-02"
       (Datetime.mk_date 2024 7 1) (Datetime.mk_date 2024 7 2)
       sample_logged_in (proj1 (proj2 (proj2 (proj2 sample_pk_integrity))))
       eq_refl eq_refl eq_refl eq_refl eq_refl eq_refl eq_refl eq_refl)))).
Defined.

(** X12.  Adding a service record and then deleting it gives the services
    table its rows back, and leaves the car in [maintenance]: nothing in
    the application sets it back. *)
Theorem add_then_delete_service (w : World) (f : ServiceForm.t) (c : Z) :
  logged_in w ->
  keyed (services (db w)) ->
  ServiceForm.car_id f = Some c ->
  has_id (cars (db w)) (Some c) = true ->
  let w1 := snd (add_service (POST f) w) in
  let w2 := snd (delete_service (auto_increment (services (db w))) w1) in
  fst (delete_service (auto_increment (services (db w))) w1)
  = Ok (redirect "view_services") /\
  rows (services (db w2)) = rows (services (db w)) /\
  car_status_of (db w2) c = Some "maintenance".
Proof.
  intros Hin Hk Hc Hcar w1 w2. subst w2 w1.
  unfold add_service. rewrite admin_required_logged_in by exact Hin.
  rewrite Hc. run_handler. unfold insert_service, service_values.
  rewrite Hcar. cbn [snd]. unfold delete_service.
  rewrite admin_required_logged_in by exact Hin.
  run_handler. unfold delete_service_row.
  cbn [services cars update_car_status with_cars with_services].
  split; [reflexivity |]. split.
  - apply (delete_insert_new (services (db w))); [reflexivity | exact Hk].
  - apply has_id_select in Hcar. destruct Hcar as [c0 Hc0].
    unfold car_status_of, update_car_status, with_cars, with_services.
    cbn [cars].
    rewrite select_update_same by reflexivity.
    rewrite Hc0. reflexivity.
Qed.

Lemma add_then_delete_service_witness :
  car_status_of
    (db (snd (delete_service 2
                (snd (add_service (POST Sample.service_form) Sample.world))))) 8
  = Some "maintenance".
Proof.
  exact (proj2 (proj2
    (add_then_delete_service Sample.world Sample.service_form 8
       sample_logged_in
       (proj2 (proj2 (proj2 (proj2 sample_pk_integrity))))
       eq_refl eq_refl))).
Defined.

(** ** The cost of a rental: errors and bounds *)

(** X13.  [calc_total_cost] reads the start date, then the end date, and
    only then converts the price.  A missing start date is a [TypeError]
    and a start date in ASCII text that is no date a [ValueError], whatever
    the end date and the price are; with the start date read, the same
    holds of the end date; with both dates read, the call returns when
    [float] converts the price and raises what [float] raises otherwise. *)
Theorem calc_total_cost_errors (price : number)
    (start_date end_date : option string) :
  (start_date = None ->
     calc_total_cost price start_date end_date = Raise TypeError)
  /\
  (forall s, start_date = Some s -> is_ascii s = true ->
     Datetime.strptime_ymd s = None ->
     calc_total_cost price start_date end_date = Raise ValueError)
  /\
  (forall s sd, start_date = Some s -> Datetime.strptime_ymd s = Some sd ->
     (end_date = None ->
        calc_total_cost price start_date end_date = Raise TypeError) /\
     (forall e, end_date = Some e -> is_ascii e = true ->
        Datetime.strptime_ymd e = None ->
        calc_total_cost price start_date end_date = Raise ValueError) /\
     (forall e ed, end_date = Some e -> Datetime.strptime_ymd e = Some ed ->
        (forall x, float_ price = Ok x ->
           calc_total_cost price start_date end_date
           = Ok (PrimFloat.mul x
                   (PrimFloat.of_uint63
                      (Uint63.of_Z
                         (Z.max 1 (Datetime.days_between sd ed + 1)))))) /\
        (forall err, float_ price = Raise err ->
           calc_total_cost price start_date end_date = Raise err))).
Proof.
  split; [intros ->; reflexivity |].
  split.
  - intros s -> _ Hs. unfold calc_total_cost, strptime. rewrite Hs.
    reflexivity.
  - intros s sd -> Hs. split; [| split].
    + intros ->. unfold calc_total_cost, strptime. rewrite Hs. reflexivity.
    + intros e -> _ He. unfold calc_total_cost, strptime. rewrite Hs, He.
      reflexivity.
    + intros e ed -> He. split.
      * intros x Hx. exact (calc_total_cost_run price x s e sd ed Hs He Hx).
      * intros err Herr. unfold calc_total_cost, strptime.
        rewrite Hs, He, Herr. reflexivity.
Qed.

Lemma calc_total_cost_errors_witness :
  calc_total_cost (PyInt (2 ^ 1024)) (Some "2024-02-30") None
  = Raise ValueError
  /\ calc_total_cost (PyInt (2 ^ 1024)) (Some "2024-02-28") (Some "2024-03-01")
     = Raise OverflowError.
Proof.
  split.
  - exact (proj1 (proj2
      (calc_total_cost_errors (PyInt (2 ^ 1024)) (Some "2024-02-30") None))
      "2024-02-30" eq_refl eq_refl eq_refl).
  - exact (proj2 (proj2 (proj2 (proj2 (proj2
      (calc_total_cost_errors (PyInt (2 ^ 1024)) (Some "2024-02-28")
         (Some "2024-03-01")))
      "2024-02-28" (Datetime.mk_date 2024 2 28) eq_refl eq_refl))
      "2024-03-01" (Datetime.mk_date 2024 3 1) eq_refl eq_refl)
      OverflowError eq_refl).
Defined.

(** X14.  The number of days billed lies between 1 and 3652059 (the
    ordinal of 9999-12-31): for texts that [strptime] reads and a price
    that [float] converts to [x], the result is [x] times a whole number
    of days in that range, as a [float], so the count is never zero or
    negative, and the bound is reached. *)
Theorem calc_total_cost_days_bounded (price : number) (x : float)
    (s e : string) (sd ed : Datetime.date) :
  Datetime.strptime_ymd s = Some sd ->
  Datetime.strptime_ymd e = Some ed ->
  float_ price = Ok x ->
  exists days,
    1 <= days <= 3652059 /\
    days = Z.max 1 (Datetime.toordinal ed - Datetime.toordinal sd + 1) /\
    calc_total_cost price (Some s) (Some e)
    = Ok (PrimFloat.mul x (days_as_float days)).
Proof.
  intros Hs He Hx.
  pose proof (toordinal_bounds sd (DatetimeFacts.strptime_ymd_valid _ _ Hs)).
  pose proof (toordinal_bounds ed (DatetimeFacts.strptime_ymd_valid _ _ He)).
  exists (Z.max 1 (Datetime.toordinal ed - Datetime.toordinal sd + 1)).
  split; [lia |]. split; [reflexivity |].
  exact (calc_total_cost_run price x s e sd ed Hs He Hx).
Qed.

Lemma calc_total_cost_days_bounded_witness :
  exists days,
    1 <= days <= 3652059 /\
    days = Z.max 1 (Datetime.toordinal (Datetime.mk_date 9999 12 31)
                    - Datetime.toordinal (Datetime.mk_date 1 1 1) + 1) /\
    calc_total_cost (PyFloat 2%float) (Some "0001-01-01") (Some "9999-12-31")
    = Ok (PrimFloat.mul 2%float (days_as_float days)).
Proof.
  exact (calc_total_cost_days_bounded (PyFloat 2%float) 2%float
           "0001-01-01" "9999-12-31"
           (Datetime.mk_date 1 1 1) (Datetime.mk_date 9999 12 31)
           eq_refl eq_refl eq_refl).
Defined.

Example calc_total_cost_longest :
  calc_total_cost (PyFloat 2%float) (Some "0001-01-01") (Some "9999-12-31")
  = Ok 7304118%float.
Proof. vm_compute. reflexivity. Qed.

(** ** Logging in and out *)

Section LoginFacts.

Variable collation_eqb : string -> string -> bool.
Variable check_password_hash : string -> option string -> result bool.

(** X15.  A login with the user name of an account and a password that
    its hash matches sets [user_id] and [username] of the session to the id
    and the name the account is stored with (not the name as typed), keeps
    the pending notices, flashes the success notice and redirects to the
    dashboard; afterwards no admin route sends the client back to the
    login page. *)
Theorem login_success (w : World) (f : LoginForm.t) (r : User) :
  select_user collation_eqb (users (db w)) (LoginForm.username f) = Some r ->
  check_password_hash (user_password_hash r) (LoginForm.password f) = Ok true ->
  let w1 := snd (login collation_eqb check_password_hash (POST f) w) in
  login collation_eqb check_password_hash (POST f) w
  = (Ok (redirect "dashboard"),
     mk_world (db w)
       (mk_session (Some (user_id r)) (Some (user_username r))
          (flashes (session w) ++ [("Logged in successfully.", "success")])))
  /\ logged_in w1
  /\ (forall route, fst (dispatch route w1) <> Ok (redirect "login")).
Proof.
  intros Hsel Hpw w1.
  assert (Hrun : login collation_eqb check_password_hash (POST f) w
    = (Ok (redirect "dashboard"),
       mk_world (db w)
         (mk_session (Some (user_id r)) (Some (user_username r))
            (flashes (session w) ++ [("Logged in successfully.", "success")])))).
  { unfold login. run_handler. rewrite Hsel, Hpw. reflexivity. }
  subst w1. rewrite Hrun. cbn [snd].
  split; [reflexivity |]. split; [unfold logged_in; cbn; discriminate |].
  intros route Hresp.
  destruct route; cbn [dispatch] in Hresp;
    unfold add_car, edit_car, delete_car, add_customer, edit_customer,
           delete_customer, add_booking, edit_booking, delete_booking,
           add_service, edit_service, delete_service, admin_required
      in Hresp;
    cbn [session session_user_id] in Hresp;
    try destruct req; unfold bind, ret, query, execute, lift, flash in Hresp;
    cbn [fst snd db session flashes session_user_id session_username] in Hresp;
    unfold insert_car, update_car, insert_customer, update_customer,
           insert_booking, update_booking, insert_service, update_service
      in Hresp;
    repeat (match type of Hresp with
            | context [match ?x with _ => _ end] =>
                lazymatch x with
                | context [match _ with _ => _ end] => fail
                | _ => destruct x eqn:?
                end
            end;
            cbn [fst snd db session flashes session_user_id session_username]
              in Hresp);
    discriminate.
Qed.

(** X16.  Nobody is logged in by a request that does not pass the check:
    when a login request changes [user_id] of the session, it was a POST
    with the user name of an account whose hash [check_password_hash]
    accepted for the submitted password. *)
Theorem login_only_when_checked (w : World) (req : request LoginForm.t) :
  session_user_id
    (session (snd (login collation_eqb check_password_hash req w)))
  <> session_user_id (session w) ->
  exists f r,
    req = POST f /\
    select_user collation_eqb (users (db w)) (LoginForm.username f) = Some r /\
    check_password_hash (user_password_hash r) (LoginForm.password f) = Ok true.
Proof.
  unfold login. destruct req as [| f]; run_handler.
  - intros Hne. congruence.
  - destruct (select_user collation_eqb (users (db w)) (LoginForm.username f))
      as [r|] eqn:Esel; run_handler.
    + destruct (check_password_hash (user_password_hash r)
                  (LoginForm.password f)) as [[|] | e] eqn:Epw;
        run_handler; intros Hne; try congruence.
      exists f, r. auto.
    + intros Hne. congruence.
Qed.

End LoginFacts.

Lemma login_success_witness :
  let w := mk_world
             (mk_store (mk_table [SampleLibrary.other_user] 2) empty_table
                       empty_table empty_table empty_table)
             empty_session in
  login SampleLibrary.collation_eqb SampleLibrary.check_password_hash
        (POST (LoginForm.mk (Some "BOB") (Some "secret"))) w
  = (Ok (redirect "dashboard"),
     mk_world (db w)
       (mk_session (Some 1) (Some "bob")
          [("Logged in successfully.", "success")])).
Proof.
  exact (proj1
    (login_success SampleLibrary.collation_eqb
       SampleLibrary.check_password_hash
       (mk_world
          (mk_store (mk_table [SampleLibrary.other_user] 2) empty_table
                    empty_table empty_table empty_table)
          empty_session)
       (LoginForm.mk (Some "BOB") (Some "secret"))
       SampleLibrary.other_user eq_refl eq_refl)).
Defined.

Lemma login_only_when_checked_witness :
  let w := mk_world
             (mk_store (mk_table [SampleLibrary.other_user] 2) empty_table
                       empty_table empty_table empty_table)
             empty_session in
  exists f r,
    POST (LoginForm.mk (Some "bob") (Some "secret")) = POST f /\
    select_user SampleLibrary.collation_eqb (users (db w))
                (LoginForm.username f) = Some r /\
    SampleLibrary.check_password_hash (user_password_hash r)
                                      (LoginForm.password f) = Ok true.
Proof.
  refine (login_only_when_checked SampleLibrary.collation_eqb
            SampleLibrary.check_password_hash
            (mk_world
               (mk_store (mk_table [SampleLibrary.other_user] 2) empty_table
                         empty_table empty_table empty_table)
               empty_session)
            (POST (LoginForm.mk (Some "bob") (Some "secret"))) _).
  cbn. discriminate.
Defined.

(** X17.  After a logout the session holds nothing but the notice
    "Logged out." (the notices that were pending are dropped with the
    rest), the store is as it was, and every admin route sends the client
    to the login page. *)
Theorem logout_closes_routes (w : World) (r : route) :
  logout w
  = (Ok (redirect "login"),
     mk_world (db w) (mk_session None None [("Logged out.", "info")]))
  /\
  dispatch r (snd (logout w))
  = (Ok (redirect "login"),
     mk_world (db w)
       (mk_session None None
          [("Logged out.", "info"); ("Please login first.", "warning")])).
Proof.
  assert (Hout : logout w
    = (Ok (redirect "login"),
       mk_world (db w) (mk_session None None [("Logged out.", "info")])))
    by reflexivity.
  split; [exact Hout |]. rewrite Hout. cbn [snd].
  destruct r; cbn [dispatch]; unfold_handlers;
    rewrite admin_required_anonymous by reflexivity; reflexivity.
Qed.

(** ** Every state the application reaches *)

Lemma dispatch_maintains_pk (r : route) : maintains pk_integrity (dispatch r).
Proof.
  destruct r; cbn [dispatch]; unfold_handlers;
    apply maintains_admin_required; repeat primary_step.
Qed.

Lemma dispatch_preserves_fk (r : route) : preserves (dispatch r).
Proof.
  destruct r; cbn [dispatch]; unfold_handlers;
    apply preserves_admin_required; repeat keys_step.
Qed.

Lemma dispatch_keeps_users (r : route) (w : World) :
  users (db (snd (dispatch r w))) = users (db w).
Proof.
  destruct w as [s ss].
  destruct r; cbn [dispatch]; unfold_handlers; unfold admin_required;
    cbn [session session_user_id];
    (destruct (session_user_id ss); [| run_handler; reflexivity]);
    try destruct req; run_handler;
    unfold insert_car, update_car, insert_customer, update_customer,
           insert_booking, update_booking, insert_service, update_service,
           delete_car_row, delete_customer_row;
    repeat (branch; run_handler);
    reflexivity.
Qed.

Section ReachableFacts.

Variable collation_eqb : string -> string -> bool.
Variable generate_password_hash : string -> string -> string.
Variable check_password_hash : string -> option string -> result bool.

Hypothesis collation_refl : forall s, collation_eqb s s = true.

Lemma login_keeps_db (req : request LoginForm.t) (w : World) :
  db (snd (login collation_eqb check_password_hash req w)) = db w.
Proof.
  unfold login. destruct req as [| f]; run_handler; [reflexivity |].
  destruct (select_user collation_eqb (users (db w)) (LoginForm.username f));
    run_handler; [| reflexivity].
  destruct (check_password_hash _ _) as [[|] | e]; run_handler; reflexivity.
Qed.

(** X18.  In every state the application reaches from a server without a
    database - through starts and restarts, logins, logouts and requests to
    the admin routes - the primary keys are unique and below the counters,
    the foreign keys hold, and the users table holds the seed account and
    no other: no request creates, changes or removes an account. *)
Theorem reachable_invariants (w : World) :
  reachable collation_eqb generate_password_hash check_password_hash w ->
  pk_integrity (db w) /\
  fk_integrity (db w) /\
  exists salt,
    users (db w)
    = mk_table [mk_user 1 ADMIN_DEFAULT_USERNAME
                  (generate_password_hash salt ADMIN_DEFAULT_PASSWORD)
                  (Some "admin")] 2.
Proof.
  induction 1 as [salt s out Hinit
                 | salt w s out Hw IH Hinit
                 | w req Hw IH
                 | w Hw IH
                 | w r Hw IH].
  - unfold init_db in Hinit. cbn in Hinit. injection Hinit as <- _.
    split; [| split].
    + unfold pk_integrity, keyed, insert.
      cbn [users cars customers bookings services rows auto_increment
           empty_table app map].
      repeat match goal with
             | |- _ /\ _ => split
             | |- NoDup _ => constructor
             | |- Forall _ _ => constructor
             | |- ~ In _ _ => cbn; tauto
             | |- _ < _ => cbn; lia
             end.
    + split; cbn; intros x [].
    + exists salt. reflexivity.
  - destruct IH as (Hpk & Hfk & salt0 & Husers).
    unfold init_db in Hinit.
    cbn [server_of create_database_if_not_exists users_table cars_table
         customers_table bookings_table services_table
         create_table_if_not_exists] in Hinit.
    rewrite Husers in Hinit. unfold select_user in Hinit.
    cbn [rows find user_username] in Hinit.
    rewrite collation_refl in Hinit. injection Hinit as <- _.
    cbn [db].
    split; [| split].
    + destruct Hpk as (Hu & Hc & Hcu & Hb & Hv). rewrite Husers in Hu.
      unfold pk_integrity. cbn [users cars customers bookings services].
      auto.
    + exact Hfk.
    + exists salt0. reflexivity.
  - rewrite login_keeps_db. exact IH.
  - exact IH.
  - destruct IH as (Hpk & Hfk & salt0 & Husers).
    split; [exact (dispatch_maintains_pk r w Hpk) |].
    split; [exact (dispatch_preserves_fk r w Hfk) |].
    exists salt0. rewrite dispatch_keeps_users. exact Husers.
Qed.

End ReachableFacts.

Lemma reachable_invariants_witness :
  let s0 := mk_store
              (mk_table [mk_user 1 "admin" "plain$salt$admin123" (Some "admin")] 2)
              empty_table empty_table empty_table empty_table in
  let w1 := snd (login SampleLibrary.collation_eqb
                       SampleLibrary.check_password_hash
                       (POST (LoginForm.mk (Some "admin") (Some "admin123")))
                       (mk_world s0 empty_session)) in
  let w2 := snd (dispatch
                   (cars_add (POST (CarForm.mk (Some "Golf") None None None
                                      None None None))) w1) in
  rows (cars (db w2)) = [mk_car 1 "Golf" None None None 0 "available" None] /\
  pk_integrity (db w2) /\ fk_integrity (db w2).
Proof.
  cbv zeta. split; [reflexivity |].
  pose proof (reachable_invariants SampleLibrary.collation_eqb
                SampleLibrary.generate_password_hash
                SampleLibrary.check_password_hash sample_collation_refl _
                (reach_route _ _ _ _
                   (cars_add (POST (CarForm.mk (Some "Golf") None None None
                                      None None None)))
                   (reach_login _ _ _ _
                      (POST (LoginForm.mk (Some "admin") (Some "admin123")))
                      (reach_start SampleLibrary.collation_eqb
                         SampleLibrary.generate_password_hash
                         SampleLibrary.check_password_hash "salt"
                         (mk_store
                            (mk_table [mk_user 1 "admin" "plain$salt$admin123"
                                         (Some "admin")] 2)
                            empty_table empty_table empty_table empty_table)
                         ["Default admin created -> username: admin password: admin123"]
                         eq_refl))))
    as (Hpk & Hfk & _).
  split; [exact Hpk | exact Hfk].
Defined.

(** ** No availability check *)

(** X19.  A car that was just booked can be booked again, for the same
    dates and by another customer: the second request is served like the
    first, and the bookings table then holds both bookings, [active], for
    the same car. *)
Theorem add_booking_twice (w : World) (f g : BookingForm.t) (c cu cu' : Z)
    (car : Car) (s e : string) (sd ed : Datetime.date) :
  logged_in w ->
  BookingForm.car_id f = Some c ->
  BookingForm.customer_id f = Some cu ->
  BookingForm.start_date f = Some s ->
  BookingForm.end_date f = Some e ->
  BookingForm.car_id g = Some c ->
  BookingForm.customer_id g = Some cu' ->
  BookingForm.start_date g = Some s ->
  BookingForm.end_date g = Some e ->
  select_by_id (cars (db w)) (Some c) = Some car ->
  has_id (customers (db w)) (Some cu) = true ->
  has_id (customers (db w)) (Some cu') = true ->
  Datetime.strptime_ymd s = Some sd ->
  Datetime.strptime_ymd e = Some ed ->
  let total :=
    PrimFloat.mul (hundredths_as_float (car_price_per_day car))
      (days_as_float (Z.max 1 (Datetime.days_between sd ed + 1))) in
  let n := auto_increment (bookings (db w)) in
  let w1 := snd (add_booking (POST f) w) in
  let w2 := snd (add_booking (POST g) w1) in
  car_status_of (db w1) c = Some "rented" /\
  fst (add_booking (POST g) w1) = Ok (redirect "view_bookings") /\
  rows (bookings (db w2))
  = rows (bookings (db w))
    ++ [mk_booking n c cu s e total (Some "active");
        mk_booking (n + 1) c cu' s e total (Some "active")].
Proof.
  intros Hin Hc Hcu Hs He Hc' Hcu' Hs' He' Hcar Hcust Hcust' Hsd Hed
         total n w1 w2.
  assert (Hhas : has_id (cars (db w)) (Some c) = true)
    by (apply has_id_select; eauto).
  pose proof (add_booking_run w f c cu car s e sd ed
                Hin Hc Hcu Hs He Hcar Hcust Hsd Hed) as Hrun1.
  fold total in Hrun1.
  set (car' := mk_car (car_id car) (car_name car) (car_brand car)
                 (car_model car) (car_year car) (car_price_per_day car)
                 "rented" (car_description car)).
  assert (Hin1 : logged_in w1).
  { subst w1. rewrite Hrun1. exact Hin. }
  assert (Hcar1 : select_by_id (cars (db w1)) (Some c) = Some car').
  { subst w1. rewrite Hrun1. cbn [snd db].
    unfold update_car_status, with_cars, with_bookings. cbn [cars].
    rewrite select_update_same by reflexivity. rewrite Hcar. reflexivity. }
  assert (Hcust1 : has_id (customers (db w1)) (Some cu') = true).
  { subst w1. rewrite Hrun1. exact Hcust'. }
  pose proof (add_booking_run w1 g c cu' car' s e sd ed
                Hin1 Hc' Hcu' Hs' He' Hcar1 Hcust1 Hsd Hed) as Hrun2.
  split; [| split].
  - unfold car_status_of. rewrite Hcar1. reflexivity.
  - rewrite Hrun2. reflexivity.
  - subst w2. rewrite Hrun2. cbn [snd db].
    unfold update_car_status at 1. unfold with_cars, with_bookings.
    cbn [bookings]. unfold insert at 1. cbn [rows].
    subst w1. rewrite Hrun1. cbn [snd db].
    unfold update_car_status, with_cars, with_bookings, insert.
    cbn [bookings rows auto_increment car_price_per_day car'].
    rewrite <- app_assoc. reflexivity.
Qed.

Lemma add_booking_twice_witness :
  List.length
    (rows (bookings
       (db (snd (add_booking (POST Sample.booking_form)
                   (snd (add_booking (POST Sample.booking_form)
                           Sample.world)))))))
  = 5%nat.
Proof.
  pose proof (add_booking_twice Sample.world Sample.booking_form
                Sample.booking_form 8 2 2 Sample.car8
                "2024-05-01" "2024-05-03"
                (Datetime.mk_date 2024 5 1) (Datetime.mk_date 2024 5 3)
                sample_logged_in eq_refl eq_refl eq_refl eq_refl eq_refl
                eq_refl eq_refl eq_refl eq_refl eq_refl eq_refl eq_refl
                eq_refl) as (_ & _ & Hrows).
  rewrite Hrows. reflexivity.
Defined.

(** ** References to rows that are not there *)

(** X20.  A booking or a service for a car that is not in the store, or a
    booking for a customer that is not, is refused by the database
    ([IntegrityError]) and leaves no trace; the price 0 that the handler
    takes for a car it did not find never reaches a row.  The same holds
    when an existing booking or service is edited to such a car or
    customer, and when the form names no car or no customer at all. *)
Theorem unknown_reference_refused (w : World) :
  logged_in w ->
  (forall f, well_dated f = true ->
     BookingForm.car_id f = None \/ BookingForm.customer_id f = None ->
     add_booking (POST f) w = (Raise IntegrityError, w))
  /\
  (forall f c, BookingForm.car_id f = Some c ->
     has_id (cars (db w)) (Some c) = false ->
     well_dated f = true ->
     add_booking (POST f) w = (Raise IntegrityError, w) /\
     forall id, has_id (bookings (db w)) (Some id) = true ->
                edit_booking id (POST f) w = (Raise IntegrityError, w))
  /\
  (forall f cu, BookingForm.customer_id f = Some cu ->
     has_id (customers (db w)) (Some cu) = false ->
     well_dated f = true ->
     add_booking (POST f) w = (Raise IntegrityError, w) /\
     forall id, has_id (bookings (db w)) (Some id) = true ->
                edit_booking id (POST f) w = (Raise IntegrityError, w))
  /\
  (forall f c, ServiceForm.car_id f = Some c ->
     has_id (cars (db w)) (Some c) = false ->
     add_service (POST f) w = (Raise IntegrityError, w) /\
     forall id, has_id (services (db w)) (Some id) = true ->
                edit_service id (POST f) w = (Raise IntegrityError, w)).
Proof.
  intros Hin.
  assert (Hadd : forall f, well_dated f = true ->
    booking_values (db w) (BookingForm.car_id f) (BookingForm.customer_id f)
      (BookingForm.start_date f) (BookingForm.end_date f)
      0%float None = None ->
    add_booking (POST f) w = (Raise IntegrityError, w)).
  { intros f Hd Hv. unfold add_booking.
    rewrite admin_required_logged_in by exact Hin. run_handler.
    destruct (well_dated_run f
                (price_of (select_by_id (cars (db w)) (BookingForm.car_id f)))
                Hd (float_price_of _)) as [total ->].
    unfold insert_booking. unfold booking_values in *.
    destruct (BookingForm.car_id f) as [c0|],
             (BookingForm.customer_id f) as [cu0|],
             (BookingForm.start_date f), (BookingForm.end_date f);
      try reflexivity.
    destruct (has_id (cars (db w)) (Some c0)
              && has_id (customers (db w)) (Some cu0));
      [discriminate | reflexivity]. }
  assert (Hedit : forall f id, well_dated f = true ->
    has_id (bookings (db w)) (Some id) = true ->
    booking_values (db w) (BookingForm.car_id f) (BookingForm.customer_id f)
      (BookingForm.start_date f) (BookingForm.end_date f)
      0%float None = None ->
    edit_booking id (POST f) w = (Raise IntegrityError, w)).
  { intros f id Hd Hb Hv. unfold edit_booking.
    rewrite admin_required_logged_in by exact Hin. run_handler.
    destruct (well_dated_run f
                (price_of (select_by_id (cars (db w)) (BookingForm.car_id f)))
                Hd (float_price_of _)) as [total ->].
    unfold update_booking. rewrite Hb. unfold booking_values in *.
    destruct (BookingForm.car_id f) as [c0|],
             (BookingForm.customer_id f) as [cu0|],
             (BookingForm.start_date f), (BookingForm.end_date f);
      try reflexivity.
    destruct (has_id (cars (db w)) (Some c0)
              && has_id (customers (db w)) (Some cu0));
      [discriminate | reflexivity]. }
  split; [| split; [| split]].
  - intros f Hd Hmiss. apply (Hadd f Hd). unfold booking_values.
    destruct Hmiss as [-> | ->]; [reflexivity |].
    destruct (BookingForm.car_id f); reflexivity.
  - intros f c Hc Hno Hd.
    assert (Ev : booking_values (db w) (BookingForm.car_id f)
                   (BookingForm.customer_id f) (BookingForm.start_date f)
                   (BookingForm.end_date f) 0%float None = None).
    { unfold booking_values. rewrite Hc, Hno.
      destruct (BookingForm.customer_id f), (BookingForm.start_date f),
               (BookingForm.end_date f); reflexivity. }
    split; [exact (Hadd f Hd Ev) |].
    intros id Hb. exact (Hedit f id Hd Hb Ev).
  - intros f cu Hcu Hno Hd.
    assert (Ev : booking_values (db w) (BookingForm.car_id f)
                   (BookingForm.customer_id f) (BookingForm.start_date f)
                   (BookingForm.end_date f) 0%float None = None).
    { unfold booking_values. rewrite Hcu, Hno.
      destruct (BookingForm.car_id f), (BookingForm.start_date f),
               (BookingForm.end_date f); try reflexivity.
      rewrite andb_false_r. reflexivity. }
    split; [exact (Hadd f Hd Ev) |].
    intros id Hb. exact (Hedit f id Hd Hb Ev).
  - intros f c Hc Hno. split.
    + unfold add_service. rewrite admin_required_logged_in by exact Hin.
      run_handler. unfold insert_service, service_values.
      rewrite Hc, Hno. reflexivity.
    + intros id Hv. unfold edit_service.
      rewrite admin_required_logged_in by exact Hin.
      run_handler. unfold update_service, service_values.
      rewrite Hv, Hc, Hno. reflexivity.
Qed.

Lemma unknown_reference_refused_witness :
  add_booking (POST (BookingForm.mk (Some 99) (Some 2) (Some "2024-05-01")
                       (Some "2024-05-03") None))
              Sample.world
  = (Raise IntegrityError, Sample.world).
Proof.
  exact (proj1
    (proj1 (proj2 (unknown_reference_refused Sample.world sample_logged_in))
       (BookingForm.mk (Some 99) (Some 2) (Some "2024-05-01")
          (Some "2024-05-03") None)
       99 eq_refl eq_refl eq_refl)).
Defined.
